(** * ByteBuddy: the analysis-response interpreter of the dashboard

    A shallow embedding of the parsing and scoring methods of the class
    [ByteBuddyAnalyzer], which the repository holds in two copies:
    [app/static/js/analysis.js] (the themed copy, module [AnalysisJs]
    below) and a plain copy (module [Part000]).

    JavaScript strings are sequences of UTF-16 code units; regular
    expressions are interpreted by a backtracking matcher that follows the
    ECMAScript pattern semantics for the constructs the source uses. *)

From Stdlib Require Import List NArith ZArith Bool String Ascii DecimalString Lia.
Import ListNotations.

Set Implicit Arguments.
Set Warnings "-register-all".

(** ** Strings *)

(** A JavaScript string: its UTF-16 code units. *)
Definition jsstring := list N.

(** An ASCII literal of the source as a JavaScript string. *)
Definition js (s : string) : jsstring :=
  map N_of_ascii (list_ascii_of_string s).

Definition jsstring_eqb (a b : jsstring) : bool :=
  if list_eq_dec N.eq_dec a b then true else false.

(** [s.startsWith(p)] *)
Fixpoint startsWith (s p : jsstring) {struct p} : bool :=
  match p, s with
  | [], _ => true
  | a :: p', b :: s' => (a =? b)%N && startsWith s' p'
  | _ :: _, [] => false
  end.

(** [s.includes(p)] *)
Fixpoint includes (s p : jsstring) : bool :=
  startsWith s p ||
  match s with
  | [] => false
  | _ :: s' => includes s' p
  end.

(** WhiteSpace and LineTerminator code units: what [\s] matches and what
    [trim] removes. *)
Definition isWhiteSpace (c : N) : bool :=
  ((9 <=? c) && (c <=? 13) || (c =? 32) || (c =? 160) || (c =? 5760)
   || (8192 <=? c) && (c <=? 8202) || (c =? 8232) || (c =? 8233)
   || (c =? 8239) || (c =? 8287) || (c =? 12288) || (c =? 65279))%N.

Fixpoint dropWhile (p : N -> bool) (s : jsstring) : jsstring :=
  match s with
  | [] => []
  | c :: s' => if p c then dropWhile p s' else s
  end.

Definition trimStart (s : jsstring) : jsstring := dropWhile isWhiteSpace s.
Definition trimEnd (s : jsstring) : jsstring := rev (dropWhile isWhiteSpace (rev s)).

(** [s.trim()] *)
Definition trim (s : jsstring) : jsstring := trimEnd (trimStart s).

(** Case mapping of one code unit.  The Basic Latin letters are mapped as
    ECMAScript maps them; every other code unit is kept.  Every literal the
    source compares against a case-mapped string is ASCII, apart from the
    squared-glyph spellings, which contain no cased letter. *)
Definition lowerUnit (c : N) : N :=
  if ((65 <=? c) && (c <=? 90))%N then (c + 32)%N else c.

Definition upperUnit (c : N) : N :=
  if ((97 <=? c) && (c <=? 122))%N then (c - 32)%N else c.

(** [s.toLowerCase()] *)
Definition toLowerCase (s : jsstring) : jsstring := map lowerUnit s.

(** Decimal digits of a non-negative index, as in a template literal. *)
Definition decimal (n : nat) : jsstring :=
  js (NilEmpty.string_of_uint (Nat.to_uint n)).

(** ** Regular expressions *)

(** Members of a character class. *)
Inductive class_item : Type :=
| One (c : N)            (* a single code unit *)
| Digit                  (* \d *)
| Word                   (* \w *)
| Space.                 (* \s *)

(** Patterns, with the constructs the source's literals use. *)
Inductive regex : Type :=
| Empty                                   (* the empty pattern *)
| Char (c : N)                            (* a literal code unit *)
| Class (negated : bool) (items : list class_item)   (* [...] and [^...] *)
| Seq (r1 r2 : regex)                     (* r1r2 *)
| Alt (r1 r2 : regex)                     (* r1|r2 *)
| Star (r : regex)                        (* r*, greedy *)
| Group (i : nat) (r : regex)             (* the i-th capturing group *)
| Bol.                                    (* ^ without the m flag *)

(** r+ *)
Definition Plus (r : regex) : regex := Seq r (Star r).
(** r? *)
Definition Opt (r : regex) : regex := Alt r Empty.
(** r{3,} *)
Definition AtLeast3 (r : regex) : regex := Seq r (Seq r (Seq r (Star r))).
(** A sequence of patterns. *)
Definition Cat (rs : list regex) : regex := fold_right Seq Empty rs.
(** A literal run of ASCII characters. *)
Definition Lit (s : string) : regex := Cat (map Char (js s)).
(** The escapes [\s], [\w] and [\d] outside a class. *)
Definition AnySpace : regex := Class false [Space].
Definition AnyWord : regex := Class false [Word].

Definition isDigit (c : N) : bool := ((48 <=? c) && (c <=? 57))%N.
Definition isWordChar (c : N) : bool :=
  ((97 <=? c) && (c <=? 122) || (65 <=? c) && (c <=? 90) || isDigit c
   || (c =? 95))%N.

(** Captures: the text of each group that took part in the match. *)
Definition captures := list (nat * jsstring).

Fixpoint capture (i : nat) (cs : captures) : option jsstring :=
  match cs with
  | [] => None
  | (j, t) :: cs' => if Nat.eqb i j then Some t else capture i cs'
  end.

Section Matcher.

(** The [i] flag, and the whole subject string (for [^]). *)
Variable icase : bool.
Variable input : jsstring.

(** Canonicalize of the pattern semantics: with the [i] flag code units
    are compared after upper-casing.  A code unit outside ASCII never
    canonicalizes to an ASCII one, and the patterns that carry the [i]
    flag are ASCII. *)
Definition canon (c : N) : N := if icase then upperUnit c else c.

Definition item_matches (x : N) (it : class_item) : bool :=
  match it with
  | One c => (canon c =? canon x)%N
  | Digit => isDigit x
  | Word => isWordChar x
  | Space => isWhiteSpace x
  end.

Definition class_matches (negated : bool) (items : list class_item) (x : N) : bool :=
  xorb negated (existsb (item_matches x) items).

(** A matcher state is the rest of the subject and the captures so far;
    a continuation decides whether the rest of the pattern matches. *)
Definition state : Type := jsstring * captures.
Definition cont : Type := jsstring -> captures -> option state.

Definition accept : cont := fun s cs => Some (s, cs).

(** The backtracking matcher.  Alternatives are tried left to right, a
    star first tries one more iteration (refusing an iteration that
    consumes nothing) and then the continuation. *)
Fixpoint run (r : regex) (s : jsstring) (cs : captures) (k : cont) {struct r}
  : option state :=
  match r with
  | Empty => k s cs
  | Char c =>
      match s with
      | x :: s' => if (canon c =? canon x)%N then k s' cs else None
      | [] => None
      end
  | Class negated items =>
      match s with
      | x :: s' => if class_matches negated items x then k s' cs else None
      | [] => None
      end
  | Seq r1 r2 => run r1 s cs (fun s' cs' => run r2 s' cs' k)
  | Alt r1 r2 =>
      match run r1 s cs k with
      | Some st => Some st
      | None => run r2 s cs k
      end
  | Star r1 =>
      (fix iterate (fuel : nat) (s : jsstring) (cs : captures) : option state :=
         match fuel with
         | O => k s cs
         | S fuel' =>
             match run r1 s cs
                     (fun s' cs' =>
                        if (List.length s' <? List.length s)%nat
                        then iterate fuel' s' cs' else None) with
             | Some st => Some st
             | None => k s cs
             end
         end) (List.length s) s cs
  | Group i r1 =>
      run r1 s cs
        (fun s' cs' =>
           k s' ((i, firstn (List.length s - List.length s') s) :: cs'))
  | Bol => if (List.length s =? List.length input)%nat then k s cs else None
  end.

(** One attempt at the position whose suffix is [s]. *)
Definition match_here (r : regex) (s : jsstring) : option state :=
  run r s [] accept.

(** The result of a successful search: the suffix where the match starts,
    the rest after it, and the captures. *)
Record found : Type := Found {
  f_from : jsstring;
  f_rest : jsstring;
  f_groups : captures
}.

Definition f_text (m : found) : jsstring :=
  firstn (List.length (f_from m) - List.length (f_rest m)) (f_from m).

(** The leftmost match at or after the position whose suffix is [s]. *)
Fixpoint search (r : regex) (s : jsstring) : option found :=
  match match_here r s with
  | Some (rest, cs) => Some (Found s rest cs)
  | None =>
      match s with
      | [] => None
      | _ :: s' => search r s'
      end
  end.

(** All matches of a global pattern from the suffix [s] on: after an empty
    match the search resumes one code unit later. *)
Fixpoint search_all (fuel : nat) (r : regex) (s : jsstring) : list jsstring :=
  match fuel with
  | O => []
  | S fuel' =>
      match search r s with
      | None => []
      | Some m =>
          f_text m ::
          (if (List.length (f_rest m) <? List.length (f_from m))%nat
           then search_all fuel' r (f_rest m)
           else match f_rest m with
                | [] => []
                | _ :: s' => search_all fuel' r s'
                end)
      end
  end.

(** The loop of [split]: [acc] holds the code units since the last
    separator, [s] is the suffix at the position tried next. *)
Fixpoint split_loop (fuel : nat) (r : regex) (acc s : jsstring) : list jsstring :=
  match fuel with
  | O => [acc ++ s]
  | S fuel' =>
      match s with
      | [] => [acc]
      | c :: s' =>
          match match_here r s with
          | None => split_loop fuel' r (acc ++ [c]) s'
          | Some (rest, _) =>
              if (List.length rest =? List.length s)%nat
                 && (List.length acc =? 0)%nat
              then split_loop fuel' r (acc ++ [c]) s'
              else acc :: split_loop fuel' r [] rest
          end
      end
  end.

End Matcher.

(** A regular-expression literal: its pattern and its [i] flag. *)
Record regexp : Type := RegExp { pattern : regex; ignoreCase : bool }.

(** [s.match(re)] for a pattern without the [g] flag: the first match. *)
Definition String_match (s : jsstring) (re : regexp) : option found :=
  search (ignoreCase re) s (pattern re) s.

(** [m[i]] on a match result; [None] is [undefined]. *)
Definition group (i : nat) (m : found) : option jsstring :=
  match i with
  | O => Some (f_text m)
  | _ => capture i (f_groups m)
  end.

(** [s.match(re)] for a pattern with the [g] flag: all the matched texts,
    or [null] when there is none. *)
Definition String_match_all (s : jsstring) (re : regexp) : option (list jsstring) :=
  match search_all (ignoreCase re) s (S (List.length s)) (pattern re) s with
  | [] => None
  | ms => Some ms
  end.

(** [s.replace(re, repl)] for a pattern without the [g] flag and a
    replacement text without [$]: the first match is replaced. *)
Definition String_replace (s : jsstring) (re : regexp) (repl : jsstring) : jsstring :=
  match String_match s re with
  | None => s
  | Some m =>
      firstn (List.length s - List.length (f_from m)) s ++ repl ++ f_rest m
  end.

(** [s.split(re)] for a pattern without capturing groups. *)
Definition String_split (s : jsstring) (re : regexp) : list jsstring :=
  match s with
  | [] =>
      match match_here (ignoreCase re) s (pattern re) s with
      | Some _ => []
      | None => [s]
      end
  | _ => split_loop (ignoreCase re) s (2 * List.length s + 1) (pattern re) [] s
  end.

(** A literal character of a pattern, and of a class. *)
Definition Chr (a : ascii) : regex := Char (N_of_ascii a).
Definition Of (a : ascii) : class_item := One (N_of_ascii a).

(** ** Values and completions *)

(** The values the methods can be handed: [undefined] and what
    [response.json()] produces.  [Number z] is the number with the integer value
    [z], that is the double nearest to [z]; a number with a fractional
    part is outside the model.  An object is the list of its own
    properties. *)
Inductive value : Type :=
| Undefined
| Null
| Boolean (b : bool)
| Number (z : Z)
| Str (s : jsstring)
| Arr (elems : list value)
| Obj (props : list (jsstring * value)).

Inductive exn : Type := TypeError.

(** A call returns a value or throws. *)
Inductive completion (A : Type) : Type :=
| Return (a : A)
| Throw (e : exn).

Arguments Return {A} a.
Arguments Throw {A} e.

Definition bind {A B : Type} (c : completion A) (f : A -> completion B) : completion B :=
  match c with
  | Return a => f a
  | Throw e => Throw e
  end.

Notation "x <- c ;; k" := (bind c (fun x => k))
  (at level 61, c at next level, right associativity).

(** ToBoolean *)
Definition truthy (v : value) : bool :=
  match v with
  | Undefined | Null => false
  | Boolean b => b
  | Number z => negb (z =? 0)%Z
  | Str s => negb (List.length s =? 0)%nat
  | Arr _ | Obj _ => true
  end.

(** [typeof v === 'string'] *)
Definition is_string (v : value) : bool :=
  match v with
  | Str _ => true
  | _ => false
  end.

(** The own property [p] of an object. *)
Fixpoint own (p : jsstring) (props : list (jsstring * value)) : option value :=
  match props with
  | [] => None
  | (q, v) :: props' => if jsstring_eqb p q then Some v else own p props'
  end.

(** The property names every object inherits from [Object.prototype]; each
    holds a function, or the prototype object itself for [__proto__]. *)
Definition ObjectPrototype : list jsstring :=
  map js ["constructor"; "hasOwnProperty"; "isPrototypeOf";
          "propertyIsEnumerable"; "toLocaleString"; "toString"; "valueOf";
          "__proto__"; "__defineGetter__"; "__defineSetter__";
          "__lookupGetter__"; "__lookupSetter__"]%string.

Definition inherited (p : jsstring) : bool :=
  existsb (jsstring_eqb p) ObjectPrototype.

Fixpoint join (sep : jsstring) (parts : list jsstring) : jsstring :=
  match parts with
  | [] => []
  | [p] => p
  | p :: parts' => p ++ sep ++ join sep parts'
  end.

Fixpoint sequence {A : Type} (l : list (completion A)) : completion (list A) :=
  match l with
  | [] => Return []
  | c :: l' => a <- c ;; (r <- sequence l' ;; Return (a :: r))
  end.

(** The number value an integer stands for: the IEEE 754 double nearest to
    it, ties going to the even significand.  An integer below 2^53 in
    magnitude is its own double; from 2^1024 - 2^970 on the value is
    Infinity, [None] here. *)
Definition nearest_double (z : Z) : option Z :=
  let shift := (Z.log2 z - 52)%Z in
  if (shift <=? 0)%Z then Some z
  else
    let q := Z.shiftr z shift in
    let rem := (z - Z.shiftl q shift)%Z in
    let half := Z.shiftl 1 (shift - 1) in
    let q' := if (half <? rem)%Z || (rem =? half)%Z && Z.odd q then (q + 1)%Z else q in
    let x := Z.shiftl q' shift in
    if (2 ^ 1024 <=? x)%Z then None else Some x.

(** The decimal digits of a non-negative integer. *)
Definition digits (z : Z) : jsstring := js (NilEmpty.string_of_int (Z.to_int z)).

(** The decimal numeral [v] denotes the number value [x]. *)
Definition reads_as (x v : Z) : bool :=
  match nearest_double v with
  | Some y => (y =? x)%Z
  | None => false
  end.

(** Among the numerals with [k] significant digits that denote [x], of
    which there are at most the two around [x], the closest one; of two
    equally close, the one whose last significant digit is even.  [n] is
    the number of digits of [x]. *)
Definition closest (x : Z) (n k : nat) : option Z :=
  let unit := (10 ^ Z.of_nat (n - k))%Z in
  let low := (x / unit * unit)%Z in
  let high := (low + unit)%Z in
  match reads_as x low, reads_as x high with
  | false, false => None
  | true, false => Some low
  | false, true => Some high
  | true, true =>
      if (x - low <? high - x)%Z then Some low
      else if (high - x <? x - low)%Z then Some high
      else if Z.even (low / unit) then Some low else Some high
  end.

(** The numeral with the fewest significant digits that denotes [x]: no
    double needs more than 17. *)
Fixpoint shortest (x : Z) (n k fuel : nat) : Z :=
  match fuel with
  | O => x
  | S fuel' =>
      match closest x n k with
      | Some v => v
      | None => shortest x n (S k) fuel'
      end
  end.

Definition strip_zeros (ds : jsstring) : jsstring :=
  rev (dropWhile (N.eqb 48) (rev ds)).

(** Number::toString on a non-negative double with an integer value: the
    digits of its shortest numeral, written out in full up to 21 digits and
    with an exponent from there on. *)
Definition Number_toString (x : Z) : jsstring :=
  let ds := digits (shortest x (List.length (digits x)) 1 17) in
  let n := List.length ds in
  if (n <=? 21)%nat then ds
  else
    match strip_zeros ds with
    | [] => ds
    | [d] => d :: js "e+" ++ decimal (n - 1)
    | d :: more => d :: js "." ++ more ++ js "e+" ++ decimal (n - 1)
    end.

(** [String(z)] for the number that the integer [z] stands for. *)
Definition Z_to_string (z : Z) : jsstring :=
  (if (z <? 0)%Z then js "-" else [])
  ++ match nearest_double (Z.abs z) with
     | Some x => Number_toString x
     | None => js "Infinity"
     end.

(** [String(v)].  An array joins the conversions of its elements, [null]
    and [undefined] among them giving the empty string.  An object without a
    [toString] of its own prints through [Object.prototype.toString]; one
    whose own [toString] is data (no function comes out of JSON) has no
    primitive conversion, and the call throws. *)
Fixpoint String_ (v : value) : completion jsstring :=
  match v with
  | Undefined => Return (js "undefined")
  | Null => Return (js "null")
  | Boolean true => Return (js "true")
  | Boolean false => Return (js "false")
  | Number z => Return (Z_to_string z)
  | Str s => Return s
  | Arr elems =>
      parts <- sequence
                 (map (fun e =>
                         match e with
                         | Undefined | Null => Return []
                         | _ => String_ e
                         end) elems) ;;
      Return (join (js ",") parts)
  | Obj props =>
      match own (js "toString") props with
      | Some _ => Throw TypeError
      | None => Return (js "[object Object]")
      end
  end.

(** [v.p] on a value that is neither [null] nor [undefined], for a name [p]
    that no built-in prototype defines: an own property of an object, and
    [undefined] otherwise. *)
Definition get (v : value) (p : jsstring) : value :=
  match v with
  | Obj props =>
      match own p props with
      | Some x => x
      | None => Undefined
      end
  | _ => Undefined
  end.

(** [p in v], for a name [p] that is no array index and that
    [Array.prototype] does not define: a property of an object, own or
    inherited; never one of an array; a TypeError on a primitive. *)
Definition has_property (p : jsstring) (v : value) : completion bool :=
  match v with
  | Obj props =>
      Return (match own p props with Some _ => true | None => inherited p end)
  | Arr _ => Return false
  | _ => Throw TypeError
  end.

(** What [validateResponse] writes to the console besides its traces. *)
Inductive console : Type :=
| console_error_missing_results
| console_warn_missing (props : list jsstring).

(** ** Object literals used as tables *)

(** The value of [table[key]]: an own entry, a member inherited from
    [Object.prototype], or [undefined]. *)
Inductive entry : Type :=
| Own (z : Z)
| Proto (name : jsstring)
| Missing.

Fixpoint own_entry (key : jsstring) (table : list (jsstring * Z)) : option Z :=
  match table with
  | [] => None
  | (k, z) :: table' => if jsstring_eqb key k then Some z else own_entry key table'
  end.

Definition lookup (table : list (jsstring * Z)) (key : jsstring) : entry :=
  match own_entry key table with
  | Some z => Own z
  | None => if inherited key then Proto key else Missing
  end.

(** What the scoring methods return: a number, [NaN], or a member of
    [Object.prototype] that a lookup let through. *)
Inductive number : Type :=
| Num (z : Z)
| NaN
| Member (name : jsstring).

(** [e || d] for a table entry: an entry is falsy when it is [undefined] or
    zero. *)
Definition or_default (e : entry) (d : Z) : number :=
  match e with
  | Own z => if (z =? 0)%Z then Num d else Num z
  | Proto name => Member name
  | Missing => Num d
  end.

(** [Math.round((a + b) / 2)].  The mean of two integers is an integer or a
    half, and [Math.round] takes a half to the next integer up.  A function
    or object operand turns the sum into a string that is no numeral, and
    the result into [NaN]. *)
Definition round_mean (a b : number) : number :=
  match a, b with
  | Num x, Num y => Num ((x + y + 1) / 2)%Z
  | _, _ => NaN
  end.

(** The argument of the scoring methods: an object with the properties
    [time] and [space]; [None] is [undefined]. *)
Record analysis : Type := Analysis {
  time : option jsstring;
  space : option jsstring
}.

(** [t || d] for a property that is a string or [undefined]. *)
Definition or_string (t : option jsstring) (d : jsstring) : jsstring :=
  match t with
  | Some (c :: s) => c :: s
  | _ => d
  end.

Definition of_maybe (t : option jsstring) : value :=
  match t with
  | Some s => Str s
  | None => Undefined
  end.

(** [l.map((x, index) => f x index)] *)
Fixpoint map_from {A B : Type} (i : nat) (f : A -> nat -> B) (l : list A) : list B :=
  match l with
  | [] => []
  | x :: l' => f x i :: map_from (S i) f l'
  end.

Definition Array_map {A B : Type} (l : list A) (f : A -> nat -> B) : list B :=
  map_from 0 f l.

(** ** The methods whose text is the same in both files *)

Definition required : list jsstring :=
  map js ["complexity_analysis"; "documentation"; "refactoring_suggestions";
          "improvement_suggestions"]%string.

(** [required.filter(prop => !(prop in results))] *)
Fixpoint missing_in (results : value) (props : list jsstring) : completion (list jsstring) :=
  match props with
  | [] => Return []
  | p :: props' =>
      b <- has_property p results ;;
      rest <- missing_in results props' ;;
      Return (if negb b then p :: rest else rest)
  end.

(** [validateResponse(result)]: what it writes and how it completes. *)
Definition validateResponse (result : value) : list console * completion bool :=
  if negb (truthy result) || negb (truthy (get result (js "results")))
  then ([console_error_missing_results], Return false)
  else
    match missing_in (get result (js "results")) required with
    | Throw e => ([], Throw e)
    | Return missing =>
        ((if (0 <? List.length missing)%nat
          then [console_warn_missing missing] else []),
         Return true)
    end.

Definition functionPatterns : list regexp :=
  [ RegExp (Cat [Lit "function"; Plus AnySpace; Plus AnyWord]) false;
    RegExp (Cat [Lit "const"; Plus AnySpace; Plus AnyWord; Star AnySpace;
                 Chr "="; Star AnySpace; Chr "("]) false;
    RegExp (Cat [Lit "def"; Plus AnySpace; Plus AnyWord]) false;
    RegExp (Cat [Lit "public"; Plus AnySpace;
                 Opt (Group 1 (Cat [Lit "static"; Plus AnySpace]));
                 Plus AnyWord; Plus AnySpace; Plus AnyWord; Star AnySpace;
                 Chr "("]) false;
    RegExp (Cat [Lit "private"; Plus AnySpace;
                 Opt (Group 1 (Cat [Lit "static"; Plus AnySpace]));
                 Plus AnyWord; Plus AnySpace; Plus AnyWord; Star AnySpace;
                 Chr "("]) false;
    RegExp (Cat [Lit "func"; Plus AnySpace; Plus AnyWord; Star AnySpace;
                 Chr "("]) false;
    RegExp (Cat [Lit "fn"; Plus AnySpace; Plus AnyWord; Star AnySpace;
                 Chr "("]) false;
    RegExp (Cat [Plus AnyWord; Plus AnySpace; Plus AnyWord; Star AnySpace;
                 Chr "("; Star (Class true [Of ")"]); Chr ")"; Star AnySpace;
                 Chr "{"]) false ].

(** [countFunctions(code)]: the loop adds the length of each pattern's
    match array, when there is one. *)
Definition countFunctions (code : jsstring) : Z :=
  let count :=
    fold_left
      (fun count pattern =>
         match String_match_all code pattern with
         | Some matches => (count + Z.of_nat (List.length matches))%Z
         | None => count
         end)
      functionPatterns 0%Z in
  Z.max 1 count.

(** The three patterns of [parseComplexityFromAgent]. *)
Definition bigO : regex :=
  Group 1 (Cat [Class false [Of "O"; Of "("]; Star (Class true [Of ")"]); Chr ")"]).

Definition timePattern : regexp :=
  RegExp (Cat [Lit "Time Complexity:"; Star AnySpace; bigO]) true.
Definition fallbackPattern : regexp := RegExp bigO false.
Definition spacePattern : regexp :=
  RegExp (Cat [Lit "Space Complexity:"; Star AnySpace; bigO]) true.

(** The header pattern of [parseRefactoringSuggestionsFromAgent]. *)
Definition headerPattern : regexp :=
  RegExp (Cat [Bol;
               Group 1 (Alt (Lit "REFACTORING")
                       (Alt (Cat [Lit "SUGGESTION"; Opt (Chr "S")])
                       (Alt (AtLeast3 (Chr "=")) (AtLeast3 (Chr "-")))))]) true.

Definition newlines : regexp := RegExp (Plus (Char 10)) false.

(** What [parseComplexityFromAgent] returns. *)
Record assessment : Type := Assessment {
  time_complexity : option jsstring;
  time_color : jsstring;
  space_complexity : option jsstring;
  space_color : jsstring;
  performance_score : number;
  score : number;
  full_analysis : jsstring
}.

(** What [parseRefactoringSuggestionsFromAgent] returns, per line. *)
Record suggestion : Type := Suggestion {
  id : nat;
  title : jsstring;
  description : jsstring;
  priority : jsstring;
  category : jsstring;
  color : jsstring
}.

(** The [lines] of [parseRefactoringSuggestionsFromAgent], the same in both
    files: split, trim, and the two filters. *)
Definition lines (refactoringText : jsstring) : list jsstring :=
  filter (fun line =>
            negb (match String_match line headerPattern with
                  | Some _ => true
                  | None => false
                  end))
    (filter (fun line => (0 <? List.length line)%nat)
       (map trim (String_split refactoringText newlines))).

Definition marker : jsstring := js "No refactoring suggestions".

(** ** Further built-ins used by the methods outside the parsers *)

(** The loop of a global [replace] with a replacement text without [$]:
    what lies before each match is kept, the match gives way to [repl], and
    after an empty match the search resumes one code unit later. *)
Fixpoint replace_loop (icase : bool) (input : jsstring) (fuel : nat) (r : regex)
    (repl : jsstring) (s : jsstring) : jsstring :=
  match fuel with
  | O => s
  | S fuel' =>
      match search icase input r s with
      | None => s
      | Some m =>
          firstn (List.length s - List.length (f_from m)) s ++ repl ++
          (if (List.length (f_rest m) <? List.length (f_from m))%nat
           then replace_loop icase input fuel' r repl (f_rest m)
           else match f_rest m with
                | [] => []
                | c :: s' => c :: replace_loop icase input fuel' r repl s'
                end)
      end
  end.

(** [s.replace(re, repl)] for a pattern with the [g] flag. *)
Definition String_replace_all (s : jsstring) (re : regexp) (repl : jsstring) : jsstring :=
  replace_loop (ignoreCase re) s (S (List.length s)) (pattern re) repl s.

(** The value of [table[key]] for a table of strings. *)
Inductive text_entry : Type :=
| OwnText (s : jsstring)
| ProtoText (name : jsstring)
| NoText.

Fixpoint own_text (key : jsstring) (table : list (jsstring * jsstring)) : option jsstring :=
  match table with
  | [] => None
  | (k, t) :: table' => if jsstring_eqb key k then Some t else own_text key table'
  end.

Definition lookup_text (table : list (jsstring * jsstring)) (key : jsstring) : text_entry :=
  match own_text key table with
  | Some t => OwnText t
  | None => if inherited key then ProtoText key else NoText
  end.

(** What a lookup with a default text returns: a string, or a member of
    [Object.prototype] that the lookup let through. *)
Inductive label : Type :=
| Label (s : jsstring)
| LabelMember (name : jsstring).

(** [e || d] for an entry of a table of strings: the empty string is
    falsy. *)
Definition or_label (e : text_entry) (d : jsstring) : label :=
  match e with
  | OwnText [] => Label d
  | OwnText t => Label t
  | ProtoText name => LabelMember name
  | NoText => Label d
  end.

(** [a < b] and [a >= b] for a score [a] and a numeric literal [b]: a
    comparison with [NaN] is false, and a function or object operand
    converts to [NaN]. *)
Definition score_lt (a : number) (b : Z) : bool :=
  match a with
  | Num x => (x <? b)%Z
  | _ => false
  end.

Definition score_ge (a : number) (b : Z) : bool :=
  match a with
  | Num x => (b <=? x)%Z
  | _ => false
  end.

(** [s.split(sep)] for a separator of one code unit. *)
Fixpoint split_at (sep : N) (acc s : jsstring) : list jsstring :=
  match s with
  | [] => [acc]
  | x :: s' =>
      if (x =? sep)%N then acc :: split_at sep [] s'
      else split_at sep (acc ++ [x]) s'
  end.

Definition String_split_unit (s : jsstring) (sep : N) : list jsstring :=
  split_at sep [] s.

(** [a || d] for a score and a numeric default: zero and [NaN] are
    falsy. *)
Definition or_number (a : number) (d : Z) : number :=
  match a with
  | Num z => if (z =? 0)%Z then Num d else Num z
  | NaN => Num d
  | Member name => Member name
  end.

(** [v || d] for a value and a default text. *)
Definition or_value (v : value) (d : jsstring) : value :=
  if truthy v then v else Str d.

(** [v.p] where [v] may be [null] or [undefined]: then the access
    throws. *)
Definition member (v : value) (p : jsstring) : completion value :=
  match v with
  | Undefined | Null => Throw TypeError
  | _ => Return (get v p)
  end.

(** [v.trim()]: a string has the method; on any other value that is
    neither [null] nor [undefined] the call throws, as no built-in
    prototype but that of strings has a [trim] and no function comes out of
    JSON. *)
Definition trim_of (v : value) : completion jsstring :=
  match v with
  | Str s => Return (trim s)
  | _ => Throw TypeError
  end.

(** ** The controller: calls, failures, and the order of effects *)

(** What a [catch] clause can receive. *)
Inductive failure : Type :=
| Error_ (message : jsstring)   (* new Error(message) *)
| Native (e : exn)              (* an error thrown by the engine *)
| FetchFailed                   (* the rejection of fetch *)
| NotJson.                      (* the rejection of response.json() *)

Inductive attempt (A : Type) : Type :=
| Ok (a : A)
| Failed (f : failure).

Arguments Ok {A} a.
Arguments Failed {A} f.

(** What the view is handed for the structure and improvements tabs. *)
Record structureData : Type := StructureData {
  functions_count : Z;
  lines_count : nat;
  complexity_score : number;
  dependencies : Z;
  structure_image : value
}.

(** The field [performance_score] of the improvements object is
    [improvements_performance_score] here, [performance_score] being the
    field of the assessment. *)
Record improvementsData : Type := ImprovementsData {
  improvements_performance_score : number;
  readability_score : Z;
  documentation_score : Z;
  testing_score : Z;
  content : value
}.

(** The calls that the controller makes into the view and the network, and
    its assignments to [this.currentSessionId].  An alert whose text is
    built from a caught error is recorded with the prefix and the error.
    The methods with [Hacker] in their names are those of analysis.js. *)
Inductive call : Type :=
| showAlert (message type : jsstring)
| showAlertError (prefix : jsstring) (error : failure)
| showLoadingState
| hideLoadingState
| fetch (code language options : jsstring)
| set_currentSessionId (v : value)
| updateComplexityTab (data : assessment)
| setComplexityTabError (message : jsstring)
| updateDocumentationTab (content : value)
| setDocumentationTabError (message : jsstring)
| updateRefactoringTab (suggestions : list suggestion)
| setRefactoringTabError (message : jsstring)
| updateStructureTab (data : structureData)
| updateImprovementsTab (data : improvementsData)
| switchTab (tab : jsstring)
| showHackerAlert (message type : jsstring)
| showHackerAlertError (prefix : jsstring) (error : failure)
| showHackerLoadingState
| hideHackerLoadingState
| updateHackerComplexityTab (data : assessment)
| updateHackerDocumentationTab (content : value)
| updateHackerRefactoringTab (suggestions : list suggestion)
| updateHackerStructureTab (data : structureData)
| updateHackerImprovementsTab (data : improvementsData)
| triggerHackerEntranceAnimations.

(** A piece of the controller: the calls it makes, in order, and how it
    ends.  The page is taken to hold every element that the methods look
    up, so that a call into the view returns unless it is one of those that
    write a value of the response into the page (see [interpolate]). *)
Definition action (A : Type) : Type := (list call * attempt A)%type.

Definition done {A : Type} (a : A) : action A := ([], Ok a).
Definition emit (c : call) : action unit := ([c], Ok tt).
Definition raise {A : Type} (f : failure) : action A := ([], Failed f).

Definition and_then {A B : Type} (m : action A) (k : A -> action B) : action B :=
  match m with
  | (t, Ok a) => let (t', r) := k a in (t ++ t', r)
  | (t, Failed f) => (t, Failed f)
  end.

Notation "x <~ m ;; k" := (and_then m (fun x => k))
  (at level 61, m at next level, right associativity).

(** [try { m } catch (error) { handler }] *)
Definition try_catch (m : action unit) (handler : failure -> action unit) : action unit :=
  match m with
  | (t, Ok a) => (t, Ok a)
  | (t, Failed f) => let (t', r) := handler f in (t ++ t', r)
  end.

Definition lift {A : Type} (c : completion A) : action A :=
  match c with
  | Return a => done a
  | Throw e => raise (Native e)
  end.

(** [throw new Error(v)]: the message is [String(v)]. *)
Definition throw_Error {A : Type} (v : value) : action A :=
  match String_ v with
  | Return message => raise (Error_ message)
  | Throw e => raise (Native e)
  end.

(** What a view method does with a value of the response that it writes
    into the page through a template literal: the value is converted to a
    string, and the method throws when the conversion does. *)
Definition interpolate (v : value) : action unit :=
  _ <~ lift (String_ v) ;; done tt.

(** What [fetch] resolves to: the [ok] flag, the status, and the body as
    [response.json()] reads it, [None] when it is no JSON. *)
Record response : Type := Response {
  ok : bool;
  status : Z;
  body : option value
}.

(** ** app/static/js/analysis.js *)

Module AnalysisJs.

(** The squared-glyph spelling as the bytes of this file hold it: an [n]
    followed by U+00AC and U+2264. *)
Definition squared : jsstring := [172; 8804]%N.

Definition getComplexityColor (complexity : value) : completion jsstring :=
  str <- String_ complexity ;;
  let c := toLowerCase str in
  if includes c (js "1") then Return (js "#2ED573")
  else if includes c (js "log n") then Return (js "#40E0D0")
  else if includes c (js "n log n") then Return (js "#FFA726")
  else if includes c (js "n^2") || includes c (js "n" ++ squared)
       then Return (js "#FF4757")
  else if includes c (js "2^n") then Return (js "#FF1744")
  else if includes c (js "n") then Return (js "#00BFFF")
  else Return (js "#FF4757").

Definition performanceScores : list (jsstring * Z) :=
  [ (js "O(1)", 95); (js "O(log n)", 85); (js "O(n)", 70);
    (js "O(n log n)", 55); (js "O(n" ++ squared ++ js ")", 25);
    (js "O(n^2)", 25); (js "O(2^n)", 5) ]%Z.

Definition calculatePerformanceScore (complexityAnalysis : option analysis) : number :=
  match complexityAnalysis with
  | None => Num 50
  | Some a =>
      let timeComplexity := or_string (time a) (js "O(n)") in
      or_default (lookup performanceScores timeComplexity) 50
  end.

Definition complexityScores : list (jsstring * Z) :=
  [ (js "O(1)", 10); (js "O(log n)", 8); (js "O(n)", 6);
    (js "O(n log n)", 4); (js "O(n" ++ squared ++ js ")", 2);
    (js "O(n^2)", 2); (js "O(2^n)", 1) ]%Z.

Definition calculateComplexityScore (complexityAnalysis : option analysis) : number :=
  match complexityAnalysis with
  | None => Num 5
  | Some a =>
      let timeComplexity := or_string (time a) (js "O(n)") in
      let spaceComplexity := or_string (space a) (js "O(1)") in
      let timeScore := or_default (lookup complexityScores timeComplexity) 5 in
      let spaceScore := or_default (lookup complexityScores spaceComplexity) 8 in
      round_mean timeScore spaceScore
  end.

Definition parseComplexityFromAgent (complexityText : value)
  : completion (option assessment) :=
  match complexityText with
  | Str text =>
      if negb (truthy complexityText) then Return None
      else
        let timeMatch :=
          match String_match text timePattern with
          | Some m => Some m
          | None => String_match text fallbackPattern
          end in
        let spaceMatch := String_match text spacePattern in
        let timeComplexity :=
          match timeMatch with
          | Some m => group 1 m
          | None => Some (js "O(n)")
          end in
        let spaceComplexity :=
          match spaceMatch with
          | Some m => group 1 m
          | None => Some (js "O(1)")
          end in
        tc <- getComplexityColor (of_maybe timeComplexity) ;;
        sc <- getComplexityColor (of_maybe spaceComplexity) ;;
        Return (Some
          {| time_complexity := timeComplexity;
             time_color := tc;
             space_complexity := spaceComplexity;
             space_color := sc;
             performance_score :=
               calculatePerformanceScore
                 (Some {| time := timeComplexity; space := None |});
             score :=
               calculateComplexityScore
                 (Some {| time := timeComplexity; space := spaceComplexity |});
             full_analysis := text |})
  | _ => Return None
  end.

(** The class of the bullet-cleaning pattern as the bytes of this file hold
    it: where the other copy has the bullet U+2022, this one has U+201A,
    U+00C4 and U+00A2. *)
Definition bullets : regexp :=
  RegExp (Cat [Bol;
               Plus (Class false [Digit; Of "."; Of "-"; Of "*"; Of "+";
                                  One 8218; One 196; One 162; Space])])
         false.

Definition parseRefactoringSuggestionsFromAgent (refactoringText : option jsstring)
  : completion (list suggestion) :=
  match refactoringText with
  | Some text =>
      if (List.length text =? 0)%nat || includes text marker then Return []
      else
        sequence
          (Array_map (lines text)
             (fun line index =>
                let cleanLine := trim (String_replace line bullets []) in
                c <- getComplexityColor (Str (js "O(1)")) ;;
                Return
                  {| id := index;
                     title := js "[OPTIMIZATION #" ++ decimal (index + 1) ++ js "]";
                     description := cleanLine;
                     priority := if (index <? 2)%nat then js "HIGH" else js "MEDIUM";
                     category := js "REFACTOR";
                     color := c |}))
  | None => Return []
  end.

(** The table of [getComplexityLevel]; its squared key is mis-encoded like
    those of the scoring tables. *)
Definition levels : list (jsstring * jsstring) :=
  [ (js "O(1)", js "OPTIMAL"); (js "O(log n)", js "EXCELLENT");
    (js "O(n)", js "GOOD"); (js "O(n log n)", js "MODERATE");
    (js "O(n" ++ squared ++ js ")", js "POOR"); (js "O(n^2)", js "POOR");
    (js "O(2^n)", js "CRITICAL") ].

Definition getComplexityLevel (complexity : jsstring) : label :=
  or_label (lookup_text levels complexity) (js "UNKNOWN").

Definition getScoreColor (score : number) : jsstring :=
  if score_ge score 80 then js "#2ED573"
  else if score_ge score 60 then js "#FFA726"
  else if score_ge score 40 then js "#FF4757"
  else js "#FF1744".

(** [parseRefactoringSuggestionsFromAgent] on an argument that need not be
    a text.  A falsy argument gives no record.  A truthy argument that is
    no string has no [includes] to call, and the method throws, unless it is
    an array: an array has [includes], and when the marker is not one of its
    elements it is [split] that is missing. *)
Definition parseRefactoringSuggestionsFromAgent_of (refactoringText : value)
  : completion (list suggestion) :=
  match refactoringText with
  | Str text => parseRefactoringSuggestionsFromAgent (Some text)
  | Arr elems =>
      if existsb (fun e => match e with
                           | Str s => jsstring_eqb s marker
                           | _ => false
                           end) elems
      then Return []
      else Throw TypeError
  | _ => if truthy refactoringText then Throw TypeError else Return []
  end.

(** [updateHackerStructureTab(data)]: the call is made, and the method
    writes the image into the page when there is one; nothing else in it
    depends on the response. *)
Definition updateHackerStructureTab (data : structureData) : action unit :=
  _ <~ emit (updateHackerStructureTab data) ;;
  if truthy (structure_image data) then interpolate (structure_image data)
  else done tt.

(** [updateHackerImprovementsTab(data)]: the call is made, and the method
    writes the content into the page when there is one. *)
Definition updateHackerImprovementsTab (data : improvementsData) : action unit :=
  _ <~ emit (updateHackerImprovementsTab data) ;;
  if truthy (content data) then interpolate (content data) else done tt.

(** [processHackerAnalysisResults(result, code)]; [switchTab_defined] tells
    whether the page defines the global function [switchTab]. *)
Definition processHackerAnalysisResults (switchTab_defined : bool) (result : value)
    (code : jsstring) : action unit :=
  analysisData <~ lift (member result (js "results")) ;;
  analysis_id <~ lift (member analysisData (js "analysis_id")) ;;
  _ <~ (if truthy analysis_id then emit (set_currentSessionId analysis_id) else done tt) ;;
  try_catch
    (complexityData <~ lift (parseComplexityFromAgent
                               (get analysisData (js "complexity_analysis"))) ;;
     _ <~ match complexityData with
          | Some data => emit (updateHackerComplexityTab data)
          | None => emit (setComplexityTabError
                            (js "SCAN ERROR: Could not parse complexity data"))
          end ;;
     let documentation := get analysisData (js "documentation") in
     generated <~ (if truthy documentation
                   then (t <~ lift (trim_of documentation) ;;
                         done (negb (jsstring_eqb t (js "No documentation generated"))))
                   else done false) ;;
     _ <~ (if generated
           then emit (updateHackerDocumentationTab documentation)
           else emit (setDocumentationTabError
                        (js "NO DATA: Documentation generation failed."))) ;;
     refactoringSuggestions <~
       lift (parseRefactoringSuggestionsFromAgent_of
               (get analysisData (js "refactoring_suggestions"))) ;;
     _ <~ (if (0 <? List.length refactoringSuggestions)%nat
           then emit (updateHackerRefactoringTab refactoringSuggestions)
           else emit (setRefactoringTabError
                        (js "NO OPTIMIZATIONS: Code already optimized."))) ;;
     _ <~ updateHackerStructureTab
                  {| functions_count := countFunctions code;
                     lines_count := List.length (String_split_unit code 10);
                     complexity_score :=
                       match complexityData with
                       | Some data => or_number (score data) 5
                       | None => Num 5
                       end;
                     dependencies := 0;
                     structure_image := get analysisData (js "structure_img") |} ;;
     _ <~ updateHackerImprovementsTab
                  {| improvements_performance_score :=
                       match complexityData with
                       | Some data => or_number (performance_score data) 65
                       | None => Num 65
                       end;
                     readability_score := 75;
                     documentation_score := if truthy documentation then 80 else 30;
                     testing_score := 10;
                     content :=
                       or_value (get analysisData (js "improvement_suggestions"))
                         (js "NO IMPROVEMENTS DETECTED") |} ;;
     _ <~ (if switchTab_defined then emit (switchTab (js "complexity")) else done tt) ;;
     emit triggerHackerEntranceAnimations)
    (fun error => emit (showHackerAlertError (js "FATAL ERROR: ") error)).

(** [handleFormSubmit(event)], as the list of its calls.  The inputs are
    what the method reads: the two form fields, the values of the checked
    options, what [fetch] resolves to ([None] when it rejects), and the
    clock. *)
Definition handleFormSubmit (switchTab_defined : bool) (now : Z)
    (network : option response) (code language : jsstring)
    (selectedOptions : list jsstring) : list call :=
  if (List.length code =? 0)%nat || jsstring_eqb (trim code) []
  then [showHackerAlert (js "ERROR: No code detected in input buffer!") (js "error")]
  else if (List.length selectedOptions =? 0)%nat
  then [showHackerAlert (js "ERROR: No analysis modules selected!") (js "error")]
  else
    fst
      (_ <~ emit showHackerLoadingState ;;
       try_catch
         (_ <~ emit (fetch code language (join (js ",") selectedOptions)) ;;
          response <~ match network with
                      | Some r => done r
                      | None => raise FetchFailed
                      end ;;
          _ <~ (if negb (ok response)
                then
                  let errorData :=
                    match body response with
                    | Some v => v
                    | None =>
                        Obj [(js "results",
                              Obj [(js "error",
                                    Str (js "Server returned a non-JSON error response."))])]
                    end in
                  results <~ lift (member errorData (js "results")) ;;
                  let error :=
                    match results with
                    | Undefined | Null => Undefined
                    | _ => get results (js "error")
                    end in
                  throw_Error
                    (or_value error (js "HTTP error! status: " ++ Z_to_string (status response)))
                else done tt) ;;
          result <~ match body response with
                    | Some v => done v
                    | None => raise NotJson
                    end ;;
          valid <~ lift (snd (validateResponse result)) ;;
          _ <~ (if negb valid
                then raise (Error_ (js "Invalid response format from server"))
                else done tt) ;;
          let results := get result (js "results") in
          _ <~ match get results (js "success") with
               | Boolean false =>
                   throw_Error (or_value (get results (js "error"))
                                  (js "Analysis failed on the server."))
               | _ => done tt
               end ;;
          _ <~ emit (set_currentSessionId
                       (or_value (get results (js "analysis_id")) (Z_to_string now))) ;;
          _ <~ processHackerAnalysisResults switchTab_defined result code ;;
          _ <~ emit hideHackerLoadingState ;;
          emit (showHackerAlert (js "SUCCESS: Analysis completed successfully!")
                  (js "success")))
         (fun error =>
            _ <~ emit (showHackerAlertError (js "CRITICAL ERROR: ") error) ;;
            emit hideHackerLoadingState)).

End AnalysisJs.

(** ** The plain copy *)

Module Part000.

(** The squared glyph U+00B2. *)
Definition squared : jsstring := [178]%N.

Definition getComplexityColor (complexity : value) : completion jsstring :=
  str <- String_ complexity ;;
  let c := toLowerCase str in
  if includes c (js "1") then Return (js "#00C851")
  else if includes c (js "log n") then Return (js "#33b5e5")
  else if includes c (js "n log n") then Return (js "#FF8800")
  else if includes c (js "n^2") || includes c (js "n" ++ squared)
       then Return (js "#FF4444")
  else if includes c (js "2^n") then Return (js "#FF1744")
  else if includes c (js "n") then Return (js "#FFA500")
  else Return (js "#FF4444").

Definition performanceScores : list (jsstring * Z) :=
  [ (js "O(1)", 95); (js "O(log n)", 85); (js "O(n)", 70);
    (js "O(n log n)", 55); (js "O(n" ++ squared ++ js ")", 25);
    (js "O(n^2)", 25); (js "O(2^n)", 5) ]%Z.

Definition calculatePerformanceScore (complexityAnalysis : option analysis) : number :=
  match complexityAnalysis with
  | None => Num 50
  | Some a =>
      let timeComplexity := or_string (time a) (js "O(n)") in
      or_default (lookup performanceScores timeComplexity) 50
  end.

Definition complexityScores : list (jsstring * Z) :=
  [ (js "O(1)", 10); (js "O(log n)", 8); (js "O(n)", 6);
    (js "O(n log n)", 4); (js "O(n" ++ squared ++ js ")", 2);
    (js "O(n^2)", 2); (js "O(2^n)", 1) ]%Z.

Definition calculateComplexityScore (complexityAnalysis : option analysis) : number :=
  match complexityAnalysis with
  | None => Num 5
  | Some a =>
      let timeComplexity := or_string (time a) (js "O(n)") in
      let spaceComplexity := or_string (space a) (js "O(1)") in
      let timeScore := or_default (lookup complexityScores timeComplexity) 5 in
      let spaceScore := or_default (lookup complexityScores spaceComplexity) 8 in
      round_mean timeScore spaceScore
  end.

Definition parseComplexityFromAgent (complexityText : value)
  : completion (option assessment) :=
  match complexityText with
  | Str text =>
      if negb (truthy complexityText) then Return None
      else
        let timeMatch :=
          match String_match text timePattern with
          | Some m => Some m
          | None => String_match text fallbackPattern
          end in
        let spaceMatch := String_match text spacePattern in
        let timeComplexity :=
          match timeMatch with
          | Some m => group 1 m
          | None => Some (js "O(n)")
          end in
        let spaceComplexity :=
          match spaceMatch with
          | Some m => group 1 m
          | None => Some (js "O(1)")
          end in
        tc <- getComplexityColor (of_maybe timeComplexity) ;;
        sc <- getComplexityColor (of_maybe spaceComplexity) ;;
        Return (Some
          {| time_complexity := timeComplexity;
             time_color := tc;
             space_complexity := spaceComplexity;
             space_color := sc;
             performance_score :=
               calculatePerformanceScore
                 (Some {| time := timeComplexity; space := None |});
             score :=
               calculateComplexityScore
                 (Some {| time := timeComplexity; space := spaceComplexity |});
             full_analysis := text |})
  | _ => Return None
  end.

Definition bullets : regexp :=
  RegExp (Cat [Bol;
               Plus (Class false [Digit; Of "."; Of "-"; Of "*"; Of "+";
                                  One 8226; Space])])
         false.

Definition parseRefactoringSuggestionsFromAgent (refactoringText : option jsstring)
  : list suggestion :=
  match refactoringText with
  | Some text =>
      if (List.length text =? 0)%nat || includes text marker then []
      else
        Array_map (lines text)
          (fun line index =>
             let cleanLine := trim (String_replace line bullets []) in
             {| id := index;
                title := js "Refactoring Suggestion " ++ decimal (index + 1);
                description := cleanLine;
                priority := if (index <? 2)%nat then js "High" else js "Medium";
                category := js "Refactoring";
                color := js "electric-blue" |})
  | None => []
  end.

Definition levels : list (jsstring * jsstring) :=
  [ (js "O(1)", js "Excellent"); (js "O(log n)", js "Good");
    (js "O(n)", js "Fair"); (js "O(n log n)", js "Moderate");
    (js "O(n" ++ squared ++ js ")", js "Poor"); (js "O(n^2)", js "Poor");
    (js "O(2^n)", js "Exponential") ].

Definition getComplexityLevel (complexity : jsstring) : label :=
  or_label (lookup_text levels complexity) (js "Unknown").

Definition getScoreColor (score : number) : jsstring :=
  if score_lt score 30 then js "#FF4757"
  else if score_lt score 60 then js "#FFA726"
  else if score_lt score 80 then js "#ffbb33"
  else js "#2ED573".

(** The [escapeHtml] of [markdownToHtml]. *)
Definition escapeHtml (unsafe : jsstring) : jsstring :=
  String_replace_all
    (String_replace_all
       (String_replace_all
          (String_replace_all
             (String_replace_all unsafe (RegExp (Chr "&") false) (js "&amp;"))
             (RegExp (Chr "<") false) (js "&lt;"))
          (RegExp (Chr ">") false) (js "&gt;"))
       (RegExp (Char 34) false) (js "&quot;"))
    (RegExp (Chr "'") false) (js "&#039;").

(** [parseRefactoringSuggestionsFromAgent] on an argument that need not be
    a text.  A falsy argument gives no record.  A truthy argument that is
    no string has no [includes] to call, and the method throws, unless it is
    an array: an array has [includes], and when the marker is not one of its
    elements it is [split] that is missing. *)
Definition parseRefactoringSuggestionsFromAgent_of (refactoringText : value)
  : completion (list suggestion) :=
  match refactoringText with
  | Str text => Return (parseRefactoringSuggestionsFromAgent (Some text))
  | Arr elems =>
      if existsb (fun e => match e with
                           | Str s => jsstring_eqb s marker
                           | _ => false
                           end) elems
      then Return []
      else Throw TypeError
  | _ => if truthy refactoringText then Throw TypeError else Return []
  end.

(** [updateStructureTab(data)]: the call is made, and the method writes the
    image into the page when there is one; nothing else in it depends on
    the response. *)
Definition updateStructureTab (data : structureData) : action unit :=
  _ <~ emit (updateStructureTab data) ;;
  if truthy (structure_image data) then interpolate (structure_image data)
  else done tt.

(** [updateImprovementsTab(data)]: the call is made, and the method writes
    the content into the page when there is one. *)
Definition updateImprovementsTab (data : improvementsData) : action unit :=
  _ <~ emit (updateImprovementsTab data) ;;
  if truthy (content data) then interpolate (content data) else done tt.

(** [processAnalysisResults(result, code)]; [switchTab_defined] tells
    whether the page defines the global function [switchTab]. *)
Definition processAnalysisResults (switchTab_defined : bool) (result : value)
    (code : jsstring) : action unit :=
  analysisData <~ lift (member result (js "results")) ;;
  analysis_id <~ lift (member analysisData (js "analysis_id")) ;;
  _ <~ (if truthy analysis_id then emit (set_currentSessionId analysis_id) else done tt) ;;
  try_catch
    (complexityData <~ lift (parseComplexityFromAgent
                               (get analysisData (js "complexity_analysis"))) ;;
     _ <~ match complexityData with
          | Some data => emit (updateComplexityTab data)
          | None => emit (setComplexityTabError (js "Could not parse complexity data"))
          end ;;
     let documentation := get analysisData (js "documentation") in
     generated <~ (if truthy documentation
                   then (t <~ lift (trim_of documentation) ;;
                         done (negb (jsstring_eqb t (js "No documentation generated"))))
                   else done false) ;;
     _ <~ (if generated
           then emit (updateDocumentationTab documentation)
           else emit (setDocumentationTabError (js "No documentation was generated."))) ;;
     refactoringSuggestions <~
       lift (parseRefactoringSuggestionsFromAgent_of
               (get analysisData (js "refactoring_suggestions"))) ;;
     _ <~ (if (0 <? List.length refactoringSuggestions)%nat
           then emit (updateRefactoringTab refactoringSuggestions)
           else emit (setRefactoringTabError
                        (js "No refactoring suggestions available."))) ;;
     _ <~ updateStructureTab
                  {| functions_count := countFunctions code;
                     lines_count := List.length (String_split_unit code 10);
                     complexity_score :=
                       match complexityData with
                       | Some data => or_number (score data) 5
                       | None => Num 5
                       end;
                     dependencies := 0;
                     structure_image := get analysisData (js "structure_img") |} ;;
     _ <~ updateImprovementsTab
                  {| improvements_performance_score :=
                       match complexityData with
                       | Some data => or_number (performance_score data) 65
                       | None => Num 65
                       end;
                     readability_score := 75;
                     documentation_score := if truthy documentation then 80 else 30;
                     testing_score := 10;
                     content :=
                       or_value (get analysisData (js "improvement_suggestions"))
                         (js "No specific improvements suggested") |} ;;
     if switchTab_defined then emit (switchTab (js "complexity")) else done tt)
    (fun error => emit (showAlertError (js "Error displaying results: ") error)).

(** [handleFormSubmit(event)], as the list of its calls.  The inputs are
    what the method reads: the two form fields, the values of the checked
    options, what [fetch] resolves to ([None] when it rejects), and the
    clock. *)
Definition handleFormSubmit (switchTab_defined : bool) (now : Z)
    (network : option response) (code language : jsstring)
    (selectedOptions : list jsstring) : list call :=
  if (List.length code =? 0)%nat || jsstring_eqb (trim code) []
  then [showAlert (js "Please enter some code to analyze!") (js "error")]
  else if (List.length selectedOptions =? 0)%nat
  then [showAlert (js "Please select at least one analysis option!") (js "error")]
  else
    fst
      (_ <~ emit showLoadingState ;;
       try_catch
         (_ <~ emit (fetch code language (join (js ",") selectedOptions)) ;;
          response <~ match network with
                      | Some r => done r
                      | None => raise FetchFailed
                      end ;;
          _ <~ (if negb (ok response)
                then
                  let errorData :=
                    match body response with
                    | Some v => v
                    | None =>
                        Obj [(js "results",
                              Obj [(js "error",
                                    Str (js "Server returned a non-JSON error response."))])]
                    end in
                  results <~ lift (member errorData (js "results")) ;;
                  let error :=
                    match results with
                    | Undefined | Null => Undefined
                    | _ => get results (js "error")
                    end in
                  throw_Error
                    (or_value error (js "HTTP error! status: " ++ Z_to_string (status response)))
                else done tt) ;;
          result <~ match body response with
                    | Some v => done v
                    | None => raise NotJson
                    end ;;
          valid <~ lift (snd (validateResponse result)) ;;
          _ <~ (if negb valid
                then raise (Error_ (js "Invalid response format from server"))
                else done tt) ;;
          let results := get result (js "results") in
          _ <~ match get results (js "success") with
               | Boolean false =>
                   throw_Error (or_value (get results (js "error"))
                                  (js "Analysis failed on the server."))
               | _ => done tt
               end ;;
          _ <~ emit (set_currentSessionId
                       (or_value (get results (js "analysis_id")) (Z_to_string now))) ;;
          _ <~ processAnalysisResults switchTab_defined result code ;;
          _ <~ emit hideLoadingState ;;
          emit (showAlert (js "Analysis completed successfully!") (js "success")))
         (fun error =>
            _ <~ emit (showAlertError (js "Analysis failed: ") error) ;;
            emit hideLoadingState)).

End Part000.

(** * Specification-side definitions

    The notions that the statements below compare the methods with: tables
    and rules written out directly, without regular expressions. *)

(** ** Colours *)

(** The seven colour strings of [getComplexityColor], in the order of its
    [return] statements. *)
Definition AnalysisJs_palette : list jsstring :=
  map js ["#2ED573"; "#40E0D0"; "#FFA726"; "#FF4757"; "#FF1744"; "#00BFFF";
          "#FF4757"]%string.

Definition Part000_palette : list jsstring :=
  map js ["#00C851"; "#33b5e5"; "#FF8800"; "#FF4444"; "#FF1744"; "#FFA500";
          "#FF4444"]%string.

(** ** Response validation *)

(** The object has no own property [p]. *)
Definition lacks (props : list (jsstring * value)) (p : jsstring) : bool :=
  match own p props with
  | Some _ => false
  | None => true
  end.

(** ** Counting declarations *)

(** The number of matches that the matcher finds for a global pattern in
    [code]. *)
Definition count_matches (code : jsstring) (re : regexp) : nat :=
  List.length
    (search_all (ignoreCase re) code (S (List.length code)) (pattern re) code).

Definition sum (l : list Z) : Z := fold_right Z.add 0%Z l.

(** ** Scores *)

(** The argument [{time: t}]. *)
Definition with_time (t : jsstring) : option analysis :=
  Some {| time := Some t; space := None |}.

(** The argument [{time: t, space: s}]. *)
Definition with_tokens (t s : jsstring) : option analysis :=
  Some {| time := Some t; space := Some s |}.

(** The squared-glyph token "O(n²)", and the spelling that the bytes of
    analysis.js hold in its place. *)
Definition O_n_squared : jsstring := js "O(n" ++ [178%N] ++ js ")".
Definition O_n_misencoded : jsstring := js "O(n" ++ [172%N; 8804%N] ++ js ")".

(** The tokens of the tables. *)
Definition recognized : list jsstring :=
  [js "O(1)"; js "O(log n)"; js "O(n)"; js "O(n log n)"; O_n_squared;
   js "O(n^2)"; js "O(2^n)"].

(** The severity table in the words of the specification: the table value
    of a recognized token, and the given default for any other. *)
Definition severity_table : list (jsstring * Z) :=
  [ (js "O(1)", 10); (js "O(log n)", 8); (js "O(n)", 6); (js "O(n log n)", 4);
    (O_n_squared, 2); (js "O(n^2)", 2); (js "O(2^n)", 1) ]%Z.

Definition severity (default : Z) (token : jsstring) : Z :=
  match own_entry token severity_table with
  | Some z => z
  | None => default
  end.

(** The mean of two integers, a half rounded up. *)
Definition half_up_mean (a b : Z) : Z :=
  if Z.even (a + b) then ((a + b) / 2)%Z else ((a + b) / 2 + 1)%Z.

(** [overallScore] in the words of the specification. *)
Definition overallScore_spec (timeToken spaceToken : jsstring) : Z :=
  half_up_mean (severity 5 timeToken) (severity 8 spaceToken).

(** ** Tokens *)

(** [s] starts with [p], code units compared as the matcher compares
    them: after upper-casing when [icase] is set. *)
Fixpoint starts_with (icase : bool) (s p : jsstring) {struct p} : bool :=
  match p, s with
  | [], _ => true
  | a :: p', x :: s' => (canon icase a =? canon icase x)%N && starts_with icase s' p'
  | _ :: _, [] => false
  end.

(** The first suffix of [s], from the left, on which [f] succeeds. *)
Fixpoint first_at {A : Type} (f : jsstring -> option A) (s : jsstring) : option A :=
  match f s with
  | Some a => Some a
  | None =>
      match s with
      | [] => None
      | _ :: s' => first_at f s'
      end
  end.

Fixpoint takeWhile (p : N -> bool) (s : jsstring) : jsstring :=
  match s with
  | [] => []
  | c :: s' => if p c then c :: takeWhile p s' else []
  end.

(** Any code unit but ")". *)
Definition not_close (c : N) : bool := negb (c =? 41)%N.

(** The run that the token patterns accept at the head of [s]: a code unit
    that [opens] accepts, then everything up to and including the first
    ")".  The result is the run and what follows it. *)
Definition expression (opens : N -> bool) (s : jsstring) : option (jsstring * jsstring) :=
  match s with
  | c :: s' =>
      if opens c then
        match dropWhile not_close s' with
        | _ :: rest => Some (c :: takeWhile not_close s' ++ [41%N], rest)
        | [] => None
        end
      else None
  | [] => None
  end.

(** What the class [[O\(]] of the patterns lets open a run: "O" or "(", and
    also "o" after a label, whose pattern ignores case. *)
Definition opens (icase : bool) (c : N) : bool :=
  ((c =? 79) || (c =? 40) || icase && (c =? 111))%N.

(** The run that follows [label] at the head of [s], white space between
    them skipped; the label is compared ignoring case. *)
Definition labelled (label : jsstring) (s : jsstring) : option (jsstring * jsstring) :=
  if starts_with true s label
  then expression (opens true)
         (dropWhile isWhiteSpace (skipn (List.length label) s))
  else None.

(** The time token that the patterns find, written without regular
    expressions: the run after the first "Time Complexity:" label that is
    followed by one, else the first run anywhere, else "O(n)". *)
Definition timeToken_found (text : jsstring) : jsstring :=
  match first_at (labelled (js "Time Complexity:")) text with
  | Some (token, _) => token
  | None =>
      match first_at (expression (opens false)) text with
      | Some (token, _) => token
      | None => js "O(n)"
      end
  end.

(** The space token that the pattern finds: the run after the first
    "Space Complexity:" label that is followed by one, else "O(1)". *)
Definition spaceToken_found (text : jsstring) : jsstring :=
  match first_at (labelled (js "Space Complexity:")) text with
  | Some (token, _) => token
  | None => js "O(1)"
  end.

(** A parenthesized Big-O expression at the head of [s], in the words of
    the specification: the letter O, an opening parenthesis, and everything
    up to and including the first ")".  A search that ignores case takes
    the lower-case letter too. *)
Definition bigO_expression (icase : bool) (s : jsstring) : option (jsstring * jsstring) :=
  match s with
  | o :: p :: body =>
      if ((o =? 79) || icase && (o =? 111))%N && (p =? 40)%N then
        match dropWhile not_close body with
        | _ :: rest => Some (o :: p :: takeWhile not_close body ++ [41%N], rest)
        | [] => None
        end
      else None
  | _ => None
  end.

(** The Big-O expression that follows [label] at the head of [s], white
    space between them skipped. *)
Definition labelled_bigO (label : jsstring) (s : jsstring) : option (jsstring * jsstring) :=
  if starts_with true s label
  then bigO_expression true (dropWhile isWhiteSpace (skipn (List.length label) s))
  else None.

(** The time token in the words of the specification: the Big-O expression
    after the first "Time Complexity:" label that is followed by one, else
    the first Big-O expression anywhere in the text, else "O(n)". *)
Definition timeToken_spec (text : jsstring) : jsstring :=
  match first_at (labelled_bigO (js "Time Complexity:")) text with
  | Some (token, _) => token
  | None =>
      match first_at (bigO_expression false) text with
      | Some (token, _) => token
      | None => js "O(n)"
      end
  end.

(** The space token in the words of the specification: the Big-O
    expression after the first "Space Complexity:" label that is followed
    by one, else "O(1)". *)
Definition spaceToken_spec (text : jsstring) : jsstring :=
  match first_at (labelled_bigO (js "Space Complexity:")) text with
  | Some (token, _) => token
  | None => js "O(1)"
  end.

(** At the first place of [s], from the left, where the search [accepts] a
    run, the run is one that [intended] takes as well. *)
Fixpoint sound_start {A B : Type} (accepts : jsstring -> option A)
    (intended : jsstring -> option B) (s : jsstring) : bool :=
  match accepts s with
  | Some _ =>
      match intended s with
      | Some _ => true
      | None => false
      end
  | None =>
      match s with
      | [] => true
      | _ :: s' => sound_start accepts intended s'
      end
  end.

(** The texts on which the search for the time token stays within Big-O
    expressions: the first "Time Complexity:" label that is followed by
    "O", "o" or "(" with a ")" somewhere after it is followed by a Big-O
    expression; and when no label is so followed, the first "O" or "(" of
    the text with a ")" somewhere after it begins a Big-O expression. *)
Definition time_search_sound (text : jsstring) : bool :=
  sound_start (labelled (js "Time Complexity:"))
    (labelled_bigO (js "Time Complexity:")) text
  && match first_at (labelled (js "Time Complexity:")) text with
     | Some _ => true
     | None => sound_start (expression (opens false)) (bigO_expression false) text
     end.

(** The same for the space token, which has no fallback. *)
Definition space_search_sound (text : jsstring) : bool :=
  sound_start (labelled (js "Space Complexity:"))
    (labelled_bigO (js "Space Complexity:")) text.

(** ** Declarations, recognized without the matcher *)

(** What the eight patterns of [countFunctions] look for, written as
    recognizers on the code units: a recognizer is tried at the start of a
    string, and gives what follows the text it recognizes. *)
Definition head : Type := jsstring -> option jsstring.

(** The literal text [l]. *)
Definition word (l : string) : head :=
  fun s => if startsWith s (js l) then Some (skipn (List.length (js l)) s) else None.

(** One or more code units of a kind, as many as there are. *)
Definition some_of (P : N -> bool) : head :=
  fun s =>
    match s with
    | x :: s' => if P x then Some (dropWhile P s') else None
    | [] => None
    end.

(** Any number of code units of a kind, as many as there are. *)
Definition any_of (P : N -> bool) : head := fun s => Some (dropWhile P s).

(** One recognizer after the other. *)
Definition and_next (h1 h2 : head) : head :=
  fun s => match h1 s with Some s' => h2 s' | None => None end.

(** The first recognizer, and the second where the first fails. *)
Definition or_else (h1 h2 : head) : head :=
  fun s => match h1 s with Some s' => Some s' | None => h2 s end.

Definition chain (hs : list head) : head := fold_right and_next (fun s => Some s) hs.

(** White space, optional white space, and a run of letters, digits and
    underscores. *)
Definition blanks : head := some_of isWhiteSpace.
Definition gap : head := any_of isWhiteSpace.
Definition identifier : head := some_of isWordChar.

(** A keyword, white space and a name: [function f], [def f]. *)
Definition named (keyword : string) : head := chain [word keyword; blanks; identifier].

(** A keyword, white space, a name and an opening parenthesis: [func f(],
    [fn f(]. *)
Definition called (keyword : string) : head :=
  chain [word keyword; blanks; identifier; gap; word "("].

(** Two names and an opening parenthesis: [int f(]. *)
Definition typed_signature : head :=
  chain [identifier; blanks; identifier; gap; word "("].

(** A Java method: the modifier, optionally [static], and a typed
    signature.  Where no typed signature follows [static], the word
    [static] may itself be the first name of the signature. *)
Definition method (modifier : string) : head :=
  chain [word modifier; blanks;
         or_else (chain [word "static"; blanks; typed_signature]) typed_signature].

(** [const f = (] *)
Definition const_arrow : head :=
  chain [word "const"; blanks; identifier; gap; word "="; gap; word "("].

(** A typed signature, its parameters up to the first closing parenthesis,
    and an opening brace: [int f(int x) {]. *)
Definition braced_definition : head :=
  chain [typed_signature; any_of not_close; word ")"; gap; word "{"].

(** The eight kinds of declaration, in the order of [functionPatterns]. *)
Definition declaration_heads : list head :=
  [ named "function"; const_arrow; named "def"; method "public"; method "private";
    called "func"; called "fn"; braced_definition ].

(** Occurrences counted from the left, without overlap: after an
    occurrence the count goes on behind it, elsewhere one code unit
    later. *)
Fixpoint occurrences (fuel : nat) (h : head) (s : jsstring) : nat :=
  match fuel with
  | O => O
  | S fuel' =>
      match h s with
      | Some rest => S (occurrences fuel' h rest)
      | None =>
          match s with
          | [] => O
          | _ :: s' => occurrences fuel' h s'
          end
      end
  end.

Definition count_heads (code : jsstring) (h : head) : nat :=
  occurrences (S (List.length code)) h code.

(** ** Lines and suggestions *)

Definition is_some {A : Type} (o : option A) : bool :=
  match o with
  | Some _ => true
  | None => false
  end.

(** A header or separator line: it starts, ignoring case, with
    "REFACTORING" or "SUGGESTION", or with three "=" or three "-". *)
Definition is_header (line : jsstring) : bool :=
  starts_with true line (js "REFACTORING")
  || starts_with true line (js "SUGGESTION")
  || starts_with true line (js "===")
  || starts_with true line (js "---").

(** The segments of [s] between runs of newlines; [acc] is the segment read
    so far, and [in_run] tells that the code unit before [s] was a
    newline. *)
Fixpoint segments (in_run : bool) (acc s : jsstring) : list jsstring :=
  match s with
  | [] => [acc]
  | c :: s' =>
      if (c =? 10)%N
      then if in_run then segments true acc s' else acc :: segments true [] s'
      else segments false (acc ++ [c]) s'
  end.

(** The lines that survive, in the words of the specification: the trimmed
    segments that are neither empty nor headers. *)
Definition lines_spec (text : jsstring) : list jsstring :=
  filter (fun line => negb (is_header line))
    (filter (fun line => negb (List.length line =? 0)%nat)
       (map trim (segments false [] text))).

(** A segment that leaves no line: blank once trimmed, or a header. *)
Definition blank_or_header (segment : jsstring) : bool :=
  (List.length (trim segment) =? 0)%nat || is_header (trim segment).

(** What is stripped from the head of a line: digits, ".", "-", "*", "+",
    the bullet U+2022, and white space. *)
Definition is_bullet (c : N) : bool :=
  (isDigit c || (c =? 46) || (c =? 45) || (c =? 42) || (c =? 43) || (c =? 8226)
   || isWhiteSpace c)%N.

(** The records in the words of the specification, with the labels of the
    plain copy. *)
Definition Part000_suggestions_spec (text : jsstring) : list suggestion :=
  map_from 0
    (fun line index =>
       {| id := index;
          title := js "Refactoring Suggestion " ++ decimal (index + 1);
          description := trim (dropWhile is_bullet line);
          priority := if (index <? 2)%nat then js "High" else js "Medium";
          category := js "Refactoring";
          color := js "electric-blue" |})
    (lines_spec text).

(** The three-line example of the specification. *)
Definition three_lines : jsstring :=
  js "1. Extract method" ++ [10%N] ++ js "2. Rename variable" ++ [10%N]
  ++ js "3. Remove dead code".

(** ** Escaping, tokens, records and the controller *)

(** [s] with every code unit [c] replaced by [repl]. *)
Definition substitute (c : N) (repl : jsstring) (s : jsstring) : jsstring :=
  flat_map (fun x => if (x =? c)%N then repl else [x]) s.

(** The entity of a code unit: what [escapeHtml] writes for it. *)
Definition entity (x : N) : jsstring :=
  if (x =? 38)%N then js "&amp;"
  else if (x =? 60)%N then js "&lt;"
  else if (x =? 62)%N then js "&gt;"
  else if (x =? 34)%N then js "&quot;"
  else if (x =? 39)%N then js "&#039;"
  else [x].

(** One of the five code units that [escapeHtml] replaces. *)
Definition is_special (x : N) : bool :=
  ((x =? 38) || (x =? 60) || (x =? 62) || (x =? 34) || (x =? 39))%N.

(** A code unit that opens or closes markup or an attribute: "<", ">",
    the double and the single quote. *)
Definition is_markup (x : N) : bool :=
  ((x =? 60) || (x =? 62) || (x =? 34) || (x =? 39))%N.

(** The shape of a token: a code unit that may open an expression, code
    units other than ")", and a closing ")". *)
Definition token_like (token : jsstring) : Prop :=
  exists c body,
    token = c :: body ++ [41%N]
    /\ opens true c = true
    /\ forallb not_close body = true.

(** The values of the two score tables. *)
Definition performance_values : list Z := [95; 85; 70; 55; 25; 5; 50]%Z.

Definition AnalysisJs_labels : list jsstring :=
  map js ["OPTIMAL"; "EXCELLENT"; "GOOD"; "MODERATE"; "POOR"; "CRITICAL"; "UNKNOWN"]%string.

Definition Part000_labels : list jsstring :=
  map js ["Excellent"; "Good"; "Fair"; "Moderate"; "Poor"; "Exponential"; "Unknown"]%string.

(** What the cleaning pattern of analysis.js removes from the head of a
    line: digits, ".", "-", "*", "+", the code units U+201A, U+00C4 and
    U+00A2, and white space. *)
Definition AnalysisJs_is_bullet (c : N) : bool :=
  (isDigit c || (c =? 46) || (c =? 45) || (c =? 42) || (c =? 43) || (c =? 8218)
   || (c =? 196) || (c =? 162) || isWhiteSpace c)%N.

(** The records of analysis.js, written out directly. *)
Definition AnalysisJs_suggestions_spec (text : jsstring) : list suggestion :=
  map_from 0
    (fun line index =>
       {| id := index;
          title := js "[OPTIMIZATION #" ++ decimal (index + 1) ++ js "]";
          description := trim (dropWhile AnalysisJs_is_bullet line);
          priority := if (index <? 2)%nat then js "HIGH" else js "MEDIUM";
          category := js "REFACTOR";
          color := js "#2ED573" |})
    (lines_spec text).

(** None of the four code units in which the two cleaning classes differ. *)
Definition plain_unit (x : N) : Prop :=
  x <> 8226%N /\ x <> 8218%N /\ x <> 196%N /\ x <> 162%N.

(** No white space anywhere in [s]. *)
Definition spaceless (s : jsstring) : Prop := Forall (fun x => isWhiteSpace x = false) s.

Definition is_request_or_loading (c : call) : bool :=
  match c with
  | showLoadingState | hideLoadingState | fetch _ _ _ => true
  | _ => false
  end.

(** The response that [handleFormSubmit] goes on to display, if any. *)
Definition accepted (network : option response) : option value :=
  match network with
  | Some r =>
      if ok r then
        match body r with
        | Some result =>
            match snd (validateResponse result) with
            | Return true =>
                match get (get result (js "results")) (js "success") with
                | Boolean false => None
                | _ => Some result
                end
            | _ => None
            end
        | None => None
        end
      else None
  | None => None
  end.

Definition is_alert (c : call) : bool :=
  match c with
  | showAlert _ _ | showAlertError _ _ => true
  | _ => false
  end.

Definition is_structure_or_later (c : call) : bool :=
  match c with
  | updateStructureTab _ | updateImprovementsTab _ | switchTab _ => true
  | _ => false
  end.

Definition text_or_falsy (v : value) : bool :=
  match v with
  | Str _ => true
  | _ => negb (truthy v)
  end.

Definition suggestions_readable (v : value) : bool :=
  match v with
  | Str _ => true
  | Arr elems =>
      existsb (fun e => match e with
                        | Str s => jsstring_eqb s marker
                        | _ => false
                        end) elems
  | _ => negb (truthy v)
  end.

(** Whether [String(v)] returns. *)
Definition printable (v : value) : bool :=
  match String_ v with
  | Return _ => true
  | Throw _ => false
  end.

(** What a view method can write into the page when it checks the value
    for truthiness first. *)
Definition printable_or_falsy (v : value) : bool :=
  negb (truthy v) || printable v.

(** Whether the rendering of [analysisData] runs to its end. *)
Definition renders (analysisData : value) : bool :=
  text_or_falsy (get analysisData (js "documentation"))
  && suggestions_readable (get analysisData (js "refactoring_suggestions"))
  && printable_or_falsy (get analysisData (js "structure_img"))
  && printable_or_falsy (get analysisData (js "improvement_suggestions")).

(** How many of the structure and improvements tabs the rendering of
    [analysisData] gets to call. *)
Definition tabs_called (analysisData : value) : nat :=
  if text_or_falsy (get analysisData (js "documentation"))
     && suggestions_readable (get analysisData (js "refactoring_suggestions"))
  then if printable_or_falsy (get analysisData (js "structure_img")) then 2 else 1
  else 0.

(** What the structure and improvements tabs are to be given for the code
    and the [results] of a response: the counts of the code, the scores of
    the assessment that the plain copy of [parseComplexityFromAgent] makes
    of [complexity_analysis], 5 and 65 standing in when it makes none, and
    the fixed scores. *)
Definition tab_data (code : jsstring) (analysisData : value) (c : call) : Prop :=
  let assessed :=
    match Part000.parseComplexityFromAgent
            (get analysisData (js "complexity_analysis")) with
    | Return complexityData => complexityData
    | Throw _ => None
    end in
  match c with
  | updateStructureTab d =>
      functions_count d = countFunctions code
      /\ (1 <= functions_count d)%Z
      /\ lines_count d = S (List.length (filter (N.eqb 10) code))
      /\ complexity_score d
         = match assessed with
           | Some a => score a
           | None => Num 5
           end
      /\ (exists z, complexity_score d = Num z /\ (1 <= z <= 10)%Z)
      /\ dependencies d = 0%Z
      /\ structure_image d = get analysisData (js "structure_img")
  | updateImprovementsTab d =>
      improvements_performance_score d
      = match assessed with
        | Some a => performance_score a
        | None => Num 65
        end
      /\ (exists p, improvements_performance_score d = Num p
                    /\ In p (65%Z :: performance_values))
      /\ readability_score d = 75%Z
      /\ documentation_score d
         = (if truthy (get analysisData (js "documentation")) then 80%Z else 30%Z)
      /\ testing_score d = 10%Z
  | _ => True
  end.

(** What a call does, whatever the file calls it and whatever the wording
    of its message: the type of an alert or the error it reports, the
    request, the session id, the tokens and text of the assessment shown,
    the documentation shown, the ids of the suggestions shown, the figures
    of the structure tab but for the score, and the three fixed scores of
    the improvements tab. *)
Inductive kind : Type :=
| Alert (type : jsstring)
| AlertError (error : failure)
| LoadingShown
| LoadingHidden
| Request (code language options : jsstring)
| Session (v : value)
| Complexity (shown : option (option jsstring * option jsstring * jsstring))
| Documentation (shown : option value)
| Refactoring (ids : list nat)
| Structure (functions : Z) (lines : nat) (dependencies : Z) (image : value)
| Improvements (readability documentation testing : Z)
| Switch (tab : jsstring).

(** The entrance animations of analysis.js have no counterpart. *)
Definition kind_of (c : call) : option kind :=
  match c with
  | showAlert _ type | showHackerAlert _ type => Some (Alert type)
  | showAlertError _ error | showHackerAlertError _ error => Some (AlertError error)
  | showLoadingState | showHackerLoadingState => Some LoadingShown
  | hideLoadingState | hideHackerLoadingState => Some LoadingHidden
  | fetch code language options => Some (Request code language options)
  | set_currentSessionId v => Some (Session v)
  | updateComplexityTab a | updateHackerComplexityTab a =>
      Some (Complexity (Some (time_complexity a, space_complexity a, full_analysis a)))
  | setComplexityTabError _ => Some (Complexity None)
  | updateDocumentationTab v | updateHackerDocumentationTab v =>
      Some (Documentation (Some v))
  | setDocumentationTabError _ => Some (Documentation None)
  | updateRefactoringTab l | updateHackerRefactoringTab l => Some (Refactoring (map id l))
  | setRefactoringTabError _ => Some (Refactoring [])
  | updateStructureTab d | updateHackerStructureTab d =>
      Some (Structure (functions_count d) (lines_count d) (dependencies d)
              (structure_image d))
  | updateImprovementsTab d | updateHackerImprovementsTab d =>
      Some (Improvements (readability_score d) (documentation_score d) (testing_score d))
  | switchTab tab => Some (Switch tab)
  | triggerHackerEntranceAnimations => None
  end.

Definition kinds (calls : list call) : list kind :=
  flat_map (fun c => match kind_of c with Some k => [k] | None => [] end) calls.

(** ** Notions for the proofs about the matcher *)

(** The loop of a star, by name. *)
Definition iterate (icase : bool) (input : jsstring) (r1 : regex) (k : cont)
  : nat -> jsstring -> captures -> option state :=
  fix iterate (fuel : nat) (s : jsstring) (cs : captures) : option state :=
    match fuel with
    | O => k s cs
    | S fuel' =>
        match run icase input r1 s cs
                (fun s' cs' =>
                   if (List.length s' <? List.length s)%nat
                   then iterate fuel' s' cs' else None) with
        | Some st => Some st
        | None => k s cs
        end
    end.

(** A pattern that consumes exactly one code unit, accepted by [P]. *)
Definition unit_atom (icase : bool) (input : jsstring) (r : regex) (P : N -> bool) : Prop :=
  forall s cs k,
    run icase input r s cs k
    = match s with
      | x :: s' => if P x then k s' cs else None
      | [] => None
      end.

(** A continuation that never fails. *)
Definition always_succeeds (k : cont) : Prop := forall s cs, k s cs <> None.

(** A continuation that fails on every string that starts with a code unit
    of the kind [P]. *)
Definition rejects (k : cont) (P : N -> bool) : Prop :=
  forall x s cs, P x = true -> k (x :: s) cs = None.

(** A recognizer that takes at least one code unit, and one that never
    gives more than it was given. *)
Definition consumes (h : head) : Prop :=
  forall s rest, h s = Some rest -> (List.length rest < List.length s)%nat.
Definition shrinks (h : head) : Prop :=
  forall s rest, h s = Some rest -> (List.length rest <= List.length s)%nat.

Arguments jsstring_eqb : simpl never.

(** Two closed terms that evaluate to different values. *)
Ltac differ :=
  let H := fresh "H" in intro H; vm_compute in H; discriminate H.

(** Case analysis on the comparisons of a key with the keys of a table. *)
Ltac by_key :=
  unfold jsstring_eqb;
  repeat match goal with
    | |- context [list_eq_dec N.eq_dec ?a ?b] =>
        destruct (list_eq_dec N.eq_dec a b); cbv beta iota
    end.

(** Case analysis on the comparisons of code units. *)
Ltac units :=
  repeat match goal with
    | |- context [N.leb ?a ?b] => destruct (N.leb_spec a b)
    end;
  cbn [andb orb negb xorb];
  repeat match goal with
    | |- context [N.eqb ?a ?b] => destruct (N.eqb_spec a b)
    end;
  cbn [andb orb negb xorb]; intros;
  try reflexivity; try discriminate; try (exfalso; lia).

(** * Properties *)

(** ** Substrings *)

Lemma startsWith_tail (s p : jsstring) (a : N) :
  startsWith s (a :: p) = true ->
  exists s', s = a :: s' /\ startsWith s' p = true.
Proof.
  destruct s as [|b s']; simpl; [discriminate|].
  intros H. apply andb_prop in H. destruct H as [Hab Hp].
  apply N.eqb_eq in Hab. subst b. now exists s'.
Qed.

Lemma startsWith_includes (s p : jsstring) :
  startsWith s p = true -> includes s p = true.
Proof.
  destruct s; simpl; intros ->; reflexivity.
Qed.

Lemma includes_cons (s : jsstring) (a : N) (p : jsstring) :
  includes s (a :: p) = true -> includes s p = true.
Proof.
  induction s as [|b s IH].
  - simpl. discriminate.
  - intros H. cbn [includes] in H. apply orb_prop in H. destruct H as [H|H].
    + apply startsWith_tail in H. destruct H as (s' & Hs & Hp).
      injection Hs as -> ->.
      cbn [includes]. rewrite (startsWith_includes _ _ Hp). apply orb_true_r.
    + cbn [includes]. rewrite (IH H). apply orb_true_r.
Qed.

(** A string that contains [x ++ p] contains [p]. *)
Lemma includes_suffix (s x p : jsstring) :
  includes s (x ++ p) = true -> includes s p = true.
Proof.
  induction x as [|a x IH]; simpl; intros H; [exact H|].
  apply IH. exact (includes_cons _ _ _ H).
Qed.

Lemma jsstring_eqb_eq (a b : jsstring) : jsstring_eqb a b = true <-> a = b.
Proof.
  unfold jsstring_eqb. destruct (list_eq_dec N.eq_dec a b); split; congruence.
Qed.

Lemma jsstring_eqb_neq (a b : jsstring) : jsstring_eqb a b = false <-> a <> b.
Proof.
  unfold jsstring_eqb. destruct (list_eq_dec N.eq_dec a b); split; congruence.
Qed.

(** ** Colours *)

(** The third test of [getComplexityColor] can never be the first to
    succeed: a string that contains "n log n" contains "log n", which the
    second test takes.  No argument is given the colour of that branch. *)
Lemma n_log_n_branch_dead (v : value) :
  AnalysisJs.getComplexityColor v <> Return (js "#FFA726")
  /\ Part000.getComplexityColor v <> Return (js "#FF8800").
Proof.
  unfold AnalysisJs.getComplexityColor, Part000.getComplexityColor.
  destruct (String_ v) as [str|e]; cbn [bind]; [|split; discriminate].
  set (c := toLowerCase str).
  assert (Hdead : includes c (js "n log n") = true -> includes c (js "log n") = true).
  { intros H. apply (includes_suffix c (js "n ") (js "log n")). exact H. }
  split.
  - destruct (includes c (js "1")); [differ|].
    destruct (includes c (js "log n")) eqn:Hlog; [differ|].
    destruct (includes c (js "n log n")) eqn:Hn.
    { specialize (Hdead eq_refl). discriminate. }
    destruct (includes c (js "n^2") || includes c (js "n" ++ AnalysisJs.squared));
      [differ|].
    destruct (includes c (js "2^n")); [differ|].
    destruct (includes c (js "n")); differ.
  - destruct (includes c (js "1")); [differ|].
    destruct (includes c (js "log n")) eqn:Hlog; [differ|].
    destruct (includes c (js "n log n")) eqn:Hn.
    { specialize (Hdead eq_refl). discriminate. }
    destruct (includes c (js "n^2") || includes c (js "n" ++ Part000.squared));
      [differ|].
    destruct (includes c (js "2^n")); [differ|].
    destruct (includes c (js "n")); differ.
Qed.

(** C1.  On the token "O(n log n)" [getComplexityColor] does not reach its
    "n log n" branch: the "log n" test before it succeeds, and the method
    returns the colour of the "log n" branch in both files.  On "O(2^n)" it
    returns the colour of the "2^n" branch, not that of the bare "n"
    branch. *)
Theorem getComplexityColor_n_log_n :
  AnalysisJs.getComplexityColor (Str (js "O(n log n)")) = Return (js "#40E0D0")
  /\ AnalysisJs.getComplexityColor (Str (js "O(n log n)")) <> Return (js "#FFA726")
  /\ Part000.getComplexityColor (Str (js "O(n log n)")) = Return (js "#33b5e5")
  /\ Part000.getComplexityColor (Str (js "O(n log n)")) <> Return (js "#FF8800")
  /\ AnalysisJs.getComplexityColor (Str (js "O(2^n)")) = Return (js "#FF1744")
  /\ Part000.getComplexityColor (Str (js "O(2^n)")) = Return (js "#FF1744").
Proof.
  repeat split; try reflexivity; differ.
Qed.

(** Whatever the converted string, one of the seven colours comes out. *)
Lemma AnalysisJs_color (v : value) (str : jsstring) :
  String_ v = Return str ->
  exists col, AnalysisJs.getComplexityColor v = Return col
              /\ In col AnalysisJs_palette.
Proof.
  intros Hstr. unfold AnalysisJs.getComplexityColor. rewrite Hstr. cbn [bind].
  set (c := toLowerCase str).
  destruct (includes c (js "1")); [eexists; split; [reflexivity|simpl; tauto]|].
  destruct (includes c (js "log n")); [eexists; split; [reflexivity|simpl; tauto]|].
  destruct (includes c (js "n log n")); [eexists; split; [reflexivity|simpl; tauto]|].
  destruct (includes c (js "n^2") || includes c (js "n" ++ AnalysisJs.squared));
    [eexists; split; [reflexivity|simpl; tauto]|].
  destruct (includes c (js "2^n")); [eexists; split; [reflexivity|simpl; tauto]|].
  destruct (includes c (js "n")); eexists; (split; [reflexivity|simpl; tauto]).
Qed.

Lemma Part000_color (v : value) (str : jsstring) :
  String_ v = Return str ->
  exists col, Part000.getComplexityColor v = Return col
              /\ In col Part000_palette.
Proof.
  intros Hstr. unfold Part000.getComplexityColor. rewrite Hstr. cbn [bind].
  set (c := toLowerCase str).
  destruct (includes c (js "1")); [eexists; split; [reflexivity|simpl; tauto]|].
  destruct (includes c (js "log n")); [eexists; split; [reflexivity|simpl; tauto]|].
  destruct (includes c (js "n log n")); [eexists; split; [reflexivity|simpl; tauto]|].
  destruct (includes c (js "n^2") || includes c (js "n" ++ Part000.squared));
    [eexists; split; [reflexivity|simpl; tauto]|].
  destruct (includes c (js "2^n")); [eexists; split; [reflexivity|simpl; tauto]|].
  destruct (includes c (js "n")); eexists; (split; [reflexivity|simpl; tauto]).
Qed.

(** The argument has no primitive conversion: [String] throws, and so does
    [getComplexityColor]. *)
Lemma getComplexityColor_throws :
  AnalysisJs.getComplexityColor (Obj [(js "toString", Number 1)]) = Throw TypeError
  /\ Part000.getComplexityColor (Obj [(js "toString", Number 1)]) = Throw TypeError.
Proof. split; reflexivity. Qed.

(** C10.  [getComplexityColor] converts its argument with [String]; for
    every argument whose conversion succeeds it returns one of its seven
    colour strings, and it throws only when the conversion does.  For
    [null] the converted string "null" contains "n", and the method returns
    the colour of the bare "n" branch, not the default. *)
Theorem getComplexityColor_total (v : value) (str : jsstring)
    (Hstr : String_ v = Return str) :
  (exists col, AnalysisJs.getComplexityColor v = Return col
               /\ In col AnalysisJs_palette)
  /\ (exists col, Part000.getComplexityColor v = Return col
                  /\ In col Part000_palette)
  /\ (forall w e, AnalysisJs.getComplexityColor w = Throw e -> String_ w = Throw e)
  /\ (forall w e, Part000.getComplexityColor w = Throw e -> String_ w = Throw e)
  /\ AnalysisJs.getComplexityColor Null = Return (js "#00BFFF")
  /\ Part000.getComplexityColor Null = Return (js "#FFA500").
Proof.
  split; [exact (AnalysisJs_color v Hstr)|].
  split; [exact (Part000_color v Hstr)|].
  split.
  { intros w e H. destruct (String_ w) as [s|e'] eqn:Hw.
    - destruct (AnalysisJs_color w Hw) as (col & Hcol & _).
      rewrite Hcol in H. discriminate.
    - unfold AnalysisJs.getComplexityColor in H. rewrite Hw in H. exact H. }
  split.
  { intros w e H. destruct (String_ w) as [s|e'] eqn:Hw.
    - destruct (Part000_color w Hw) as (col & Hcol & _).
      rewrite Hcol in H. discriminate.
    - unfold Part000.getComplexityColor in H. rewrite Hw in H. exact H. }
  split; reflexivity.
Qed.

Lemma getComplexityColor_total_witness :
  String_ Null = Return (js "null")
  /\ (exists col, AnalysisJs.getComplexityColor Null = Return col
                  /\ In col AnalysisJs_palette).
Proof.
  split; [reflexivity|].
  exact (proj1 (getComplexityColor_total Null eq_refl)).
Defined.

(** ** Response validation *)

Lemma missing_in_object (props : list (jsstring * value)) (ps : list jsstring) :
  Forall (fun p => inherited p = false) ps ->
  missing_in (Obj props) ps = Return (filter (lacks props) ps).
Proof.
  induction 1 as [|p ps Hp _ IH]; [reflexivity|].
  cbn [missing_in has_property bind filter]. rewrite IH. cbn [bind].
  unfold lacks. destruct (own p props); [reflexivity|].
  rewrite Hp. reflexivity.
Qed.

Lemma required_not_inherited : Forall (fun p => inherited p = false) required.
Proof. repeat constructor. Qed.

(** The response carries a [results] that is a non-empty string: the [in]
    test throws, and [validateResponse] returns neither [true] nor
    [false]. *)
Lemma validateResponse_string_results :
  let result := Obj [(js "results", Str (js "x"))] in
  own (js "results") [(js "results", Str (js "x"))] = Some (Str (js "x"))
  /\ snd (validateResponse result) = Throw TypeError
  /\ snd (validateResponse result) <> Return true
  /\ snd (validateResponse result) <> Return false.
Proof. repeat split; try reflexivity; differ. Qed.

(** ** Counting declarations *)

Lemma String_match_all_length (code : jsstring) (re : regexp) :
  match String_match_all code re with
  | Some matches => List.length matches = count_matches code re
  | None => count_matches code re = 0%nat
  end.
Proof.
  unfold String_match_all, count_matches.
  destruct (search_all _ _ _ _ _); reflexivity.
Qed.

Lemma count_loop (code : jsstring) (res : list regexp) (count : Z) :
  fold_left
    (fun count pattern =>
       match String_match_all code pattern with
       | Some matches => (count + Z.of_nat (List.length matches))%Z
       | None => count
       end) res count
  = (count + sum (map (fun re => Z.of_nat (count_matches code re)) res))%Z.
Proof.
  revert count. induction res as [|re res IH]; intros count; cbn [fold_left map sum fold_right].
  - lia.
  - rewrite IH. pose proof (String_match_all_length code re) as H.
    destruct (String_match_all code re); rewrite H; unfold sum; lia.
Qed.

(** ** Scores *)

Lemma own_entry_cons (key k : jsstring) (z : Z) (table : list (jsstring * Z)) :
  own_entry key ((k, z) :: table)
  = if jsstring_eqb key k then Some z else own_entry key table.
Proof. reflexivity. Qed.

Lemma not_recognized (t : jsstring) :
  ~ In t recognized ->
  own_entry t Part000.performanceScores = None
  /\ own_entry t Part000.complexityScores = None
  /\ (t <> O_n_misencoded ->
      own_entry t AnalysisJs.performanceScores = None
      /\ own_entry t AnalysisJs.complexityScores = None).
Proof.
  intros Hrec.
  assert (H : forall k, In k recognized -> jsstring_eqb t k = false).
  { intros k Hk. apply jsstring_eqb_neq. intros ->. exact (Hrec Hk). }
  unfold Part000.performanceScores, Part000.complexityScores,
    AnalysisJs.performanceScores, AnalysisJs.complexityScores.
  rewrite !own_entry_cons.
  change (js "O(n" ++ Part000.squared ++ js ")") with O_n_squared.
  change (js "O(n" ++ AnalysisJs.squared ++ js ")") with O_n_misencoded.
  rewrite !H by (unfold recognized; simpl; tauto).
  repeat split; try reflexivity;
    apply jsstring_eqb_neq in H0; rewrite H0; reflexivity.
Qed.

Lemma or_string_nonempty (t d : jsstring) : t <> [] -> or_string (Some t) d = t.
Proof. destruct t; [congruence|reflexivity]. Qed.

Lemma lookup_unrecognized (table : list (jsstring * Z)) (t : jsstring) (d : Z) :
  own_entry t table = None -> inherited t = false ->
  or_default (lookup table t) d = Num d.
Proof. unfold lookup. intros -> ->. reflexivity. Qed.

(** C7.  The two copies of the scoring tables differ in one key: where the
    plain copy has "O(n²)", analysis.js has the mis-encoded spelling.  On
    the token "O(n²)" the plain copy finds its entry (25, and 2 for each of
    time and space), while analysis.js falls to its defaults (50, and the
    mean of 5 and 8). *)
Theorem scores_differ_on_squared :
  AnalysisJs.calculatePerformanceScore (with_time O_n_squared) = Num 50
  /\ Part000.calculatePerformanceScore (with_time O_n_squared) = Num 25
  /\ AnalysisJs.calculateComplexityScore (with_tokens O_n_squared O_n_squared) = Num 7
  /\ Part000.calculateComplexityScore (with_tokens O_n_squared O_n_squared) = Num 2.
Proof. repeat split. Qed.

Lemma tables_agree (t : jsstring) :
  t <> O_n_squared -> t <> O_n_misencoded ->
  lookup AnalysisJs.performanceScores t = lookup Part000.performanceScores t
  /\ lookup AnalysisJs.complexityScores t = lookup Part000.complexityScores t.
Proof.
  intros H1 H2.
  apply jsstring_eqb_neq in H1. apply jsstring_eqb_neq in H2.
  unfold lookup, Part000.performanceScores, Part000.complexityScores,
    AnalysisJs.performanceScores, AnalysisJs.complexityScores.
  rewrite !own_entry_cons.
  change (js "O(n" ++ Part000.squared ++ js ")") with O_n_squared.
  change (js "O(n" ++ AnalysisJs.squared ++ js ")") with O_n_misencoded.
  rewrite H1, H2. split; reflexivity.
Qed.

(** Away from the two spellings of the squared token, the two copies of the
    scoring methods agree. *)
Lemma scores_agree_elsewhere (a : option analysis) :
  (forall x, a = Some x ->
     time x <> Some O_n_squared /\ time x <> Some O_n_misencoded
     /\ space x <> Some O_n_squared /\ space x <> Some O_n_misencoded) ->
  AnalysisJs.calculatePerformanceScore a = Part000.calculatePerformanceScore a
  /\ AnalysisJs.calculateComplexityScore a = Part000.calculateComplexityScore a.
Proof.
  destruct a as [[t s]|]; [|split; reflexivity].
  intros H. destruct (H _ eq_refl) as (Ht1 & Ht2 & Hs1 & Hs2). cbn [time space] in *.
  assert (Hd : forall (o : option jsstring) (d : jsstring),
             o <> Some O_n_squared -> o <> Some O_n_misencoded ->
             d <> O_n_squared -> d <> O_n_misencoded ->
             or_string o d <> O_n_squared /\ or_string o d <> O_n_misencoded).
  { intros [[|c o]|] d A B C D; cbn [or_string]; split; congruence. }
  unfold AnalysisJs.calculatePerformanceScore, Part000.calculatePerformanceScore,
    AnalysisJs.calculateComplexityScore, Part000.calculateComplexityScore.
  cbn [time space].
  destruct (Hd t (js "O(n)") Ht1 Ht2) as [A B]; [differ|differ|].
  destruct (Hd s (js "O(1)") Hs1 Hs2) as [C D]; [differ|differ|].
  destruct (tables_agree A B) as [-> ->].
  destruct (tables_agree C D) as [_ ->].
  split; reflexivity.
Qed.

(** The empty token is replaced by "O(n)" before the lookup: the method
    returns 70 for it, not the default 50. *)
Lemma calculatePerformanceScore_empty_token :
  AnalysisJs.calculatePerformanceScore (with_time []) = Num 70
  /\ Part000.calculatePerformanceScore (with_time []) = Num 70
  /\ ~ In [] recognized.
Proof.
  repeat split. unfold recognized. simpl.
  intros H; repeat destruct H as [H|H]; try discriminate H; exact H.
Qed.

(** C5.  [calculatePerformanceScore] returns the table value for each of the
    tokens "O(1)", "O(log n)", "O(n)", "O(n log n)", "O(n^2)" and "O(2^n)"
    in both files, and for "O(n²)" in the plain copy; it takes the empty
    token for "O(n)" and returns 70; and it returns 50 for every other token
    that is not the name of a member of Object.prototype.  What analysis.js
    returns for "O(n²)", and for the mis-encoded spelling that its table
    holds in the place of it, is left aside: that is the difference of
    C7. *)
Theorem calculatePerformanceScore_table (t : jsstring)
    (Hne : t <> []) (Hrec : ~ In t recognized) (Hinh : inherited t = false) :
  Forall (fun '(token, z) =>
            AnalysisJs.calculatePerformanceScore (with_time token) = Num z
            /\ Part000.calculatePerformanceScore (with_time token) = Num z)
    [(js "O(1)", 95%Z); (js "O(log n)", 85%Z); (js "O(n)", 70%Z);
     (js "O(n log n)", 55%Z); (js "O(n^2)", 25%Z); (js "O(2^n)", 5%Z)]
  /\ Part000.calculatePerformanceScore (with_time O_n_squared) = Num 25
  /\ AnalysisJs.calculatePerformanceScore (with_time []) = Num 70
  /\ Part000.calculatePerformanceScore (with_time []) = Num 70
  /\ Part000.calculatePerformanceScore (with_time t) = Num 50
  /\ (t <> O_n_misencoded ->
      AnalysisJs.calculatePerformanceScore (with_time t) = Num 50).
Proof.
  split; [repeat constructor|].
  do 3 (split; [reflexivity|]).
  destruct (not_recognized Hrec) as (HP & _ & HA).
  unfold AnalysisJs.calculatePerformanceScore, Part000.calculatePerformanceScore,
    with_time.
  cbn [time]. rewrite (or_string_nonempty _ Hne).
  split.
  - apply lookup_unrecognized; assumption.
  - intros Hmis. apply lookup_unrecognized; [apply (HA Hmis)|assumption].
Qed.

Lemma calculatePerformanceScore_table_witness :
  Part000.calculatePerformanceScore (with_time (js "O(n^3)")) = Num 50
  /\ AnalysisJs.calculatePerformanceScore (with_time (js "O(n^3)")) = Num 50.
Proof.
  assert (Hne : js "O(n^3)" <> []) by discriminate.
  assert (Hrec : ~ In (js "O(n^3)") recognized).
  { unfold recognized. simpl.
    intros H; repeat destruct H as [H|H]; try discriminate H; exact H. }
  assert (Hmis : js "O(n^3)" <> O_n_misencoded) by discriminate.
  pose proof (calculatePerformanceScore_table Hne Hrec eq_refl) as H.
  destruct H as (_ & _ & _ & _ & HP & HA).
  split; [exact HP|exact (HA Hmis)].
Defined.

Lemma half_up_mean_eq (a b : Z) : half_up_mean a b = ((a + b + 1) / 2)%Z.
Proof.
  unfold half_up_mean. destruct (Z.even (a + b)) eqn:E.
  - apply Z.even_spec in E. destruct E as [k Hk]. rewrite Hk.
    replace (2 * k + 1)%Z with (1 + k * 2)%Z by lia.
    rewrite Z.div_add by lia. replace (2 * k)%Z with (k * 2)%Z by lia.
    rewrite Z.div_mul by lia. reflexivity.
  - assert (O : Z.odd (a + b) = true) by (rewrite <- Z.negb_even, E; reflexivity).
    apply Z.odd_spec in O. destruct O as [k Hk]. rewrite Hk.
    replace (2 * k + 1 + 1)%Z with ((k + 1) * 2)%Z by lia.
    rewrite Z.div_mul by lia.
    replace (2 * k + 1)%Z with (1 + k * 2)%Z by lia.
    rewrite Z.div_add by lia. reflexivity.
Qed.

Lemma severity_bounds (d : Z) (t : jsstring) :
  (1 <= d <= 10)%Z -> (1 <= severity d t <= 10)%Z.
Proof.
  intros Hd. unfold severity, severity_table. rewrite !own_entry_cons.
  cbn [own_entry]. by_key; lia.
Qed.

Lemma overallScore_spec_bounds (t s : jsstring) :
  (1 <= overallScore_spec t s <= 10)%Z.
Proof.
  unfold overallScore_spec. rewrite half_up_mean_eq.
  pose proof (@severity_bounds 5 t ltac:(lia)).
  pose proof (@severity_bounds 8 s ltac:(lia)).
  split.
  - apply Z.div_le_lower_bound; lia.
  - apply Z.lt_succ_r. apply Z.div_lt_upper_bound; lia.
Qed.

(** The empty time token is replaced by "O(n)", whose score is 6, where the
    table's default for an unrecognized time token is 5: with the space
    token "O(2^n)" the method returns 4, and the stated rule gives 3. *)
Lemma calculateComplexityScore_empty_token :
  AnalysisJs.calculateComplexityScore (with_tokens [] (js "O(2^n)")) = Num 4
  /\ Part000.calculateComplexityScore (with_tokens [] (js "O(2^n)")) = Num 4
  /\ overallScore_spec [] (js "O(2^n)") = 3%Z.
Proof. repeat split. Qed.

Lemma Part000_severity (d : Z) (t : jsstring) :
  inherited t = false ->
  or_default (lookup Part000.complexityScores t) d = Num (severity d t).
Proof.
  intros Ht. unfold lookup, severity, severity_table, Part000.complexityScores.
  change (js "O(n" ++ Part000.squared ++ js ")") with O_n_squared.
  rewrite !own_entry_cons. cbn [own_entry].
  by_key; try reflexivity. rewrite Ht. reflexivity.
Qed.

Lemma or_string_cases (t : option jsstring) (d : jsstring) (P : jsstring -> Prop) :
  (forall x, t = Some x -> x <> [] -> P x) -> P d -> P (or_string t d).
Proof.
  destruct t as [[|c x]|]; intros Hx Hd; cbn [or_string]; try exact Hd.
  apply Hx; [reflexivity|discriminate].
Qed.

(** C3.  [calculateComplexityScore] takes an empty or missing time token for
    "O(n)" and an empty or missing space token for "O(1)", maps each token
    through the severity table, with default 5 for another time token and 8
    for another space token, and returns the mean of the two, a half rounded
    up: an integer from 1 to 10.  This holds for tokens that are no names of
    members of Object.prototype: in the plain copy for all of them, and in
    analysis.js for those among them that are neither spelling of the
    squared token.  The three examples hold in both files. *)
Theorem calculateComplexityScore_mean (timeToken spaceToken : option jsstring)
    (Ht : inherited (or_string timeToken (js "O(n)")) = false)
    (Hs : inherited (or_string spaceToken (js "O(1)")) = false) :
  let t := or_string timeToken (js "O(n)") in
  let s := or_string spaceToken (js "O(1)") in
  let complexityAnalysis := Some {| time := timeToken; space := spaceToken |} in
  Part000.calculateComplexityScore complexityAnalysis = Num (overallScore_spec t s)
  /\ (1 <= overallScore_spec t s <= 10)%Z
  /\ (~ In O_n_squared [t; s] -> ~ In O_n_misencoded [t; s] ->
      AnalysisJs.calculateComplexityScore complexityAnalysis
      = Num (overallScore_spec t s))
  /\ AnalysisJs.calculateComplexityScore (with_tokens (js "O(1)") (js "O(1)")) = Num 10
  /\ Part000.calculateComplexityScore (with_tokens (js "O(1)") (js "O(1)")) = Num 10
  /\ AnalysisJs.calculateComplexityScore (with_tokens (js "O(n)") (js "O(1)")) = Num 8
  /\ Part000.calculateComplexityScore (with_tokens (js "O(n)") (js "O(1)")) = Num 8
  /\ AnalysisJs.calculateComplexityScore (with_tokens (js "O(n^2)") (js "O(n^2)")) = Num 2
  /\ Part000.calculateComplexityScore (with_tokens (js "O(n^2)") (js "O(n^2)")) = Num 2.
Proof.
  intros t s complexityAnalysis.
  assert (HP : Part000.calculateComplexityScore complexityAnalysis
               = Num (overallScore_spec t s)).
  { unfold Part000.calculateComplexityScore, complexityAnalysis. cbn [time space].
    fold t s. rewrite (@Part000_severity 5 t Ht), (@Part000_severity 8 s Hs).
    unfold overallScore_spec, round_mean. rewrite half_up_mean_eq. reflexivity. }
  split; [exact HP|]. split; [apply overallScore_spec_bounds|].
  split; [|repeat split].
  intros Hsq Hmis. rewrite <- HP.
  unfold AnalysisJs.calculateComplexityScore, Part000.calculateComplexityScore,
    complexityAnalysis. cbn [time space]. fold t s.
  assert (A : t <> O_n_squared /\ t <> O_n_misencoded)
    by (split; intros E; [apply Hsq|apply Hmis]; rewrite <- E; simpl; tauto).
  assert (B : s <> O_n_squared /\ s <> O_n_misencoded)
    by (split; intros E; [apply Hsq|apply Hmis]; rewrite <- E; simpl; tauto).
  destruct (tables_agree (proj1 A) (proj2 A)) as [_ ->].
  destruct (tables_agree (proj1 B) (proj2 B)) as [_ ->].
  reflexivity.
Qed.

Lemma calculateComplexityScore_mean_witness :
  Part000.calculateComplexityScore
    (Some {| time := Some (js "O(n^3)"); space := None |}) = Num 8
  /\ AnalysisJs.calculateComplexityScore
       (Some {| time := Some (js "O(n^3)"); space := None |}) = Num 8.
Proof.
  pose proof (@calculateComplexityScore_mean (Some (js "O(n^3)")) None
                eq_refl eq_refl) as H.
  cbv zeta in H. destruct H as (HP & _ & HA & _).
  split; [exact HP|].
  apply HA; simpl; intros H; repeat destruct H as [H|H]; try discriminate H; exact H.
Defined.

(** ** The matcher on the patterns of the source *)

Section MatcherFacts.

Variable icase : bool.
Variable input : jsstring.

Lemma run_Star (r1 : regex) (s : jsstring) (cs : captures) (k : cont) :
  run icase input (Star r1) s cs k
  = iterate icase input r1 k (List.length s) s cs.
Proof. reflexivity. Qed.

Lemma unit_Char (c : N) :
  unit_atom icase input (Char c) (fun x => (canon icase c =? canon icase x)%N).
Proof. intros s cs k. reflexivity. Qed.

Lemma unit_Class (negated : bool) (items : list class_item) :
  unit_atom icase input (Class negated items) (class_matches icase negated items).
Proof. intros s cs k. reflexivity. Qed.

(** A greedy star over a one-unit pattern takes the longest run, as long
    as the continuation, once it fails after the longest run, also fails
    after every shorter one. *)
Lemma iterate_unit (r : regex) (P : N -> bool) (k : cont) :
  unit_atom icase input r P ->
  (forall x s' cs, P x = true ->
     k (dropWhile P s') cs = None -> k (x :: s') cs = None) ->
  forall s fuel cs, (List.length s <= fuel)%nat ->
    iterate icase input r k fuel s cs = k (dropWhile P s) cs.
Proof.
  intros Hr Hk. induction s as [|x s IH]; intros fuel cs Hfuel.
  - destruct fuel; [reflexivity|].
    cbn [iterate]. rewrite Hr. reflexivity.
  - destruct fuel as [|fuel]; [simpl in Hfuel; lia|].
    cbn [iterate]. rewrite Hr. cbn [dropWhile].
    destruct (P x) eqn:Px; [|reflexivity].
    assert (Hlt : (List.length s <? List.length (x :: s))%nat = true)
      by (apply Nat.ltb_lt; simpl; lia).
    rewrite Hlt. rewrite IH by (simpl in Hfuel; lia).
    destruct (k (dropWhile P s) cs) eqn:E; [reflexivity|].
    apply Hk; assumption.
Qed.

Lemma star_commit (r : regex) (P : N -> bool) (k : cont) (s : jsstring) (cs : captures) :
  unit_atom icase input r P ->
  (forall x s' cs', P x = true -> k (x :: s') cs' = None) ->
  run icase input (Star r) s cs k = k (dropWhile P s) cs.
Proof.
  intros Hr Hk. rewrite run_Star.
  apply iterate_unit with (P := P); auto.
Qed.

Lemma star_total (r : regex) (P : N -> bool) (k : cont) (s : jsstring) (cs : captures) :
  unit_atom icase input r P ->
  (forall s' cs', k s' cs' <> None) ->
  run icase input (Star r) s cs k = k (dropWhile P s) cs.
Proof.
  intros Hr Hk. rewrite run_Star.
  apply iterate_unit with (P := P); auto.
  intros x s' cs' _ H. exfalso. exact (Hk _ _ H).
Qed.

(** With a continuation that always succeeds, a star succeeds. *)
Lemma star_succeeds (r : regex) (k : cont) (s : jsstring) (cs : captures) :
  (forall s' cs', k s' cs' <> None) ->
  run icase input (Star r) s cs k <> None.
Proof.
  intros Hk. rewrite run_Star. destruct (List.length s); cbn [iterate].
  - apply Hk.
  - destruct (run icase input r s cs _); [discriminate|apply Hk].
Qed.

Lemma run_literal (l : jsstring) (s : jsstring) (cs : captures) (k : cont) :
  run icase input (Cat (map Char l)) s cs k
  = if starts_with icase s l then k (skipn (List.length l) s) cs else None.
Proof.
  revert s. induction l as [|a l IH]; intros s; [reflexivity|].
  cbn [map Cat fold_right run]. fold (Cat (map Char l)).
  destruct s as [|x s]; [reflexivity|].
  cbn [starts_with List.length skipn].
  destruct (canon icase a =? canon icase x)%N; [apply IH|reflexivity].
Qed.

Lemma run_Lit (l : string) (s : jsstring) (cs : captures) (k : cont) :
  run icase input (Lit l) s cs k
  = if starts_with icase s (js l) then k (skipn (List.length (js l)) s) cs else None.
Proof. apply run_literal. Qed.

Lemma run_Seq (r1 r2 : regex) (s : jsstring) (cs : captures) (k : cont) :
  run icase input (Seq r1 r2) s cs k
  = run icase input r1 s cs (fun s' cs' => run icase input r2 s' cs' k).
Proof. reflexivity. Qed.

Lemma run_Empty (s : jsstring) (cs : captures) (k : cont) :
  run icase input Empty s cs k = k s cs.
Proof. reflexivity. Qed.

Lemma run_Alt (r1 r2 : regex) (s : jsstring) (cs : captures) (k : cont) :
  run icase input (Alt r1 r2) s cs k
  = match run icase input r1 s cs k with
    | Some st => Some st
    | None => run icase input r2 s cs k
    end.
Proof. reflexivity. Qed.

Lemma run_Group (i : nat) (r : regex) (s : jsstring) (cs : captures) (k : cont) :
  run icase input (Group i r) s cs k
  = run icase input r s cs
      (fun s' cs' =>
         k s' ((i, firstn (List.length s - List.length s') s) :: cs')).
Proof. reflexivity. Qed.

Lemma run_Bol (s : jsstring) (cs : captures) (k : cont) :
  run icase input Bol s cs k
  = if (List.length s =? List.length input)%nat then k s cs else None.
Proof. reflexivity. Qed.

Lemma run_Char (c : N) (s : jsstring) (cs : captures) (k : cont) :
  run icase input (Char c) s cs k
  = match s with
    | x :: s' => if (canon icase c =? canon icase x)%N then k s' cs else None
    | [] => None
    end.
Proof. reflexivity. Qed.

Lemma run_Class (negated : bool) (items : list class_item)
    (s : jsstring) (cs : captures) (k : cont) :
  run icase input (Class negated items) s cs k
  = match s with
    | x :: s' => if class_matches icase negated items x then k s' cs else None
    | [] => None
    end.
Proof. reflexivity. Qed.

(** The matcher finds what [first_at] finds. *)
Lemma search_first_at (r : regex) (f : jsstring -> option state) (s : jsstring) :
  (forall s', match_here icase input r s' = f s') ->
  search icase input r s
  = first_at (fun s' =>
                match f s' with
                | Some (rest, cs) => Some (Found s' rest cs)
                | None => None
                end) s.
Proof.
  intros H. induction s as [|x s IH]; cbn [search first_at]; rewrite H.
  - destruct (f []) as [[rest cs]|]; reflexivity.
  - destruct (f (x :: s)) as [[rest cs]|]; [reflexivity|exact IH].
Qed.

(** After the start of the subject, [^] fails. *)
Lemma search_after_start (r : regex) (s : jsstring) :
  (List.length s < List.length input)%nat ->
  search icase input (Seq Bol r) s = None.
Proof.
  induction s as [|x s IH]; intros Hlen; cbn [search];
    unfold match_here; cbn [run];
    (replace (List.length _ =? List.length input)%nat with false
      by (symmetry; apply Nat.eqb_neq; lia)).
  - reflexivity.
  - apply IH. simpl in Hlen. lia.
Qed.

End MatcherFacts.

(** ** The parenthesized expression of the three token patterns *)

Lemma close_canon (icase : bool) (x : N) :
  class_matches icase true [Of ")"] x = not_close x.
Proof.
  unfold class_matches, not_close, Of, item_matches, existsb, canon, upperUnit.
  change (N_of_ascii ")") with 41%N.
  destruct icase; units.
Qed.

Lemma open_canon (icase : bool) (x : N) :
  class_matches icase false [Of "O"; Of "("] x = opens icase x.
Proof.
  unfold class_matches, opens, Of, item_matches, existsb, canon, upperUnit.
  change (N_of_ascii "O") with 79%N. change (N_of_ascii "(") with 40%N.
  destruct icase; units.
Qed.

Lemma space_not_open (icase : bool) (x : N) :
  isWhiteSpace x = true -> opens icase x = false.
Proof.
  intros H. unfold opens.
  destruct (N.eqb_spec x 79) as [->|_]; [vm_compute in H; discriminate|].
  destruct (N.eqb_spec x 40) as [->|_]; [vm_compute in H; discriminate|].
  destruct (N.eqb_spec x 111) as [->|_]; [vm_compute in H; discriminate|].
  destruct icase; reflexivity.
Qed.

Lemma firstn_app_exact (a b : jsstring) :
  firstn (List.length (a ++ b) - List.length b) (a ++ b) = a.
Proof.
  rewrite length_app. replace (List.length a + List.length b - List.length b)%nat
    with (List.length a + 0)%nat by lia.
  rewrite firstn_app_2. simpl. apply app_nil_r.
Qed.

Lemma takeWhile_dropWhile (p : N -> bool) (s : jsstring) :
  takeWhile p s ++ dropWhile p s = s.
Proof.
  induction s as [|c s IH]; [reflexivity|].
  simpl. destruct (p c); simpl; congruence.
Qed.

Section Patterns.
Variable icase : bool.
Variable input : jsstring.

(** The parenthesized-expression group of the three patterns. *)
Lemma run_bigO (s : jsstring) (cs : captures) (k : cont) :
  run icase input bigO s cs k
  = match expression (opens icase) s with
    | Some (token, rest) => k rest ((1%nat, token) :: cs)
    | None => None
    end.
Proof.
  unfold bigO, expression. cbn [Cat fold_right].
  rewrite run_Group, run_Seq, run_Class.
  destruct s as [|c s]; [reflexivity|].
  rewrite open_canon. destruct (opens icase c); [|reflexivity].
  rewrite run_Seq, (star_commit (P := not_close)).
  - destruct (dropWhile not_close s) as [|y rest] eqn:E; [reflexivity|].
    assert (Hy : y = 41%N).
    { destruct s as [|z s']; [discriminate|].
      assert (H : not_close y = false).
      { clear - E. revert E. generalize (z :: s'). intros l.
        induction l as [|a l IH]; simpl; [discriminate|].
        destruct (not_close a) eqn:Ha; [exact IH|].
        intros H. injection H as -> _. exact Ha. }
      unfold not_close in H. apply negb_false_iff, N.eqb_eq in H. exact H. }
    subst y. unfold Chr. change (N_of_ascii ")") with 41%N.
    rewrite run_Seq, run_Char, N.eqb_refl, run_Empty.
    f_equal. f_equal. f_equal.
    pose proof (takeWhile_dropWhile not_close s) as Hs. rewrite E in Hs.
    clear E. revert Hs. generalize (takeWhile not_close s). intros tok Hs.
    subst s.
    replace (c :: tok ++ 41%N :: rest)
      with ((c :: tok ++ [41%N]) ++ rest)
      by (simpl; rewrite <- app_assoc; reflexivity).
    apply firstn_app_exact.
  - intros s' cs' k'. rewrite run_Class.
    destruct s' as [|x s']; [reflexivity|].
    rewrite close_canon. reflexivity.
  - intros x s' cs' Hx. unfold Chr. change (N_of_ascii ")") with 41%N.
    rewrite run_Seq, run_Char. unfold not_close in Hx. apply negb_true_iff in Hx.
    unfold canon, upperUnit. revert Hx. destruct icase; units.
Qed.

Lemma anySpace_unit : unit_atom icase input AnySpace isWhiteSpace.
Proof.
  intros s cs k. unfold AnySpace. rewrite run_Class.
  destruct s as [|x s]; [reflexivity|].
  unfold class_matches. cbn [existsb item_matches xorb].
  rewrite orb_false_r. reflexivity.
Qed.

(** When every match of a pattern binds its first group to the
    expression that [e] finds, the first group of a search is the first
    expression that [e] finds. *)
Lemma search_group_1 (r : regex) (e : jsstring -> option (jsstring * jsstring))
    (s : jsstring) :
  (forall s', match_here icase input r s'
              = match e s' with
                | Some (token, rest) => Some (rest, [(1%nat, token)])
                | None => None
                end) ->
  match search icase input r s with
  | Some m => exists token rest,
      first_at e s = Some (token, rest) /\ group 1 m = Some token
  | None => first_at e s = None
  end.
Proof.
  intros H. induction s as [|x s IH]; cbn [search first_at]; rewrite H.
  - destruct (e []) as [[token rest]|]; [|reflexivity].
    exists token, rest. split; reflexivity.
  - destruct (e (x :: s)) as [[token rest]|]; [|exact IH].
    exists token, rest. split; reflexivity.
Qed.

End Patterns.

Section Labelled.
Variable input : jsstring.

(** A label, white space, and the expression. *)
Lemma match_here_labelled (label : string) (s : jsstring) :
  match_here true input (Cat [Lit label; Star AnySpace; bigO]) s
  = match labelled (js label) s with
    | Some (token, rest) => Some (rest, [(1%nat, token)])
    | None => None
    end.
Proof.
  unfold match_here, labelled. cbn [Cat fold_right].
  rewrite run_Seq, run_Lit.
  destruct (starts_with true s (js label)); [|reflexivity].
  rewrite run_Seq, (star_commit (P := isWhiteSpace)).
  - rewrite run_Seq, run_bigO.
    destruct (expression (opens true) _) as [[token rest]|]; reflexivity.
  - apply anySpace_unit.
  - intros x s' cs' Hx. rewrite run_Seq, run_bigO. unfold expression.
    rewrite (@space_not_open true x Hx). reflexivity.
Qed.

Lemma match_here_fallback (s : jsstring) :
  match_here false input bigO s
  = match expression (opens false) s with
    | Some (token, rest) => Some (rest, [(1%nat, token)])
    | None => None
    end.
Proof.
  unfold match_here. rewrite run_bigO.
  destruct (expression (opens false) s) as [[token rest]|]; reflexivity.
Qed.

End Labelled.

Lemma time_token (text : jsstring) :
  match
    match String_match text timePattern with
    | Some m => Some m
    | None => String_match text fallbackPattern
    end
  with
  | Some m => group 1 m
  | None => Some (js "O(n)")
  end = Some (timeToken_found text).
Proof.
  unfold String_match, timeToken_found, timePattern, fallbackPattern.
  cbn [pattern ignoreCase].
  pose proof (@search_group_1 true text _ _ text
                (match_here_labelled text "Time Complexity:")) as H1.
  pose proof (@search_group_1 false text _ _ text (match_here_fallback text)) as H2.
  destruct (search true text _ text) as [m|].
  - destruct H1 as (token & rest & -> & ->). reflexivity.
  - rewrite H1.
    destruct (search false text bigO text) as [m|].
    + destruct H2 as (token & rest & -> & ->). reflexivity.
    + rewrite H2. reflexivity.
Qed.

Lemma space_token (text : jsstring) :
  match String_match text spacePattern with
  | Some m => group 1 m
  | None => Some (js "O(1)")
  end = Some (spaceToken_found text).
Proof.
  unfold String_match, spaceToken_found, spacePattern.
  cbn [pattern ignoreCase].
  pose proof (@search_group_1 true text _ _ text
                (match_here_labelled text "Space Complexity:")) as H1.
  destruct (search true text _ text) as [m|].
  - destruct H1 as (token & rest & -> & ->). reflexivity.
  - rewrite H1. reflexivity.
Qed.

(** ** Lines *)

Lemma dropWhile_ext (p q : N -> bool) (s : jsstring) :
  (forall c, p c = q c) -> dropWhile p s = dropWhile q s.
Proof.
  intros H. induction s as [|c s IH]; [reflexivity|].
  simpl. rewrite H, IH. reflexivity.
Qed.

Lemma dropWhile_length (p : N -> bool) (s : jsstring) :
  (List.length (dropWhile p s) <= List.length s)%nat.
Proof.
  induction s as [|c s IH]; simpl; [lia|].
  destruct (p c); simpl; lia.
Qed.

Section Lines.

Variable input : jsstring.

Lemma header_alternatives (k : cont) (s : jsstring) (cs : captures) :
  always_succeeds k ->
  is_some
    (run true input
       (Alt (Lit "REFACTORING")
          (Alt (Cat [Lit "SUGGESTION"; Opt (Chr "S")])
             (Alt (AtLeast3 (Chr "=")) (AtLeast3 (Chr "-")))))
       s cs k)
  = is_header s.
Proof.
  intros Hk. unfold is_header.
  rewrite run_Alt, run_Lit.
  destruct (starts_with true s (js "REFACTORING")).
  { destruct (k _ _) eqn:E; [reflexivity|destruct (Hk _ _ E)]. }
  cbn [orb]. rewrite run_Alt. cbn [Cat fold_right].
  rewrite run_Seq, run_Lit.
  destruct (starts_with true s (js "SUGGESTION")).
  { rewrite run_Seq. unfold Opt. rewrite run_Alt.
    destruct (run true input (Chr "S") _ _ _); [reflexivity|].
    rewrite !run_Empty.
    destruct (k _ _) eqn:E; [reflexivity|destruct (Hk _ _ E)]. }
  cbn [orb]. unfold AtLeast3, Chr.
  change (N_of_ascii "=") with 61%N. change (N_of_ascii "-") with 45%N.
  assert (Hrun : forall c,
             is_some (run true input
                        (Seq (Char c) (Seq (Char c) (Seq (Char c) (Star (Char c)))))
                        s cs k)
             = starts_with true s [c; c; c]).
  { intros c. rewrite run_Seq, run_Char.
    destruct s as [|x1 s1]; [reflexivity|]. cbn [starts_with].
    destruct (canon true c =? canon true x1)%N; [|reflexivity].
    rewrite run_Seq, run_Char.
    destruct s1 as [|x2 s2]; [reflexivity|]. cbn [starts_with].
    destruct (canon true c =? canon true x2)%N; [|reflexivity].
    rewrite run_Seq, run_Char.
    destruct s2 as [|x3 s3]; [reflexivity|]. cbn [starts_with].
    destruct (canon true c =? canon true x3)%N; [|reflexivity].
    cbn [andb].
    destruct (run true input (Star (Char c)) s3 cs k) eqn:E; [reflexivity|].
    destruct (@star_succeeds true input (Char c) k s3 cs Hk E). }
  rewrite run_Alt.
  pose proof (Hrun 61%N) as H1. pose proof (Hrun 45%N) as H2.
  change (js "===") with [61%N; 61%N; 61%N].
  change (js "---") with [45%N; 45%N; 45%N].
  destruct (run true input (Seq (Char 61) _) s cs k).
  - rewrite <- H1. reflexivity.
  - rewrite <- H1, <- H2. reflexivity.
Qed.

End Lines.

(** The header test of the source is [is_header]. *)
Lemma header_test (line : jsstring) :
  is_some (String_match line headerPattern) = is_header line.
Proof.
  unfold String_match, headerPattern. cbn [pattern ignoreCase Cat fold_right].
  rewrite <- (@header_alternatives line
                (fun s' cs' =>
                   run true line Empty s'
                     ((1%nat, firstn (List.length line - List.length s') line) :: cs')
                     accept)
                line []) by (intros s cs; discriminate).
  assert (Hhere : match_here true line
                    (Seq Bol (Seq (Group 1
                       (Alt (Lit "REFACTORING")
                          (Alt (Seq (Lit "SUGGESTION") (Seq (Opt (Chr "S")) Empty))
                             (Alt (AtLeast3 (Chr "=")) (AtLeast3 (Chr "-")))))) Empty))
                    line
                  = run true line
                      (Alt (Lit "REFACTORING")
                         (Alt (Seq (Lit "SUGGESTION") (Seq (Opt (Chr "S")) Empty))
                            (Alt (AtLeast3 (Chr "=")) (AtLeast3 (Chr "-")))))
                      line []
                      (fun s' cs' =>
                         run true line Empty s'
                           ((1%nat, firstn (List.length line - List.length s') line) :: cs')
                           accept)).
  { unfold match_here. rewrite run_Seq, run_Bol, Nat.eqb_refl.
    rewrite run_Seq, run_Group. reflexivity. }
  destruct line as [|x l].
  - cbn [search]. rewrite Hhere. cbn [Cat fold_right].
    destruct (run true [] _ [] [] _) as [[rest cs]|]; reflexivity.
  - cbn [search]. rewrite Hhere. cbn [Cat fold_right].
    destruct (run true (x :: l) _ (x :: l) [] _) as [[rest cs]|]; [reflexivity|].
    rewrite search_after_start by (simpl; lia). reflexivity.
Qed.

Lemma segments_after_run (s : jsstring) :
  segments true [] s = segments false [] (dropWhile (fun x => (10 =? x)%N) s).
Proof.
  induction s as [|c s IH]; [reflexivity|].
  cbn [segments dropWhile]. rewrite (N.eqb_sym 10 c).
  destruct (c =? 10)%N eqn:E; [exact IH|].
  cbn [segments]. rewrite E. reflexivity.
Qed.

Lemma newline_here (input : jsstring) (s : jsstring) :
  match_here false input (Plus (Char 10)) s
  = match s with
    | c :: s' =>
        if (c =? 10)%N
        then Some (dropWhile (fun x => (10 =? x)%N) s', [])
        else None
    | [] => None
    end.
Proof.
  unfold match_here, Plus. rewrite run_Seq, run_Char.
  destruct s as [|c s]; [reflexivity|].
  unfold canon. rewrite (N.eqb_sym 10 c).
  destruct (c =? 10)%N; [|reflexivity].
  rewrite (star_total (P := fun x => (10 =? x)%N)).
  - reflexivity.
  - intros s' cs' k'. reflexivity.
  - intros s' cs'. discriminate.
Qed.

Lemma split_loop_segments (input : jsstring) (fuel : nat) :
  forall acc s, (List.length s < fuel)%nat ->
    split_loop false input fuel (Plus (Char 10)) acc s = segments false acc s.
Proof.
  induction fuel as [|fuel IH]; intros acc s Hfuel; [lia|].
  cbn [split_loop]. destruct s as [|c s]; [reflexivity|].
  rewrite newline_here. cbn [segments].
  destruct (c =? 10)%N.
  - pose proof (dropWhile_length (fun x => (10 =? x)%N) s) as Hlen.
    replace (List.length (dropWhile _ s) =? List.length (c :: s))%nat with false
      by (symmetry; apply Nat.eqb_neq; cbn [List.length]; lia).
    cbn [andb]. rewrite IH by (cbn [List.length] in Hfuel; lia).
    rewrite segments_after_run. reflexivity.
  - apply IH. simpl in Hfuel. lia.
Qed.

(** [split(/\n+/)] gives the segments between runs of newlines. *)
Lemma split_newlines (text : jsstring) :
  String_split text newlines = segments false [] text.
Proof.
  unfold String_split, newlines. cbn [pattern ignoreCase].
  destruct text as [|c s].
  - rewrite newline_here. reflexivity.
  - apply split_loop_segments. simpl. lia.
Qed.

Lemma filter_ext_bool {A : Type} (f g : A -> bool) (l : list A) :
  (forall x, f x = g x) -> filter f l = filter g l.
Proof.
  intros H. induction l as [|x l IH]; [reflexivity|].
  simpl. rewrite H, IH. reflexivity.
Qed.

(** The [lines] of the source are those of the specification. *)
Lemma lines_are_spec (text : jsstring) : lines text = lines_spec text.
Proof.
  unfold lines, lines_spec. rewrite split_newlines.
  transitivity
    (filter (fun line => negb (is_header line))
       (filter (fun line => (0 <? List.length line)%nat)
          (map trim (segments false [] text)))).
  - apply filter_ext_bool. intros line. f_equal. apply header_test.
  - f_equal. apply filter_ext_bool. intros line. destruct line; reflexivity.
Qed.

Lemma bullet_class (x : N) :
  class_matches false false
    [Digit; Of "."; Of "-"; Of "*"; Of "+"; One 8226; Space] x
  = is_bullet x.
Proof.
  unfold class_matches, is_bullet, Of, canon. cbn [existsb item_matches xorb].
  change (N_of_ascii ".") with 46%N. change (N_of_ascii "-") with 45%N.
  change (N_of_ascii "*") with 42%N. change (N_of_ascii "+") with 43%N.
  rewrite (N.eqb_sym 46), (N.eqb_sym 45), (N.eqb_sym 42), (N.eqb_sym 43),
    (N.eqb_sym 8226), orb_false_r.
  rewrite !orb_assoc. reflexivity.
Qed.

(** The cleaning [replace] of the plain copy removes the leading run of
    bullet units. *)
Lemma Part000_clean (line : jsstring) :
  String_replace line Part000.bullets [] = dropWhile is_bullet line.
Proof.
  unfold String_replace, String_match, Part000.bullets.
  cbn [pattern ignoreCase Cat fold_right].
  set (cls := Class false [Digit; Of "."; Of "-"; Of "*"; Of "+"; One 8226; Space]).
  assert (Hhere : match_here false line (Seq Bol (Seq (Plus cls) Empty)) line
                  = match line with
                    | x :: l => if is_bullet x
                                then Some (dropWhile is_bullet l, [])
                                else None
                    | [] => None
                    end).
  { unfold match_here, Plus.
    rewrite run_Seq, run_Bol, Nat.eqb_refl, !run_Seq. unfold cls.
    rewrite run_Class. destruct line as [|x l]; [reflexivity|].
    rewrite bullet_class. destruct (is_bullet x); [|reflexivity].
    rewrite (star_total (P := is_bullet)).
    - reflexivity.
    - intros s cs k. rewrite run_Class. destruct s as [|y s]; [reflexivity|].
      rewrite bullet_class. reflexivity.
    - intros s cs. discriminate. }
  destruct line as [|x l]; cbn [search]; rewrite Hhere.
  - reflexivity.
  - cbn [dropWhile]. destruct (is_bullet x).
    + cbn [f_from f_rest]. rewrite Nat.sub_diag. reflexivity.
    + rewrite search_after_start by (simpl; lia). reflexivity.
Qed.

Lemma map_from_ext {A B : Type} (f g : A -> nat -> B) (l : list A) (i : nat) :
  (forall x j, f x j = g x j) -> map_from i f l = map_from i g l.
Proof.
  intros H. revert i. induction l as [|x l IH]; intros i; [reflexivity|].
  simpl. rewrite H, IH. reflexivity.
Qed.

Lemma map_from_length {A B : Type} (f : A -> nat -> B) (l : list A) (i : nat) :
  List.length (map_from i f l) = List.length l.
Proof.
  revert i. induction l as [|x l IH]; intros i; [reflexivity|].
  simpl. rewrite IH. reflexivity.
Qed.

(** The plain copy computes the records of the specification. *)
Lemma Part000_suggestions (text : jsstring) :
  text <> [] -> includes text marker = false ->
  Part000.parseRefactoringSuggestionsFromAgent (Some text)
  = Part000_suggestions_spec text.
Proof.
  intros Hne Hmark. unfold Part000.parseRefactoringSuggestionsFromAgent.
  rewrite Hmark. destruct text as [|c s]; [congruence|].
  cbn [List.length Nat.eqb orb].
  unfold Part000_suggestions_spec, Array_map. rewrite lines_are_spec.
  apply map_from_ext. intros line index. rewrite Part000_clean. reflexivity.
Qed.

Lemma sequence_map_from {A B : Type} (f : A -> nat -> completion B) (g : A -> nat -> B)
    (l : list A) (i : nat) :
  (forall x j, f x j = Return (g x j)) ->
  sequence (map_from i f l) = Return (map_from i g l).
Proof.
  intros H. revert i. induction l as [|x l IH]; intros i; [reflexivity|].
  cbn [map_from sequence]. rewrite H, IH. reflexivity.
Qed.

(** The themed copy returns one record per surviving line. *)
Lemma AnalysisJs_suggestions (text : jsstring) :
  text <> [] -> includes text marker = false ->
  exists records,
    AnalysisJs.parseRefactoringSuggestionsFromAgent (Some text) = Return records
    /\ List.length records = List.length (lines_spec text).
Proof.
  intros Hne Hmark. unfold AnalysisJs.parseRefactoringSuggestionsFromAgent.
  rewrite Hmark. destruct text as [|c s]; [congruence|].
  cbn [List.length Nat.eqb orb]. unfold Array_map.
  eexists. split.
  - apply sequence_map_from. intros line index. reflexivity.
  - rewrite map_from_length, lines_are_spec. reflexivity.
Qed.

(** ** Suggestions *)

Lemma lines_spec_nil (text : jsstring) :
  lines_spec text = [] <-> forallb blank_or_header (segments false [] text) = true.
Proof.
  unfold lines_spec. induction (segments false [] text) as [|seg l IH].
  - simpl. tauto.
  - cbn [map filter forallb]. unfold blank_or_header at 1.
    destruct (List.length (trim seg) =? 0)%nat; cbn [negb orb andb]; [exact IH|].
    cbn [filter]. destruct (is_header (trim seg)); cbn [negb andb]; [exact IH|].
    split; discriminate.
Qed.

Lemma map_from_nil {A B : Type} (f : A -> nat -> B) (l : list A) (i : nat) :
  map_from i f l = [] <-> l = [].
Proof. destruct l; simpl; split; congruence. Qed.

(** A text of one separator line: not absent, without the marker, and yet
    no suggestion comes out. *)
Lemma suggestions_empty_on_separator :
  Part000.parseRefactoringSuggestionsFromAgent (Some (js "===")) = []
  /\ AnalysisJs.parseRefactoringSuggestionsFromAgent (Some (js "===")) = Return []
  /\ js "===" <> []
  /\ includes (js "===") marker = false.
Proof. repeat split. discriminate. Qed.

(** C2.  The list of suggestions is empty exactly when the text is absent
    or empty, or contains the marker "No refactoring suggestions", or
    consists of segments that are all blank or header lines; every other
    text yields at least one record. *)
Theorem suggestions_empty_iff (refactoringText : option jsstring) :
  let nothing_survives :=
    match refactoringText with
    | None => True
    | Some text =>
        text = [] \/ includes text marker = true
        \/ forallb blank_or_header (segments false [] text) = true
    end in
  (Part000.parseRefactoringSuggestionsFromAgent refactoringText = []
   <-> nothing_survives)
  /\ (AnalysisJs.parseRefactoringSuggestionsFromAgent refactoringText = Return []
      <-> nothing_survives).
Proof.
  destruct refactoringText as [text|]; cbv zeta; [|split; split; auto].
  destruct text as [|c s]; [split; split; auto|].
  destruct (includes (c :: s) marker) eqn:Hmark.
  - unfold Part000.parseRefactoringSuggestionsFromAgent,
      AnalysisJs.parseRefactoringSuggestionsFromAgent.
    rewrite Hmark, orb_true_r. split; split; auto.
  - assert (Hne : c :: s <> []) by discriminate.
    rewrite (Part000_suggestions Hne Hmark).
    destruct (AnalysisJs_suggestions Hne Hmark) as (records & -> & Hlen).
    unfold Part000_suggestions_spec. rewrite map_from_nil, lines_spec_nil.
    split; split.
    + auto.
    + intros [H|[H|H]]; [discriminate|discriminate|exact H].
    + intros H. injection H as ->. right. right.
      apply lines_spec_nil. destruct (lines_spec (c :: s)); [reflexivity|discriminate].
    + intros [H|[H|H]]; [discriminate|discriminate|].
      apply lines_spec_nil in H. rewrite H in Hlen.
      destruct records; [reflexivity|discriminate].
Qed.

(** C6.  A line that starts with the bullet U+2022: the themed copy keeps
    the bullet in the description, because the class of its cleaning
    pattern holds three other code units in the bullet's place; the plain
    copy strips it. *)
Theorem AnalysisJs_keeps_bullet :
  let text := [8226%N] ++ js " Extract method" in
  (exists r, AnalysisJs.parseRefactoringSuggestionsFromAgent (Some text) = Return [r]
             /\ description r = [8226%N] ++ js " Extract method")
  /\ map description (Part000.parseRefactoringSuggestionsFromAgent (Some text))
     = [js "Extract method"].
Proof.
  split; [|reflexivity]. eexists. split; reflexivity.
Qed.

(** The example of the specification, in both copies. *)
Lemma three_suggestions :
  map (fun r => (id r, description r, priority r, category r))
    (Part000.parseRefactoringSuggestionsFromAgent (Some three_lines))
  = [ (0%nat, js "Extract method", js "High", js "Refactoring");
      (1%nat, js "Rename variable", js "High", js "Refactoring");
      (2%nat, js "Remove dead code", js "Medium", js "Refactoring") ]
  /\ exists records,
       AnalysisJs.parseRefactoringSuggestionsFromAgent (Some three_lines)
       = Return records
       /\ map (fun r => (id r, description r, priority r, category r)) records
          = [ (0%nat, js "Extract method", js "HIGH", js "REFACTOR");
              (1%nat, js "Rename variable", js "HIGH", js "REFACTOR");
              (2%nat, js "Remove dead code", js "MEDIUM", js "REFACTOR") ].
Proof.
  split; [reflexivity|]. eexists. split; reflexivity.
Qed.

(** ** The complexity assessment *)

(** The empty string is a string, and [parseComplexityFromAgent] returns
    [null] for it. *)
Lemma parseComplexityFromAgent_empty :
  AnalysisJs.parseComplexityFromAgent (Str []) = Return None
  /\ is_string (Str []) = true.
Proof. split; reflexivity. Qed.

(** A Big-O expression is a run that the patterns accept, with the same
    rest. *)
Lemma bigO_accepted (icase : bool) (s : jsstring) (x : jsstring * jsstring) :
  bigO_expression icase s = Some x -> expression (opens icase) s = Some x.
Proof.
  destruct s as [|o [|p body]]; cbn [bigO_expression]; try discriminate.
  destruct (((o =? 79) || icase && (o =? 111))%N) eqn:Ho; cbn [andb]; [|discriminate].
  destruct (N.eqb_spec p 40) as [->|]; [|discriminate].
  assert (Hopen : opens icase o = true).
  { unfold opens. destruct (o =? 79)%N; [reflexivity|]. cbn [orb] in Ho.
    rewrite Ho. apply orb_true_r. }
  cbn [expression]. rewrite Hopen.
  cbn [dropWhile takeWhile not_close N.eqb negb Pos.eqb app]. intros H. exact H.
Qed.

Lemma labelled_bigO_accepted (label s : jsstring) (x : jsstring * jsstring) :
  labelled_bigO label s = Some x -> labelled label s = Some x.
Proof.
  unfold labelled_bigO, labelled. destruct (starts_with true s label); [|discriminate].
  apply bigO_accepted.
Qed.

(** Where the first accepted run is an intended one, the two searches find
    the same. *)
Lemma first_at_sound {A : Type} (accepts intended : jsstring -> option A) :
  (forall s x, intended s = Some x -> accepts s = Some x) ->
  forall text, sound_start accepts intended text = true ->
               first_at intended text = first_at accepts text.
Proof.
  intros Hsub text. induction text as [|c text IH]; cbn [sound_start first_at].
  - destruct (intended []) as [x|] eqn:Hi.
    + rewrite (Hsub _ _ Hi). reflexivity.
    + destruct (accepts []); [discriminate|reflexivity].
  - destruct (intended (c :: text)) as [x|] eqn:Hi.
    + rewrite (Hsub _ _ Hi). reflexivity.
    + destruct (accepts (c :: text)); [discriminate|exact IH].
Qed.

Lemma timeToken_sound (text : jsstring) :
  time_search_sound text = true -> timeToken_found text = timeToken_spec text.
Proof.
  unfold time_search_sound, timeToken_found, timeToken_spec. intros H.
  apply andb_prop in H. destruct H as [Hl Hf].
  rewrite (@first_at_sound _ _ _ (@labelled_bigO_accepted (js "Time Complexity:")) _ Hl).
  destruct (first_at (labelled (js "Time Complexity:")) text); [reflexivity|].
  rewrite (@first_at_sound _ _ _ (@bigO_accepted false) _ Hf). reflexivity.
Qed.

Lemma spaceToken_sound (text : jsstring) :
  space_search_sound text = true -> spaceToken_found text = spaceToken_spec text.
Proof.
  unfold space_search_sound, spaceToken_found, spaceToken_spec. intros H.
  rewrite (@first_at_sound _ _ _ (@labelled_bigO_accepted (js "Space Complexity:")) _ H).
  reflexivity.
Qed.

(** C4.  [parseComplexityFromAgent] returns [null] exactly when its argument
    is not a string or is the empty string.  For any other text the result
    carries the text itself.  On a text on which the search for the time
    token stays within Big-O expressions, the time token is the Big-O
    expression after the first "Time Complexity:" label that is followed by
    one, else the first Big-O expression anywhere, else "O(n)"; on a text on
    which the search for the space token does, the space token is the Big-O
    expression after the first "Space Complexity:" label that is followed by
    one, else "O(1)".  What the patterns take on other texts is left
    aside. *)
Theorem parseComplexityFromAgent_tokens (text : jsstring) (Hne : text <> []) :
  (exists a t s,
     AnalysisJs.parseComplexityFromAgent (Str text) = Return (Some a)
     /\ time_complexity a = Some t
     /\ space_complexity a = Some s
     /\ full_analysis a = text
     /\ (time_search_sound text = true -> t = timeToken_spec text)
     /\ (space_search_sound text = true -> s = spaceToken_spec text))
  /\ (forall v, AnalysisJs.parseComplexityFromAgent v = Return None
                <-> is_string v = false \/ v = Str []).
Proof.
  assert (Hsome : forall t, t <> [] ->
            exists a, AnalysisJs.parseComplexityFromAgent (Str t) = Return (Some a)
                      /\ time_complexity a = Some (timeToken_found t)
                      /\ space_complexity a = Some (spaceToken_found t)
                      /\ full_analysis a = t).
  { intros t Ht. unfold AnalysisJs.parseComplexityFromAgent.
    destruct t as [|c s]; [congruence|]. cbn [truthy List.length Nat.eqb negb].
    cbv zeta. rewrite time_token, space_token. cbn [of_maybe].
    destruct (@AnalysisJs_color (Str (timeToken_found (c :: s))) _ eq_refl)
      as (tc & -> & _).
    destruct (@AnalysisJs_color (Str (spaceToken_found (c :: s))) _ eq_refl)
      as (sc & -> & _).
    cbn [bind]. eexists. split; [reflexivity|].
    cbn [time_complexity space_complexity full_analysis]. repeat split. }
  split.
  - destruct (Hsome text Hne) as (a & Ha & Ht & Hs & Hf).
    exists a, (timeToken_found text), (spaceToken_found text).
    split; [exact Ha|]. split; [exact Ht|]. split; [exact Hs|]. split; [exact Hf|].
    split; [apply timeToken_sound|apply spaceToken_sound].
  - intros v. split.
    + intros H. destruct v; try (left; reflexivity).
      destruct s as [|c s]; [right; reflexivity|].
      destruct (Hsome (c :: s)) as (a & Ha & _); [discriminate|].
      rewrite Ha in H. discriminate.
    + intros [H| ->]; [|reflexivity].
      destruct v; try reflexivity; discriminate.
Qed.

Lemma parseComplexityFromAgent_tokens_witness :
  exists a,
    AnalysisJs.parseComplexityFromAgent
      (Str (js "no explicit labels but O(log n) appears")) = Return (Some a)
    /\ time_complexity a = Some (js "O(log n)")
    /\ space_complexity a = Some (js "O(1)").
Proof.
  assert (Hne : js "no explicit labels but O(log n) appears" <> []) by discriminate.
  destruct (proj1 (parseComplexityFromAgent_tokens Hne))
    as (a & t & s & Ha & Ht & Hs & _ & Htime & Hspace).
  exists a. split; [exact Ha|].
  rewrite Ht, Hs, (Htime eq_refl), (Hspace eq_refl). split; reflexivity.
Defined.

(** ** The examples of the specification *)

Example parseComplexityFromAgent_labelled :
  exists a,
    AnalysisJs.parseComplexityFromAgent
      (Str (js "Time Complexity: O(n log n)" ++ [10%N] ++ js "Space Complexity: O(n)"))
    = Return (Some a)
    /\ time_complexity a = Some (js "O(n log n)")
    /\ space_complexity a = Some (js "O(n)")
    /\ performance_score a = Num 55
    /\ score a = Num 5.
Proof. eexists. split; [reflexivity|]. repeat split. Qed.

Example parseComplexityFromAgent_null :
  AnalysisJs.parseComplexityFromAgent Null = Return None
  /\ Part000.parseComplexityFromAgent Null = Return None.
Proof. split; reflexivity. Qed.

Example parseRefactoringSuggestionsFromAgent_marker :
  Part000.parseRefactoringSuggestionsFromAgent (Some marker) = []
  /\ AnalysisJs.parseRefactoringSuggestionsFromAgent (Some marker) = Return [].
Proof. split; reflexivity. Qed.

Example countFunctions_sample :
  countFunctions (js "function a() {} def b(): int main() {") = 4%Z.
Proof. vm_compute. reflexivity. Qed.

(** A text on which the search leaves the Big-O expressions: the class
    [[O\(]] of the patterns lets a parenthesis open the token, and the
    remark in parentheses is taken for it. *)
Example parseComplexityFromAgent_remark :
  let text := js "Time Complexity: (amortized) O(1)" in
  time_search_sound text = false
  /\ timeToken_spec text = js "O(1)"
  /\ exists a,
       AnalysisJs.parseComplexityFromAgent (Str text) = Return (Some a)
       /\ time_complexity a = Some (js "(amortized)").
Proof.
  split; [reflexivity|]. split; [reflexivity|].
  eexists. split; [reflexivity|]. reflexivity.
Qed.

(** A token that names a member of Object.prototype finds that member in
    the tables: the performance score is the member itself, and the mean
    taken with it is no number. *)
Example scores_of_inherited_name :
  inherited (js "constructor") = true
  /\ Part000.calculatePerformanceScore (with_time (js "constructor"))
     = Member (js "constructor")
  /\ AnalysisJs.calculatePerformanceScore (with_time (js "constructor"))
     = Member (js "constructor")
  /\ Part000.calculateComplexityScore (with_tokens (js "constructor") (js "O(1)")) = NaN
  /\ AnalysisJs.calculateComplexityScore (with_tokens (js "constructor") (js "O(1)")) = NaN.
Proof. repeat split. Qed.

(** Numbers print as the shortest numeral that denotes them, with an
    exponent from 21 digits on. *)
Example String_numbers :
  String_ (Number 404) = Return (js "404")
  /\ String_ (Number (-7)) = Return (js "-7")
  /\ String_ (Number (2 ^ 53 + 1)) = Return (js "9007199254740992")
  /\ String_ (Number (2 ^ 60)) = Return (js "1152921504606847000")
  /\ String_ (Number (10 ^ 21)) = Return (js "1e+21")
  /\ String_ (Number 123456789012345678901234567890)
     = Return (js "1.2345678901234568e+29")
  /\ String_ (Number (- 2 ^ 1024)) = Return (js "-Infinity").
Proof. repeat split; vm_compute; reflexivity. Qed.

(** The same code, head by head: [function a], [def b], and the two
    braced definitions [function a() {] and [int main() {]. *)
Example count_heads_sample :
  map (count_heads (js "function a() {} def b(): int main() {")) declaration_heads
  = [1; 0; 1; 0; 0; 0; 0; 2]%nat.
Proof. vm_compute. reflexivity. Qed.

(** Where no typed signature follows [static], the word is taken as the
    first name of the signature. *)
Example method_static :
  method "public" (js "public static main(x)") = Some (js "x)")
  /\ method "public" (js "public static void main(x)") = Some (js "x)")
  /\ countFunctions (js "public static main(x) public static void main(x)") = 2%Z.
Proof. repeat split; vm_compute; reflexivity. Qed.

(** * Further properties of the two files *)

(** ** escapeHtml *)

Lemma search_char (input : jsstring) (c : N) (s : jsstring) :
  search false input (Char c) s
  = match dropWhile (fun x => negb (x =? c)%N) s with
    | x :: rest => Some (Found (x :: rest) rest [])
    | [] => None
    end.
Proof.
  induction s as [|x s IH]; [reflexivity|].
  cbn [search dropWhile]. unfold match_here. rewrite run_Char.
  unfold canon. rewrite (N.eqb_sym c x).
  destruct (x =? c)%N; [reflexivity|exact IH].
Qed.

Lemma substitute_until (c : N) (repl s : jsstring) :
  substitute c repl s
  = firstn (List.length s - List.length (dropWhile (fun x => negb (x =? c)%N) s)) s
    ++ substitute c repl (dropWhile (fun x => negb (x =? c)%N) s).
Proof.
  induction s as [|x s IH]; [reflexivity|].
  cbn [dropWhile]. destruct (x =? c)%N eqn:E; cbn [negb].
  - rewrite Nat.sub_diag. reflexivity.
  - pose proof (dropWhile_length (fun x => negb (x =? c)%N) s) as Hlen.
    replace (List.length (x :: s) - List.length (dropWhile (fun x => negb (x =? c)%N) s))%nat
      with (S (List.length s - List.length (dropWhile (fun x => negb (x =? c)%N) s)))
      by (cbn [List.length]; lia).
    cbn [firstn]. unfold substitute at 1. cbn [flat_map]. rewrite E.
    fold (substitute c repl s). rewrite IH. reflexivity.
Qed.

Lemma replace_loop_char (input : jsstring) (c : N) (repl : jsstring) (fuel : nat) :
  forall s, (List.length s < fuel)%nat ->
    replace_loop false input fuel (Char c) repl s = substitute c repl s.
Proof.
  induction fuel as [|fuel IH]; intros s Hfuel; [lia|].
  cbn [replace_loop]. rewrite search_char, (substitute_until c repl s).
  pose proof (dropWhile_length (fun x => negb (x =? c)%N) s) as Hlen.
  destruct (dropWhile (fun x => negb (x =? c)%N) s) as [|x rest] eqn:E.
  - cbn [List.length]. rewrite Nat.sub_0_r, firstn_all. unfold substitute. simpl.
    rewrite app_nil_r. reflexivity.
  - cbn [f_from f_rest]. f_equal.
    assert (Hx : (x =? c)%N = true).
    { clear - E. revert E. induction s as [|y s IH]; cbn [dropWhile]; [discriminate|].
      destruct (y =? c)%N eqn:Hy; cbn [negb]; [|exact IH].
      intros H. injection H as -> _. exact Hy. }
    change (substitute c repl (x :: rest))
      with ((if (x =? c)%N then repl else [x]) ++ substitute c repl rest).
    rewrite Hx. f_equal.
    replace (List.length rest <? List.length (x :: rest))%nat with true
      by (symmetry; apply Nat.ltb_lt; cbn [List.length]; lia).
    apply IH. cbn [List.length] in Hlen. lia.
Qed.

(** A global [replace] of one code unit by a text. *)
Lemma String_replace_all_char (s : jsstring) (c : N) (repl : jsstring) :
  String_replace_all s (RegExp (Char c) false) repl = substitute c repl s.
Proof.
  unfold String_replace_all. cbn [pattern ignoreCase].
  apply replace_loop_char. lia.
Qed.

Lemma substitute_flat_map (c : N) (repl : jsstring) (f : N -> jsstring) (s : jsstring) :
  substitute c repl (flat_map f s) = flat_map (fun x => substitute c repl (f x)) s.
Proof.
  unfold substitute. induction s as [|x s IH]; [reflexivity|].
  cbn [flat_map]. rewrite flat_map_app, IH. reflexivity.
Qed.

Lemma flat_map_pointwise (f g : N -> jsstring) (s : jsstring) :
  (forall x, f x = g x) -> flat_map f s = flat_map g s.
Proof.
  intros H. induction s as [|x s IH]; [reflexivity|].
  cbn [flat_map]. rewrite H, IH. reflexivity.
Qed.

Lemma flat_map_unit (s : jsstring) : flat_map (fun x => [x]) s = s.
Proof. induction s as [|x s IH]; [reflexivity|]. cbn [flat_map]. rewrite IH. reflexivity. Qed.

(** The five replacements in sequence amount to one pass that writes the
    entity of each code unit: no replacement touches what an earlier one
    wrote. *)
Lemma escapeHtml_flat_map (unsafe : jsstring) :
  Part000.escapeHtml unsafe = flat_map entity unsafe.
Proof.
  unfold Part000.escapeHtml, Chr.
  change (N_of_ascii "&") with 38%N. change (N_of_ascii "<") with 60%N.
  change (N_of_ascii ">") with 62%N. change (N_of_ascii "'") with 39%N.
  rewrite !String_replace_all_char.
  rewrite <- (flat_map_unit unsafe) at 1.
  rewrite !substitute_flat_map.
  apply flat_map_pointwise. intros x. unfold entity.
  destruct (N.eqb_spec x 38) as [->|H38]; [reflexivity|].
  destruct (N.eqb_spec x 60) as [->|H60]; [reflexivity|].
  destruct (N.eqb_spec x 62) as [->|H62]; [reflexivity|].
  destruct (N.eqb_spec x 34) as [->|H34]; [reflexivity|].
  destruct (N.eqb_spec x 39) as [->|H39]; [reflexivity|].
  unfold substitute. cbn [flat_map app].
  repeat match goal with
    | |- context [N.eqb x ?c] => destruct (N.eqb_spec x c); [congruence|]; cbn [flat_map app]
    end.
  reflexivity.
Qed.

(** X1.  [escapeHtml] writes, for each code unit of its argument in order,
    the entity of "&", "<", ">", the double quote or the single quote, or
    the code unit itself: the five replacements in sequence amount to one
    pass, and the "&" of an entity is never escaped again. *)
Theorem escapeHtml_entities (unsafe : jsstring) :
  Part000.escapeHtml unsafe = flat_map entity unsafe.
Proof. exact (escapeHtml_flat_map unsafe). Qed.

Lemma entity_cases (x : N) :
  (is_special x = true /\ In (entity x) (map js ["&amp;"; "&lt;"; "&gt;"; "&quot;"; "&#039;"]%string))
  \/ (is_special x = false /\ entity x = [x]).
Proof.
  unfold is_special, entity.
  destruct (x =? 38)%N; [left; split; [reflexivity|simpl; tauto]|].
  destruct (x =? 60)%N; [left; split; [reflexivity|simpl; tauto]|].
  destruct (x =? 62)%N; [left; split; [reflexivity|simpl; tauto]|].
  destruct (x =? 34)%N; [left; split; [reflexivity|simpl; tauto]|].
  destruct (x =? 39)%N; [left; split; [reflexivity|simpl; tauto]|].
  right. split; reflexivity.
Qed.

Lemma entity_safe (x : N) : forallb (fun y => negb (is_markup y)) (entity x) = true.
Proof.
  destruct (entity_cases x) as [[_ H]|[Hs ->]].
  - simpl in H. repeat destruct H as [H|H]; try (rewrite <- H; reflexivity); contradiction.
  - cbn [forallb]. rewrite andb_true_r. revert Hs. unfold is_special, is_markup.
    destruct (x =? 38)%N; cbn [orb]; [discriminate|].
    intros ->. reflexivity.
Qed.

(** X2.  The text that [escapeHtml] returns holds no "<", ">", double quote
    or single quote. *)
Theorem escapeHtml_no_markup (unsafe : jsstring) :
  forallb (fun y => negb (is_markup y)) (Part000.escapeHtml unsafe) = true.
Proof.
  rewrite escapeHtml_flat_map.
  induction unsafe as [|x s IH]; [reflexivity|].
  cbn [flat_map]. rewrite forallb_app, entity_safe, IH. reflexivity.
Qed.

Lemma entity_length (x : N) :
  (if is_special x then 4 <= List.length (entity x) else List.length (entity x) = 1)%nat.
Proof.
  destruct (entity_cases x) as [[-> H]|[-> ->]]; [|reflexivity].
  simpl in H. repeat destruct H as [H|H]; try (rewrite <- H; simpl; lia); contradiction.
Qed.

Lemma escape_length (s : jsstring) :
  (List.length s <= List.length (flat_map entity s))%nat
  /\ (List.length (flat_map entity s) = List.length s ->
      forallb (fun y => negb (is_special y)) s = true).
Proof.
  induction s as [|x s [IH1 IH2]]; [split; [simpl; lia|reflexivity]|].
  cbn [flat_map forallb List.length]. rewrite length_app.
  pose proof (entity_length x) as Hx. revert Hx.
  destruct (is_special x); intros Hx; cbn [negb andb].
  - split; [lia|intros H; lia].
  - rewrite Hx. split; [lia|]. intros H. apply IH2. lia.
Qed.

(** X3.  [escapeHtml] leaves a text as it is exactly when the text holds none
    of the five code units it replaces; it never shortens a text. *)
Theorem escapeHtml_fixed_points (unsafe : jsstring) :
  (Part000.escapeHtml unsafe = unsafe
   <-> forallb (fun y => negb (is_special y)) unsafe = true)
  /\ (List.length unsafe <= List.length (Part000.escapeHtml unsafe))%nat.
Proof.
  rewrite escapeHtml_flat_map. split; [|apply escape_length].
  split.
  - intros H. apply escape_length. rewrite H. reflexivity.
  - induction unsafe as [|x s IH]; [reflexivity|].
    cbn [forallb flat_map]. intros H. apply andb_prop in H. destruct H as [Hx Hs].
    destruct (entity_cases x) as [[E _]|[_ ->]].
    + rewrite E in Hx. discriminate.
    + cbn [app]. rewrite (IH Hs). reflexivity.
Qed.

Lemma entity_prefix_free (x y : N) (a b : jsstring) :
  entity x ++ a = entity y ++ b -> x = y /\ a = b.
Proof.
  unfold entity.
  destruct (N.eqb_spec x 38) as [->|X38];
  [|destruct (N.eqb_spec x 60) as [->|X60];
    [|destruct (N.eqb_spec x 62) as [->|X62];
      [|destruct (N.eqb_spec x 34) as [->|X34];
        [|destruct (N.eqb_spec x 39) as [->|X39]]]]];
  (destruct (N.eqb_spec y 38) as [->|Y38];
  [|destruct (N.eqb_spec y 60) as [->|Y60];
    [|destruct (N.eqb_spec y 62) as [->|Y62];
      [|destruct (N.eqb_spec y 34) as [->|Y34];
        [|destruct (N.eqb_spec y 39) as [->|Y39]]]]]);
  vm_compute; intros H; try discriminate H;
  try (injection H as H; split; congruence).
Qed.

(** X4.  [escapeHtml] is one-to-one: two texts with the same escaped form
    are the same text. *)
Theorem escapeHtml_injective (a b : jsstring) :
  Part000.escapeHtml a = Part000.escapeHtml b <-> a = b.
Proof.
  split; [|intros ->; reflexivity].
  rewrite !escapeHtml_flat_map. revert b.
  induction a as [|x a IH]; intros [|y b]; cbn [flat_map].
  - reflexivity.
  - intros H. destruct (entity_cases y) as [[_ Hy]|[_ Hy]].
    + simpl in Hy. repeat destruct Hy as [Hy|Hy]; try (rewrite <- Hy in H; discriminate H); contradiction.
    + rewrite Hy in H. discriminate H.
  - intros H. destruct (entity_cases x) as [[_ Hx]|[_ Hx]].
    + simpl in Hx. repeat destruct Hx as [Hx|Hx]; try (rewrite <- Hx in H; discriminate H); contradiction.
    + rewrite Hx in H. discriminate H.
  - intros H. apply entity_prefix_free in H. destruct H as [-> H].
    f_equal. apply IH. exact H.
Qed.

(** ** The assessment *)

Lemma takeWhile_forallb (p : N -> bool) (s : jsstring) :
  forallb p (takeWhile p s) = true.
Proof.
  induction s as [|x s IH]; [reflexivity|].
  cbn [takeWhile]. destruct (p x) eqn:E; [|reflexivity].
  cbn [forallb]. rewrite E, IH. reflexivity.
Qed.

Lemma opens_any (icase : bool) (c : N) : opens icase c = true -> opens true c = true.
Proof.
  unfold opens. destruct icase; [tauto|].
  cbn [andb]. rewrite orb_false_r. intros ->. reflexivity.
Qed.

Lemma expression_shape (icase : bool) (s token rest : jsstring) :
  expression (opens icase) s = Some (token, rest) ->
  token_like token /\ s = token ++ rest.
Proof.
  unfold expression. destruct s as [|c s]; [discriminate|].
  destruct (opens icase c) eqn:Hc; [|discriminate].
  destruct (dropWhile not_close s) as [|y rest'] eqn:E; [discriminate|].
  intros H. injection H as <- <-.
  assert (Hy : y = 41%N).
  { clear - E. revert E. induction s as [|z s IH]; cbn [dropWhile]; [discriminate|].
    destruct (not_close z) eqn:Hz; [exact IH|].
    intros H. injection H as -> _.
    unfold not_close in Hz. apply negb_false_iff, N.eqb_eq in Hz. exact Hz. }
  split.
  - exists c, (takeWhile not_close s). split; [reflexivity|].
    split; [exact (opens_any _ _ Hc)|apply takeWhile_forallb].
  - pose proof (takeWhile_dropWhile not_close s) as Hs. rewrite E, Hy in Hs.
    cbn [app]. rewrite <- app_assoc. cbn [app]. rewrite Hs. reflexivity.
Qed.

Lemma first_at_suffix {A : Type} (f : jsstring -> option A) (s : jsstring) (a : A) :
  first_at f s = Some a -> exists pre suf, s = pre ++ suf /\ f suf = Some a.
Proof.
  induction s as [|x s IH]; cbn [first_at].
  - destruct (f []) eqn:E; [|discriminate].
    intros H. injection H as ->. exists [], []. split; [reflexivity|exact E].
  - destruct (f (x :: s)) eqn:E.
    + intros H. injection H as ->. exists [], (x :: s). split; [reflexivity|exact E].
    + intros H. destruct (IH H) as (pre & suf & -> & Hf).
      exists (x :: pre), suf. split; [reflexivity|exact Hf].
Qed.

Lemma startsWith_app (p rest : jsstring) : startsWith (p ++ rest) p = true.
Proof.
  induction p as [|a p IH]; [reflexivity|].
  cbn [app startsWith]. rewrite N.eqb_refl, IH. reflexivity.
Qed.

Lemma includes_middle (pre p rest : jsstring) : includes (pre ++ p ++ rest) p = true.
Proof.
  induction pre as [|x pre IH].
  - cbn [app]. apply startsWith_includes, startsWith_app.
  - cbn [app includes]. rewrite IH. apply orb_true_r.
Qed.

Lemma skipn_suffix (n : nat) (s : jsstring) : exists pre, s = pre ++ skipn n s.
Proof. exists (firstn n s). symmetry. apply firstn_skipn. Qed.

Lemma dropWhile_suffix (p : N -> bool) (s : jsstring) : exists pre, s = pre ++ dropWhile p s.
Proof.
  induction s as [|x s [pre IH]]; [exists []; reflexivity|].
  cbn [dropWhile]. destruct (p x).
  - exists (x :: pre). cbn [app]. rewrite <- IH. reflexivity.
  - exists []. reflexivity.
Qed.

Lemma labelled_shape (label s token rest : jsstring) :
  labelled label s = Some (token, rest) ->
  token_like token /\ exists pre, s = pre ++ token ++ rest.
Proof.
  unfold labelled. destruct (starts_with true s label); [|discriminate].
  intros H. apply expression_shape in H. destruct H as [Htok Hs].
  split; [exact Htok|].
  destruct (skipn_suffix (List.length label) s) as [p1 H1].
  destruct (dropWhile_suffix isWhiteSpace (skipn (List.length label) s)) as [p2 H2].
  exists (p1 ++ p2). rewrite <- app_assoc, <- Hs, <- H2. exact H1.
Qed.

Lemma default_tokens_like : token_like (js "O(n)") /\ token_like (js "O(1)").
Proof.
  split; [exists 79%N, [40%N; 110%N]|exists 79%N, [40%N; 49%N]]; (split; [reflexivity|split; reflexivity]).
Qed.

(** The time token has the shape of a token, and it is the default or a
    piece of the text. *)
Lemma timeToken_found_shape (text : jsstring) :
  token_like (timeToken_found text)
  /\ (timeToken_found text = js "O(n)" \/ includes text (timeToken_found text) = true).
Proof.
  unfold timeToken_found.
  destruct (first_at (labelled (js "Time Complexity:")) text) as [[token rest]|] eqn:E1.
  - apply first_at_suffix in E1. destruct E1 as (pre & suf & -> & H).
    apply labelled_shape in H. destruct H as (Htok & p & ->).
    split; [exact Htok|right].
    rewrite app_assoc. apply includes_middle.
  - destruct (first_at (expression (opens false)) text) as [[token rest]|] eqn:E2.
    + apply first_at_suffix in E2. destruct E2 as (pre & suf & -> & H).
      apply expression_shape in H. destruct H as (Htok & ->).
      split; [exact Htok|right]. apply includes_middle.
    + split; [apply default_tokens_like|left; reflexivity].
Qed.

Lemma spaceToken_found_shape (text : jsstring) :
  token_like (spaceToken_found text)
  /\ (spaceToken_found text = js "O(1)" \/ includes text (spaceToken_found text) = true).
Proof.
  unfold spaceToken_found.
  destruct (first_at (labelled (js "Space Complexity:")) text) as [[token rest]|] eqn:E1.
  - apply first_at_suffix in E1. destruct E1 as (pre & suf & -> & H).
    apply labelled_shape in H. destruct H as (Htok & p & ->).
    split; [exact Htok|right].
    rewrite app_assoc. apply includes_middle.
  - split; [apply default_tokens_like|left; reflexivity].
Qed.

Lemma token_like_not_inherited (token : jsstring) :
  token_like token -> inherited token = false /\ token <> [].
Proof.
  intros (c & body & -> & _ & _). split; [|discriminate].
  assert (Hlast : last (c :: body ++ [41%N]) 0%N = 41%N).
  { change (c :: body ++ [41%N]) with ((c :: body) ++ [41%N]). apply last_last. }
  unfold inherited, ObjectPrototype.
  apply not_true_is_false. intros H. apply existsb_exists in H.
  destruct H as (name & Hin & Heq). apply jsstring_eqb_eq in Heq.
  rewrite Heq in Hlast. clear Heq.
  simpl in Hin.
  repeat destruct Hin as [Hin|Hin]; try (rewrite <- Hin in Hlast; vm_compute in Hlast; discriminate Hlast).
  contradiction.
Qed.

Lemma own_entry_In (key : jsstring) (table : list (jsstring * Z)) (z : Z) :
  own_entry key table = Some z -> In z (map snd table).
Proof.
  induction table as [|[k v] table IH]; cbn [own_entry map snd]; [discriminate|].
  destruct (jsstring_eqb key k).
  - intros H. injection H as ->. left. reflexivity.
  - intros H. right. exact (IH H).
Qed.

(** Away from the inherited names a score lookup gives a number: an entry
    of the table or the default. *)
Lemma lookup_number (table : list (jsstring * Z)) (key : jsstring) (d : Z) :
  inherited key = false ->
  exists z, or_default (lookup table key) d = Num z
            /\ (z = d \/ In z (map snd table)).
Proof.
  intros Hk. unfold lookup. destruct (own_entry key table) as [z|] eqn:E.
  - apply own_entry_In in E. cbn [or_default].
    destruct (z =? 0)%Z; eexists; (split; [reflexivity|tauto]).
  - rewrite Hk. exists d. split; [reflexivity|left; reflexivity].
Qed.

(** What [parseComplexityFromAgent] returns for a non-empty text, field by
    field. *)
Lemma AnalysisJs_parse_text (text : jsstring) :
  text <> [] ->
  exists tc sc,
    In tc AnalysisJs_palette /\ In sc AnalysisJs_palette
    /\ AnalysisJs.parseComplexityFromAgent (Str text)
       = Return (Some
           {| time_complexity := Some (timeToken_found text);
              time_color := tc;
              space_complexity := Some (spaceToken_found text);
              space_color := sc;
              performance_score :=
                AnalysisJs.calculatePerformanceScore (with_time (timeToken_found text));
              score :=
                AnalysisJs.calculateComplexityScore
                  (with_tokens (timeToken_found text) (spaceToken_found text));
              full_analysis := text |}).
Proof.
  intros Hne. unfold AnalysisJs.parseComplexityFromAgent.
  destruct text as [|c s]; [congruence|]. cbn [truthy List.length Nat.eqb negb].
  cbv zeta. rewrite time_token, space_token. cbn [of_maybe].
  destruct (@AnalysisJs_color (Str (timeToken_found (c :: s))) _ eq_refl)
    as (tc & -> & Htc).
  destruct (@AnalysisJs_color (Str (spaceToken_found (c :: s))) _ eq_refl)
    as (sc & -> & Hsc).
  exists tc, sc. split; [exact Htc|]. split; [exact Hsc|]. reflexivity.
Qed.

Lemma Part000_parse_text (text : jsstring) :
  text <> [] ->
  exists tc sc,
    In tc Part000_palette /\ In sc Part000_palette
    /\ Part000.parseComplexityFromAgent (Str text)
       = Return (Some
           {| time_complexity := Some (timeToken_found text);
              time_color := tc;
              space_complexity := Some (spaceToken_found text);
              space_color := sc;
              performance_score :=
                Part000.calculatePerformanceScore (with_time (timeToken_found text));
              score :=
                Part000.calculateComplexityScore
                  (with_tokens (timeToken_found text) (spaceToken_found text));
              full_analysis := text |}).
Proof.
  intros Hne. unfold Part000.parseComplexityFromAgent.
  destruct text as [|c s]; [congruence|]. cbn [truthy List.length Nat.eqb negb].
  cbv zeta. rewrite time_token, space_token. cbn [of_maybe].
  destruct (@Part000_color (Str (timeToken_found (c :: s))) _ eq_refl)
    as (tc & -> & Htc).
  destruct (@Part000_color (Str (spaceToken_found (c :: s))) _ eq_refl)
    as (sc & -> & Hsc).
  exists tc, sc. split; [exact Htc|]. split; [exact Hsc|]. reflexivity.
Qed.

(** An argument that yields an assessment is a non-empty string. *)
Lemma AnalysisJs_parse_some (v : value) (a : assessment) :
  AnalysisJs.parseComplexityFromAgent v = Return (Some a) ->
  exists text, v = Str text /\ text <> [].
Proof.
  destruct v; try discriminate. destruct s as [|c s]; [discriminate|].
  intros _. exists (c :: s). split; [reflexivity|discriminate].
Qed.

Lemma Part000_parse_some (v : value) (a : assessment) :
  Part000.parseComplexityFromAgent v = Return (Some a) ->
  exists text, v = Str text /\ text <> [].
Proof.
  destruct v; try discriminate. destruct s as [|c s]; [discriminate|].
  intros _. exists (c :: s). split; [reflexivity|discriminate].
Qed.

Lemma performance_in_values (t : jsstring) :
  token_like t ->
  (exists p, AnalysisJs.calculatePerformanceScore (with_time t) = Num p
             /\ In p performance_values)
  /\ (exists p, Part000.calculatePerformanceScore (with_time t) = Num p
                /\ In p performance_values).
Proof.
  intros Ht. destruct (token_like_not_inherited Ht) as [Hinh Hne].
  unfold AnalysisJs.calculatePerformanceScore, Part000.calculatePerformanceScore,
    with_time. cbn [time]. rewrite (or_string_nonempty _ Hne).
  split.
  - destruct (@lookup_number AnalysisJs.performanceScores t 50%Z Hinh) as (z & -> & Hz).
    exists z. split; [reflexivity|].
    destruct Hz as [-> |Hz]; [simpl; tauto|].
    simpl in Hz. unfold performance_values. simpl. tauto.
  - destruct (@lookup_number Part000.performanceScores t 50%Z Hinh) as (z & -> & Hz).
    exists z. split; [reflexivity|].
    destruct Hz as [-> |Hz]; [simpl; tauto|].
    simpl in Hz. unfold performance_values. simpl. tauto.
Qed.

Lemma round_mean_bounds (a b : Z) :
  (1 <= a <= 10)%Z -> (1 <= b <= 10)%Z ->
  exists z, round_mean (Num a) (Num b) = Num z /\ (1 <= z <= 10)%Z.
Proof.
  intros Ha Hb. eexists. split; [reflexivity|]. split.
  - apply Z.div_le_lower_bound; lia.
  - apply Z.lt_succ_r. apply Z.div_lt_upper_bound; lia.
Qed.

Lemma severity_in_range (table : list (jsstring * Z)) (key : jsstring) (d : Z) :
  inherited key = false -> (1 <= d <= 10)%Z ->
  Forall (fun z => 1 <= z <= 10)%Z (map snd table) ->
  exists z, or_default (lookup table key) d = Num z /\ (1 <= z <= 10)%Z.
Proof.
  intros Hk Hd Ht. destruct (@lookup_number table key d Hk) as (z & Hz & Hin).
  exists z. split; [exact Hz|]. destruct Hin as [-> |Hin]; [exact Hd|].
  rewrite Forall_forall in Ht. exact (Ht z Hin).
Qed.

Lemma complexity_in_range (t s : jsstring) :
  token_like t -> token_like s ->
  (exists z, AnalysisJs.calculateComplexityScore (with_tokens t s) = Num z
             /\ (1 <= z <= 10)%Z)
  /\ (exists z, Part000.calculateComplexityScore (with_tokens t s) = Num z
                /\ (1 <= z <= 10)%Z).
Proof.
  intros Ht Hs.
  destruct (token_like_not_inherited Ht) as [Hti Htn].
  destruct (token_like_not_inherited Hs) as [Hsi Hsn].
  unfold AnalysisJs.calculateComplexityScore, Part000.calculateComplexityScore,
    with_tokens. cbn [time space].
  rewrite (or_string_nonempty _ Htn), (or_string_nonempty _ Hsn).
  assert (HA : Forall (fun z => 1 <= z <= 10)%Z (map snd AnalysisJs.complexityScores))
    by (simpl; repeat (apply Forall_cons; [lia|]); apply Forall_nil).
  assert (HP : Forall (fun z => 1 <= z <= 10)%Z (map snd Part000.complexityScores))
    by (simpl; repeat (apply Forall_cons; [lia|]); apply Forall_nil).
  split.
  - destruct (@severity_in_range AnalysisJs.complexityScores t 5%Z Hti ltac:(lia) HA)
      as (a & -> & Ha).
    destruct (@severity_in_range AnalysisJs.complexityScores s 8%Z Hsi ltac:(lia) HA)
      as (b & -> & Hb).
    apply round_mean_bounds; assumption.
  - destruct (@severity_in_range Part000.complexityScores t 5%Z Hti ltac:(lia) HP)
      as (a & -> & Ha).
    destruct (@severity_in_range Part000.complexityScores s 8%Z Hsi ltac:(lia) HP)
      as (b & -> & Hb).
    apply round_mean_bounds; assumption.
Qed.

(** X5.  Whenever [parseComplexityFromAgent] returns an assessment, its
    argument is a non-empty string, both tokens have the shape of a
    parenthesized expression (an "O", "o" or "(", then no ")" until the
    closing ")"), each token is its default or a piece of the text, and the
    assessment carries the text. *)
Theorem assessment_tokens (v : value) (a : assessment)
    (Ha : AnalysisJs.parseComplexityFromAgent v = Return (Some a)) :
  exists text t s,
    v = Str text /\ text <> []
    /\ time_complexity a = Some t /\ space_complexity a = Some s
    /\ token_like t /\ token_like s
    /\ (t = js "O(n)" \/ includes text t = true)
    /\ (s = js "O(1)" \/ includes text s = true)
    /\ full_analysis a = text.
Proof.
  destruct (AnalysisJs_parse_some _ Ha) as (text & -> & Hne).
  destruct (AnalysisJs_parse_text Hne) as (tc & sc & _ & _ & H).
  rewrite H in Ha. injection Ha as <-.
  exists text, (timeToken_found text), (spaceToken_found text).
  cbn [time_complexity space_complexity full_analysis].
  pose proof (timeToken_found_shape text) as [Ht1 Ht2].
  pose proof (spaceToken_found_shape text) as [Hs1 Hs2].
  repeat split; assumption.
Qed.

Lemma assessment_tokens_witness :
  exists text t s,
    Str (js "runs in O(n^2) time") = Str text /\ text <> []
    /\ Some (js "O(n^2)") = Some t /\ Some (js "O(1)") = Some s
    /\ token_like t /\ token_like s
    /\ (t = js "O(n)" \/ includes text t = true)
    /\ (s = js "O(1)" \/ includes text s = true)
    /\ js "runs in O(n^2) time" = text.
Proof.
  exact (@assessment_tokens (Str (js "runs in O(n^2) time"))
           {| time_complexity := Some (js "O(n^2)");
              time_color := js "#FF4757";
              space_complexity := Some (js "O(1)");
              space_color := js "#2ED573";
              performance_score := Num 25;
              score := Num 6;
              full_analysis := js "runs in O(n^2) time" |} eq_refl).
Defined.

(** X6.  For every non-empty text both copies of [parseComplexityFromAgent]
    return an assessment, without throwing; its performance score is one of
    95, 85, 70, 55, 25, 5 and 50, its overall score is an integer from 1 to
    10 (never [NaN]), and its two colours are among the seven of
    [getComplexityColor]. *)
Theorem assessment_scores (text : jsstring) (Hne : text <> []) :
  (exists a p z,
     AnalysisJs.parseComplexityFromAgent (Str text) = Return (Some a)
     /\ performance_score a = Num p /\ In p performance_values
     /\ score a = Num z /\ (1 <= z <= 10)%Z
     /\ In (time_color a) AnalysisJs_palette
     /\ In (space_color a) AnalysisJs_palette)
  /\ (exists a p z,
        Part000.parseComplexityFromAgent (Str text) = Return (Some a)
        /\ performance_score a = Num p /\ In p performance_values
        /\ score a = Num z /\ (1 <= z <= 10)%Z
        /\ In (time_color a) Part000_palette
        /\ In (space_color a) Part000_palette).
Proof.
  pose proof (timeToken_found_shape text) as [Ht _].
  pose proof (spaceToken_found_shape text) as [Hs _].
  destruct (performance_in_values Ht) as [(pa & Hpa & Hpa') (pp & Hpp & Hpp')].
  destruct (complexity_in_range Ht Hs) as [(za & Hza & Hza') (zp & Hzp & Hzp')].
  split.
  - destruct (AnalysisJs_parse_text Hne) as (tc & sc & Htc & Hsc & H).
    eexists _, pa, za. split; [exact H|].
    cbn [performance_score score time_color space_color].
    repeat split; assumption || apply Hza'.
  - destruct (Part000_parse_text Hne) as (tc & sc & Htc & Hsc & H).
    eexists _, pp, zp. split; [exact H|].
    cbn [performance_score score time_color space_color].
    repeat split; assumption || apply Hzp'.
Qed.

Lemma assessment_scores_witness :
  exists a p z,
    Part000.parseComplexityFromAgent (Str (js "runs in O(n^2) time")) = Return (Some a)
    /\ performance_score a = Num p /\ In p performance_values
    /\ score a = Num z /\ (1 <= z <= 10)%Z
    /\ In (time_color a) Part000_palette
    /\ In (space_color a) Part000_palette.
Proof.
  assert (Hne : js "runs in O(n^2) time" <> []) by discriminate.
  exact (proj2 (assessment_scores Hne)).
Defined.

(** X7.  The two copies of [parseComplexityFromAgent] return [null] for the
    same arguments and, for any other, assessments with the same tokens and
    text; the scores are the same too unless a token is one of the two
    spellings of the squared token. *)
Theorem assessment_same_in_both (v : value) :
  (AnalysisJs.parseComplexityFromAgent v = Return None
   /\ Part000.parseComplexityFromAgent v = Return None)
  \/ (exists a b t s,
        AnalysisJs.parseComplexityFromAgent v = Return (Some a)
        /\ Part000.parseComplexityFromAgent v = Return (Some b)
        /\ time_complexity a = Some t /\ time_complexity b = Some t
        /\ space_complexity a = Some s /\ space_complexity b = Some s
        /\ full_analysis a = full_analysis b
        /\ (~ In t [O_n_squared; O_n_misencoded]
            -> ~ In s [O_n_squared; O_n_misencoded]
            -> performance_score a = performance_score b /\ score a = score b)).
Proof.
  destruct v; try (left; split; reflexivity).
  destruct s as [|c s]; [left; split; reflexivity|right].
  assert (Hne : c :: s <> []) by discriminate.
  destruct (AnalysisJs_parse_text Hne) as (tc & sc & _ & _ & HA).
  destruct (Part000_parse_text Hne) as (tc' & sc' & _ & _ & HP).
  eexists _, _, (timeToken_found (c :: s)), (spaceToken_found (c :: s)).
  split; [exact HA|]. split; [exact HP|].
  cbn [time_complexity space_complexity full_analysis performance_score score].
  do 5 (split; [reflexivity|]).
  intros Ht Hs.
  assert (Ht1 : timeToken_found (c :: s) <> O_n_squared)
    by (intros E; apply Ht; left; symmetry; exact E).
  assert (Ht2 : timeToken_found (c :: s) <> O_n_misencoded)
    by (intros E; apply Ht; right; left; symmetry; exact E).
  assert (Hs1 : spaceToken_found (c :: s) <> O_n_squared)
    by (intros E; apply Hs; left; symmetry; exact E).
  assert (Hs2 : spaceToken_found (c :: s) <> O_n_misencoded)
    by (intros E; apply Hs; right; left; symmetry; exact E).
  split.
  - refine (proj1 (@scores_agree_elsewhere (with_time (timeToken_found (c :: s))) _)).
    intros x Hx. injection Hx as <-. cbn [time space].
    repeat split; congruence.
  - refine (proj2 (@scores_agree_elsewhere
                     (with_tokens (timeToken_found (c :: s)) (spaceToken_found (c :: s))) _)).
    intros x Hx. injection Hx as <-. cbn [time space].
    repeat split; congruence.
Qed.

(** ** Level labels *)

Lemma own_text_In (key : jsstring) (table : list (jsstring * jsstring)) (t : jsstring) :
  own_text key table = Some t -> In t (map snd table).
Proof.
  induction table as [|[k v] table IH]; cbn [own_text map snd]; [discriminate|].
  destruct (jsstring_eqb key k).
  - intros H. injection H as ->. left. reflexivity.
  - intros H. right. exact (IH H).
Qed.

Lemma lookup_label (table : list (jsstring * jsstring)) (key d : jsstring) :
  inherited key = false ->
  exists l, or_label (lookup_text table key) d = Label l
            /\ (l = d \/ In l (map snd table)).
Proof.
  intros Hk. unfold lookup_text. destruct (own_text key table) as [t|] eqn:E.
  - apply own_text_In in E. cbn [or_label].
    destruct t; eexists; (split; [reflexivity|tauto]).
  - rewrite Hk. exists d. split; [reflexivity|left; reflexivity].
Qed.

(** X8.  The level of a token of an assessment is always one of the seven
    label strings of its file: the lookup never yields a member of
    Object.prototype, because a token ends with ")". *)
Theorem assessment_levels (v : value) (a : assessment) (t : jsstring)
    (Ha : AnalysisJs.parseComplexityFromAgent v = Return (Some a))
    (Ht : time_complexity a = Some t \/ space_complexity a = Some t) :
  (exists l, AnalysisJs.getComplexityLevel t = Label l /\ In l AnalysisJs_labels)
  /\ (exists l, Part000.getComplexityLevel t = Label l /\ In l Part000_labels).
Proof.
  destruct (AnalysisJs_parse_some _ Ha) as (text & -> & Hne).
  destruct (AnalysisJs_parse_text Hne) as (tc & sc & _ & _ & H).
  rewrite H in Ha. injection Ha as <-.
  cbn [time_complexity space_complexity] in Ht.
  assert (Hlike : token_like t).
  { destruct Ht as [Ht|Ht]; injection Ht as <-;
      [apply timeToken_found_shape|apply spaceToken_found_shape]. }
  destruct (token_like_not_inherited Hlike) as [Hinh _].
  unfold AnalysisJs.getComplexityLevel, Part000.getComplexityLevel.
  split.
  - destruct (@lookup_label AnalysisJs.levels t (js "UNKNOWN") Hinh) as (l & -> & Hl).
    exists l. split; [reflexivity|].
    destruct Hl as [-> |Hl]; [simpl; tauto|]. simpl in Hl. simpl. tauto.
  - destruct (@lookup_label Part000.levels t (js "Unknown") Hinh) as (l & -> & Hl).
    exists l. split; [reflexivity|].
    destruct Hl as [-> |Hl]; [simpl; tauto|]. simpl in Hl. simpl. tauto.
Qed.

Lemma assessment_levels_witness :
  (exists l, AnalysisJs.getComplexityLevel (js "O(n^2)") = Label l
             /\ In l AnalysisJs_labels)
  /\ (exists l, Part000.getComplexityLevel (js "O(n^2)") = Label l
                /\ In l Part000_labels).
Proof.
  exact (@assessment_levels (Str (js "runs in O(n^2) time"))
           {| time_complexity := Some (js "O(n^2)");
              time_color := js "#FF4757";
              space_complexity := Some (js "O(1)");
              space_color := js "#2ED573";
              performance_score := Num 25;
              score := Num 6;
              full_analysis := js "runs in O(n^2) time" |}
           (js "O(n^2)") eq_refl (or_introl eq_refl)).
Defined.

(** ** Suggestion records *)

Lemma nth_error_map_from {A B : Type} (f : A -> nat -> B) (l : list A) (k i : nat) :
  nth_error (map_from k f l) i = option_map (fun x => f x (k + i)%nat) (nth_error l i).
Proof.
  revert k i. induction l as [|x l IH]; intros k [|i]; cbn [map_from nth_error option_map];
    try reflexivity.
  - rewrite Nat.add_0_r. reflexivity.
  - rewrite IH. replace (S k + i)%nat with (k + S i)%nat by lia. reflexivity.
Qed.

(** What the plain copy returns, for every argument. *)
Lemma Part000_records (refactoringText : option jsstring) :
  Part000.parseRefactoringSuggestionsFromAgent refactoringText = []
  \/ exists text,
       refactoringText = Some text
       /\ Part000.parseRefactoringSuggestionsFromAgent refactoringText
          = Part000_suggestions_spec text.
Proof.
  destruct refactoringText as [text|]; [|left; reflexivity].
  destruct text as [|c s]; [left; reflexivity|].
  destruct (includes (c :: s) marker) eqn:Hmark.
  - left. unfold Part000.parseRefactoringSuggestionsFromAgent.
    rewrite Hmark, orb_true_r. reflexivity.
  - right. exists (c :: s). split; [reflexivity|].
    apply Part000_suggestions; [discriminate|exact Hmark].
Qed.

(** X9.  The records of the plain copy are numbered in order from 0: the
    record at position [i] has id [i], the title "Refactoring Suggestion"
    with the number [i + 1], priority "High" when [i < 2] and "Medium"
    otherwise, and the category "Refactoring". *)
Theorem Part000_records_numbered (refactoringText : option jsstring) (i : nat)
    (r : suggestion)
    (Hr : nth_error (Part000.parseRefactoringSuggestionsFromAgent refactoringText) i
          = Some r) :
  id r = i
  /\ title r = js "Refactoring Suggestion " ++ decimal (i + 1)
  /\ priority r = (if (i <? 2)%nat then js "High" else js "Medium")
  /\ category r = js "Refactoring".
Proof.
  destruct (Part000_records refactoringText) as [H|(text & _ & H)]; rewrite H in Hr.
  - destruct i; discriminate Hr.
  - unfold Part000_suggestions_spec in Hr. rewrite nth_error_map_from in Hr.
    destruct (nth_error (lines_spec text) i); [|discriminate Hr].
    cbn [option_map] in Hr. injection Hr as <-.
    cbn [id title priority category Nat.add]. repeat split.
Qed.

Lemma Part000_records_numbered_witness :
  1%nat = 1%nat
  /\ js "Refactoring Suggestion 2" = js "Refactoring Suggestion " ++ decimal (1 + 1)
  /\ js "High" = (if (1 <? 2)%nat then js "High" else js "Medium")
  /\ js "Refactoring" = js "Refactoring".
Proof.
  exact (@Part000_records_numbered
           (Some (js "1. Extract method" ++ [10%N] ++ js "- Rename x")) 1
           {| id := 1;
              title := js "Refactoring Suggestion 2";
              description := js "Rename x";
              priority := js "High";
              category := js "Refactoring";
              color := js "electric-blue" |} eq_refl).
Defined.

Lemma segments_Forall (Q : N -> Prop) (in_run : bool) (acc s : jsstring) :
  Forall Q acc -> Forall (fun x => (x =? 10)%N = false -> Q x) s ->
  Forall (Forall Q) (segments in_run acc s).
Proof.
  revert in_run acc. induction s as [|x s IH]; intros in_run acc Hacc Hs.
  - repeat constructor. exact Hacc.
  - cbn [segments]. inversion Hs as [|? ? Hx Hs']; subst.
    destruct (x =? 10)%N eqn:E.
    + destruct in_run; [apply IH; assumption|].
      constructor; [exact Hacc|]. apply IH; [constructor|assumption].
    + apply IH; [|assumption].
      apply Forall_app. split; [exact Hacc|]. repeat constructor. exact (Hx eq_refl).
Qed.

Lemma dropWhile_Forall (Q : N -> Prop) (p : N -> bool) (s : jsstring) :
  Forall Q s -> Forall Q (dropWhile p s).
Proof.
  induction 1 as [|x s Hx Hs IH]; [constructor|].
  cbn [dropWhile]. destruct (p x); [exact IH|constructor; assumption].
Qed.

Lemma trim_Forall (Q : N -> Prop) (s : jsstring) : Forall Q s -> Forall Q (trim s).
Proof.
  intros H. unfold trim, trimEnd, trimStart.
  apply Forall_rev, dropWhile_Forall, Forall_rev, dropWhile_Forall, H.
Qed.

Lemma dropWhile_head (p : N -> bool) (s : jsstring) :
  match dropWhile p s with
  | x :: _ => p x = false
  | [] => True
  end.
Proof.
  induction s as [|x s IH]; [exact I|].
  cbn [dropWhile]. destruct (p x) eqn:E; [exact IH|exact E].
Qed.

Lemma dropWhile_same (p : N -> bool) (s : jsstring) :
  match s with
  | x :: _ => p x = false
  | [] => True
  end -> dropWhile p s = s.
Proof. destruct s as [|x s]; [reflexivity|]. cbn [dropWhile]. intros ->. reflexivity. Qed.

Lemma trimEnd_prefix (s : jsstring) : exists tail, s = trimEnd s ++ tail.
Proof.
  unfold trimEnd.
  destruct (dropWhile_suffix isWhiteSpace (rev s)) as [pre H].
  exists (rev pre). rewrite <- rev_app_distr, <- H, rev_involutive. reflexivity.
Qed.

Lemma trimEnd_last (s : jsstring) :
  match rev (trimEnd s) with
  | x :: _ => isWhiteSpace x = false
  | [] => True
  end.
Proof. unfold trimEnd. rewrite rev_involutive. apply dropWhile_head. Qed.

Lemma space_is_bullet (x : N) : isWhiteSpace x = true -> is_bullet x = true.
Proof. unfold is_bullet. intros ->. apply orb_true_r. Qed.

(** The description made from a line: no bullet unit or white space at its
    head, no white space at its end. *)
Lemma clean_line (line : jsstring) :
  match trim (dropWhile is_bullet line) with
  | x :: _ => is_bullet x = false
  | [] => True
  end
  /\ match rev (trim (dropWhile is_bullet line)) with
     | x :: _ => isWhiteSpace x = false
     | [] => True
     end.
Proof.
  pose proof (dropWhile_head is_bullet line) as Hd.
  set (d := dropWhile is_bullet line) in *.
  assert (Hstart : trimStart d = d).
  { apply dropWhile_same. destruct d as [|x d']; [exact I|].
    destruct (isWhiteSpace x) eqn:E; [|reflexivity].
    rewrite (space_is_bullet _ E) in Hd. discriminate. }
  unfold trim. rewrite Hstart. split; [|apply trimEnd_last].
  destruct (trimEnd_prefix d) as [tail Ht].
  destruct (trimEnd d) as [|x e]; [exact I|].
  rewrite Ht in Hd. exact Hd.
Qed.

Lemma lines_spec_Forall (Q : N -> Prop) (text : jsstring) :
  Forall (fun x => (x =? 10)%N = false -> Q x) text ->
  Forall (Forall Q) (lines_spec text).
Proof.
  intros H. unfold lines_spec.
  apply incl_Forall with (l1 := map trim (segments false [] text)).
  - intros l Hl. apply filter_In in Hl. destruct Hl as [Hl _].
    apply filter_In in Hl. exact (proj1 Hl).
  - apply Forall_map.
    apply Forall_impl with (P := Forall Q); [intros a; apply trim_Forall|].
    apply segments_Forall; [constructor|exact H].
Qed.

Lemma In_map_from {A B : Type} (f : A -> nat -> B) (l : list A) (k : nat) (b : B) :
  In b (map_from k f l) -> exists x i, In x l /\ b = f x i.
Proof.
  revert k. induction l as [|x l IH]; intros k; cbn [map_from]; [contradiction|].
  intros [<-|H].
  - exists x, k. split; [left; reflexivity|reflexivity].
  - destruct (IH _ H) as (y & i & Hy & ->). exists y, i. split; [right; exact Hy|reflexivity].
Qed.

(** X10.  Every description that the plain copy returns is one line of clean
    text: it holds no newline, it does not start with a digit, ".", "-",
    "*", "+", the bullet or white space, and it does not end with white
    space. *)
Theorem Part000_descriptions_clean (refactoringText : option jsstring) (r : suggestion)
    (Hr : In r (Part000.parseRefactoringSuggestionsFromAgent refactoringText)) :
  Forall (fun x => x <> 10%N) (description r)
  /\ match description r with
     | x :: _ => is_bullet x = false
     | [] => True
     end
  /\ match rev (description r) with
     | x :: _ => isWhiteSpace x = false
     | [] => True
     end.
Proof.
  destruct (Part000_records refactoringText) as [H|(text & _ & H)]; rewrite H in Hr;
    [contradiction|].
  unfold Part000_suggestions_spec in Hr. apply In_map_from in Hr.
  destruct Hr as (line & i & Hline & ->). cbn [description].
  split; [|apply clean_line].
  apply trim_Forall, dropWhile_Forall.
  assert (Hall : Forall (Forall (fun x => x <> 10%N)) (lines_spec text)).
  { apply lines_spec_Forall. apply Forall_forall. intros x _ Hx.
    apply N.eqb_neq. exact Hx. }
  rewrite Forall_forall in Hall. exact (Hall line Hline).
Qed.

Lemma Part000_descriptions_clean_witness :
  Forall (fun x => x <> 10%N) (js "Extract method")
  /\ is_bullet 69 = false
  /\ isWhiteSpace 100 = false.
Proof.
  exact (@Part000_descriptions_clean
           (Some (js "1. Extract method "))
           {| id := 0;
              title := js "Refactoring Suggestion 1";
              description := js "Extract method";
              priority := js "High";
              category := js "Refactoring";
              color := js "electric-blue" |} (or_introl eq_refl)).
Defined.

Lemma AnalysisJs_bullet_class (x : N) :
  class_matches false false
    [Digit; Of "."; Of "-"; Of "*"; Of "+"; One 8218; One 196; One 162; Space] x
  = AnalysisJs_is_bullet x.
Proof.
  unfold class_matches, AnalysisJs_is_bullet, Of, canon. cbn [existsb item_matches xorb].
  change (N_of_ascii ".") with 46%N. change (N_of_ascii "-") with 45%N.
  change (N_of_ascii "*") with 42%N. change (N_of_ascii "+") with 43%N.
  rewrite (N.eqb_sym 46), (N.eqb_sym 45), (N.eqb_sym 42), (N.eqb_sym 43),
    (N.eqb_sym 8218), (N.eqb_sym 196), (N.eqb_sym 162), orb_false_r.
  rewrite !orb_assoc. reflexivity.
Qed.

Lemma AnalysisJs_clean (line : jsstring) :
  String_replace line AnalysisJs.bullets [] = dropWhile AnalysisJs_is_bullet line.
Proof.
  unfold String_replace, String_match, AnalysisJs.bullets.
  cbn [pattern ignoreCase Cat fold_right].
  set (cls := Class false [Digit; Of "."; Of "-"; Of "*"; Of "+";
                           One 8218; One 196; One 162; Space]).
  assert (Hhere : match_here false line (Seq Bol (Seq (Plus cls) Empty)) line
                  = match line with
                    | x :: l => if AnalysisJs_is_bullet x
                                then Some (dropWhile AnalysisJs_is_bullet l, [])
                                else None
                    | [] => None
                    end).
  { unfold match_here, Plus.
    rewrite run_Seq, run_Bol, Nat.eqb_refl, !run_Seq. unfold cls.
    rewrite run_Class. destruct line as [|x l]; [reflexivity|].
    rewrite AnalysisJs_bullet_class. destruct (AnalysisJs_is_bullet x); [|reflexivity].
    rewrite (star_total (P := AnalysisJs_is_bullet)).
    - reflexivity.
    - intros s cs k. rewrite run_Class. destruct s as [|y s]; [reflexivity|].
      rewrite AnalysisJs_bullet_class. reflexivity.
    - intros s cs. discriminate. }
  destruct line as [|x l]; cbn [search]; rewrite Hhere.
  - reflexivity.
  - cbn [dropWhile]. destruct (AnalysisJs_is_bullet x).
    + cbn [f_from f_rest]. rewrite Nat.sub_diag. reflexivity.
    + rewrite search_after_start by (simpl; lia). reflexivity.
Qed.

(** The copy in analysis.js computes the records written out above. *)
Lemma AnalysisJs_records_of_text (text : jsstring) :
  text <> [] -> includes text marker = false ->
  AnalysisJs.parseRefactoringSuggestionsFromAgent (Some text)
  = Return (AnalysisJs_suggestions_spec text).
Proof.
  intros Hne Hmark. unfold AnalysisJs.parseRefactoringSuggestionsFromAgent.
  rewrite Hmark. destruct text as [|c s]; [congruence|].
  cbn [List.length Nat.eqb orb].
  unfold Array_map, AnalysisJs_suggestions_spec. rewrite lines_are_spec.
  apply sequence_map_from. intros line index.
  rewrite AnalysisJs_clean. reflexivity.
Qed.

(** What the two copies return, for every argument. *)
Lemma both_records (refactoringText : option jsstring) :
  (AnalysisJs.parseRefactoringSuggestionsFromAgent refactoringText = Return []
   /\ Part000.parseRefactoringSuggestionsFromAgent refactoringText = [])
  \/ exists text,
       refactoringText = Some text /\ text <> [] /\ includes text marker = false
       /\ AnalysisJs.parseRefactoringSuggestionsFromAgent refactoringText
          = Return (AnalysisJs_suggestions_spec text)
       /\ Part000.parseRefactoringSuggestionsFromAgent refactoringText
          = Part000_suggestions_spec text.
Proof.
  destruct refactoringText as [text|]; [|left; split; reflexivity].
  destruct text as [|c s]; [left; split; reflexivity|].
  destruct (includes (c :: s) marker) eqn:Hmark.
  - left. unfold AnalysisJs.parseRefactoringSuggestionsFromAgent,
      Part000.parseRefactoringSuggestionsFromAgent.
    rewrite Hmark, orb_true_r. split; reflexivity.
  - right. exists (c :: s).
    assert (Hne : c :: s <> []) by discriminate.
    split; [reflexivity|]. split; [exact Hne|]. split; [exact Hmark|].
    split; [apply AnalysisJs_records_of_text|apply Part000_suggestions]; assumption.
Qed.

(** X11.  The copy in analysis.js never throws on a text.  It returns no
    record for a missing, empty or marked text, and for any other text the
    records of the surviving lines, each stripped of its leading run of
    digits, ".", "-", "*", "+", U+201A, U+00C4, U+00A2 and white space, with
    ids from 0, priority HIGH for the first two and MEDIUM after, and
    category REFACTOR. *)
Theorem AnalysisJs_suggestions_pipeline (refactoringText : option jsstring) :
  AnalysisJs.parseRefactoringSuggestionsFromAgent refactoringText
  = Return match refactoringText with
           | Some text =>
               if (List.length text =? 0)%nat || includes text marker then []
               else AnalysisJs_suggestions_spec text
           | None => []
           end.
Proof.
  destruct refactoringText as [text|]; [|reflexivity].
  destruct ((List.length text =? 0)%nat || includes text marker) eqn:E.
  - unfold AnalysisJs.parseRefactoringSuggestionsFromAgent. rewrite E. reflexivity.
  - apply orb_false_elim in E. destruct E as [E Hmark].
    assert (Hne : text <> []) by (intros ->; discriminate E).
    exact (AnalysisJs_records_of_text Hne Hmark).
Qed.

(** X12.  The plain copy returns no record for a missing, empty or marked
    text, and for any other text the records of the surviving lines, each
    stripped of its leading run of digits, ".", "-", "*", "+", bullets and
    white space and then trimmed, with ids from 0, priority High for the
    first two and Medium after, and category Refactoring. *)
Theorem Part000_suggestions_pipeline (refactoringText : option jsstring) :
  Part000.parseRefactoringSuggestionsFromAgent refactoringText
  = match refactoringText with
    | Some text =>
        if (List.length text =? 0)%nat || includes text marker then []
        else Part000_suggestions_spec text
    | None => []
    end.
Proof.
  destruct refactoringText as [text|]; [|reflexivity].
  destruct ((List.length text =? 0)%nat || includes text marker) eqn:E.
  - unfold Part000.parseRefactoringSuggestionsFromAgent. rewrite E. reflexivity.
  - apply orb_false_elim in E. destruct E as [E Hmark].
    assert (Hne : text <> []) by (intros ->; discriminate E).
    exact (Part000_suggestions Hne Hmark).
Qed.

Lemma dropWhile_ext_in (p q : N -> bool) (s : jsstring) :
  Forall (fun x => p x = q x) s -> dropWhile p s = dropWhile q s.
Proof.
  induction 1 as [|x s Hx _ IH]; [reflexivity|].
  cbn [dropWhile]. rewrite Hx, IH. reflexivity.
Qed.

Lemma bullets_agree (x : N) : plain_unit x -> AnalysisJs_is_bullet x = is_bullet x.
Proof.
  intros (H1 & H2 & H3 & H4). unfold AnalysisJs_is_bullet, is_bullet.
  apply N.eqb_neq in H1, H2, H3, H4. rewrite H1, H2, H3, H4.
  rewrite !orb_false_r. reflexivity.
Qed.

Lemma map_map_from {A B C : Type} (g : B -> C) (f : A -> nat -> B) (l : list A) (k : nat) :
  map g (map_from k f l) = map_from k (fun x i => g (f x i)) l.
Proof.
  revert k. induction l as [|x l IH]; intros k; [reflexivity|].
  cbn [map_from map]. rewrite IH. reflexivity.
Qed.

Lemma map_from_ext_in {A B : Type} (f g : A -> nat -> B) (l : list A) (k : nat) :
  Forall (fun x => forall i, f x i = g x i) l -> map_from k f l = map_from k g l.
Proof.
  intros H. revert k. induction H as [|x l Hx _ IH]; intros k; [reflexivity|].
  cbn [map_from]. rewrite Hx, IH. reflexivity.
Qed.

(** X13.  For every argument the two copies return the same number of
    records, with the same ids; and the same descriptions too when the text
    holds none of the code units U+2022, U+201A, U+00C4 and U+00A2. *)
Theorem suggestions_same_in_both (refactoringText : option jsstring) :
  exists records,
    AnalysisJs.parseRefactoringSuggestionsFromAgent refactoringText = Return records
    /\ map id records
       = map id (Part000.parseRefactoringSuggestionsFromAgent refactoringText)
    /\ ((forall text, refactoringText = Some text -> Forall plain_unit text) ->
        map description records
        = map description (Part000.parseRefactoringSuggestionsFromAgent refactoringText)).
Proof.
  destruct (both_records refactoringText) as [[HA HP]|(text & -> & Hne & Hmark & HA & HP)].
  - exists []. split; [exact HA|]. rewrite HP. split; [reflexivity|]. intros _. reflexivity.
  - exists (AnalysisJs_suggestions_spec text). split; [exact HA|].
    rewrite HP.
    unfold AnalysisJs_suggestions_spec, Part000_suggestions_spec.
    rewrite !map_map_from. cbn [id description].
    split; [reflexivity|].
    intros Hplain. specialize (Hplain text eq_refl).
    apply map_from_ext_in.
    assert (Hall : Forall (Forall plain_unit) (lines_spec text)).
    { apply lines_spec_Forall. apply Forall_impl with (P := plain_unit); [tauto|exact Hplain]. }
    apply Forall_impl with (P := Forall plain_unit); [|exact Hall].
    intros line Hline i. f_equal. apply dropWhile_ext_in.
    apply Forall_impl with (P := plain_unit); [|exact Hline].
    intros x Hx. apply bullets_agree. exact Hx.
Qed.

(** ** Response validation, once more *)

Lemma missing_in_array (elems : list value) (ps : list jsstring) :
  missing_in (Arr elems) ps = Return ps.
Proof.
  induction ps as [|p ps IH]; [reflexivity|].
  cbn [missing_in has_property bind]. rewrite IH. reflexivity.
Qed.

(** X14.  The three outcomes of [validateResponse], by the [results] of the
    response: [true] when it is an object or an array (for an array with a
    warning that lists all four fields), a TypeError when it is any other
    truthy value, and [false] with an error line otherwise. *)
Theorem validateResponse_outcomes (result : value) :
  match get result (js "results") with
  | Obj props => snd (validateResponse result) = Return true
  | Arr _ => validateResponse result = ([console_warn_missing required], Return true)
  | r => validateResponse result
         = if truthy r then ([], Throw TypeError)
           else ([console_error_missing_results], Return false)
  end.
Proof.
  destruct (get result (js "results")) as [| |b|z|s|elems|props] eqn:Hr.
  1-2: unfold validateResponse; rewrite Hr; cbn [truthy negb];
       rewrite orb_true_r; reflexivity.
  - assert (Ht : truthy result = true) by (destruct result; try reflexivity; discriminate Hr).
    unfold validateResponse. rewrite Ht, Hr. destruct b; reflexivity.
  - assert (Ht : truthy result = true) by (destruct result; try reflexivity; discriminate Hr).
    unfold validateResponse. rewrite Ht, Hr. cbn [truthy]. destruct (z =? 0)%Z; reflexivity.
  - assert (Ht : truthy result = true) by (destruct result; try reflexivity; discriminate Hr).
    unfold validateResponse. rewrite Ht, Hr. destruct s; reflexivity.
  - assert (Ht : truthy result = true) by (destruct result; try reflexivity; discriminate Hr).
    unfold validateResponse. rewrite Ht, Hr. cbn [truthy negb orb].
    rewrite missing_in_array. reflexivity.
  - assert (Ht : truthy result = true) by (destruct result; try reflexivity; discriminate Hr).
    unfold validateResponse. rewrite Ht, Hr. cbn [truthy negb orb].
    rewrite (missing_in_object props required_not_inherited).
    reflexivity.
Qed.

(** ** Score colours *)

(** X15.  analysis.js paints a score green exactly when it is a number of at
    least 80; the plain copy paints green every score that is not a number
    below 80, a score that is no number at all among them. *)
Theorem getScoreColor_green (score : number) :
  (AnalysisJs.getScoreColor score = js "#2ED573"
   <-> exists z, score = Num z /\ (80 <= z)%Z)
  /\ (Part000.getScoreColor score = js "#2ED573"
      <-> forall z, score = Num z -> (80 <= z)%Z).
Proof.
  unfold AnalysisJs.getScoreColor, Part000.getScoreColor.
  destruct score as [z| |name]; cbn [score_ge score_lt].
  - split.
    + destruct (80 <=? z)%Z eqn:E80.
      * split; [intros _; exists z; split; [reflexivity|lia]|reflexivity].
      * destruct (60 <=? z)%Z; [|destruct (40 <=? z)%Z];
          (split; [intros H; vm_compute in H; discriminate H
                  |intros (z' & Hz & Hge); injection Hz as <-; lia]).
    + destruct (z <? 30)%Z eqn:E30; [|destruct (z <? 60)%Z eqn:E60;
        [|destruct (z <? 80)%Z eqn:E80]].
      * split; [intros H; vm_compute in H; discriminate H
               |intros H; specialize (H z eq_refl); lia].
      * split; [intros H; vm_compute in H; discriminate H
               |intros H; specialize (H z eq_refl); lia].
      * split; [intros H; vm_compute in H; discriminate H
               |intros H; specialize (H z eq_refl); lia].
      * split; [intros _ z' Hz; injection Hz as <-; lia|reflexivity].
  - split; (split; [|]).
    + intros H; vm_compute in H; discriminate H.
    + intros (z & Hz & _). discriminate Hz.
    + intros _ z Hz. discriminate Hz.
    + reflexivity.
  - split; (split; [|]).
    + intros H; vm_compute in H; discriminate H.
    + intros (z & Hz & _). discriminate Hz.
    + intros _ z Hz. discriminate Hz.
    + reflexivity.
Qed.

(** ** Counting declarations in code without white space *)

Lemma spaceless_skipn (n : nat) (s : jsstring) : spaceless s -> spaceless (skipn n s).
Proof.
  unfold spaceless. revert s. induction n as [|n IH]; intros s H; [exact H|].
  destruct s as [|x s]; [constructor|]. cbn [skipn]. apply IH.
  inversion H; assumption.
Qed.

Section Spaceless.

Variable icase : bool.
Variable input : jsstring.

Lemma space_needed (r : regex) (s : jsstring) (cs : captures) (k : cont) :
  spaceless s ->
  run icase input (Seq (Plus AnySpace) r) s cs k = None.
Proof.
  intros Hs. unfold Plus. rewrite !run_Seq, anySpace_unit.
  destruct s as [|x s]; [reflexivity|].
  inversion Hs as [|? ? Hx _]; subst. rewrite Hx. reflexivity.
Qed.

Lemma literal_then_space (l : string) (rest : list regex) (s : jsstring) :
  spaceless s ->
  match_here icase input (Cat (Lit l :: Plus AnySpace :: rest)) s = None.
Proof.
  intros Hs. unfold match_here. cbn [Cat fold_right].
  rewrite run_Seq, run_Lit.
  destruct (starts_with icase s (js l)); [|reflexivity].
  apply space_needed, spaceless_skipn, Hs.
Qed.

Lemma iterate_fails (r : regex) (P : N -> bool) (k : cont) :
  unit_atom icase input r P ->
  (forall u cs, spaceless u -> k u cs = None) ->
  forall s fuel cs, spaceless s -> iterate icase input r k fuel s cs = None.
Proof.
  intros Hr Hk. induction s as [|x s IH]; intros fuel cs Hs.
  - destruct fuel; cbn [iterate]; [apply Hk, Hs|].
    rewrite Hr. apply Hk, Hs.
  - destruct fuel as [|fuel]; cbn [iterate]; [apply Hk, Hs|].
    rewrite Hr. destruct (P x); [|apply Hk, Hs].
    assert (Hlt : (List.length s <? List.length (x :: s))%nat = true)
      by (apply Nat.ltb_lt; simpl; lia).
    rewrite Hlt, IH by (inversion Hs; assumption).
    apply Hk, Hs.
Qed.

Lemma words_then_space (rest : list regex) (s : jsstring) :
  spaceless s ->
  match_here icase input (Cat (Plus AnyWord :: Plus AnySpace :: rest)) s = None.
Proof.
  intros Hs. unfold match_here. cbn [Cat fold_right]. unfold Plus at 1.
  rewrite !run_Seq. unfold AnyWord at 1. rewrite run_Class.
  destruct s as [|x s]; [reflexivity|].
  destruct (class_matches icase false [Word] x); [|reflexivity].
  rewrite run_Star.
  apply iterate_fails with (P := class_matches icase false [Word]).
  - apply unit_Class.
  - intros u cs Hu. apply space_needed, Hu.
  - inversion Hs; assumption.
Qed.

Lemma search_spaceless (r : regex) (s : jsstring) :
  (forall u, spaceless u -> match_here icase input r u = None) ->
  spaceless s -> search icase input r s = None.
Proof.
  intros H. induction s as [|x s IH]; intros Hs; cbn [search]; rewrite (H _ Hs).
  - reflexivity.
  - apply IH. inversion Hs; assumption.
Qed.

End Spaceless.

Lemma no_match_spaceless (code : jsstring) (r : regex) :
  (forall u, spaceless u -> match_here false code r u = None) ->
  spaceless code -> String_match_all code (RegExp r false) = None.
Proof.
  intros H Hs. unfold String_match_all. cbn [pattern ignoreCase search_all].
  rewrite (@search_spaceless false code r code H Hs). reflexivity.
Qed.

(** X16.  Every pattern of [countFunctions] asks for white space, so code
    without any white space has no match, and the count is the floor 1. *)
Theorem countFunctions_spaceless (code : jsstring) (Hcode : spaceless code) :
  countFunctions code = 1%Z.
Proof.
  unfold countFunctions, functionPatterns. cbn [fold_left].
  rewrite !no_match_spaceless;
    try exact Hcode; try reflexivity;
    intros u Hu; first [apply literal_then_space | apply words_then_space]; exact Hu.
Qed.

Lemma countFunctions_spaceless_witness : countFunctions (js "function(){}") = 1%Z.
Proof.
  apply countFunctions_spaceless. repeat constructor.
Defined.

(** ** Counting declarations: the patterns and the declaration heads *)

Lemma starts_with_exact (s p : jsstring) : starts_with false s p = startsWith s p.
Proof.
  revert s. induction p as [|a p IH]; intros [|x s]; cbn [starts_with startsWith];
    try reflexivity.
  rewrite IH. reflexivity.
Qed.

Lemma space_not_word (x : N) : isWhiteSpace x = true -> isWordChar x = false.
Proof.
  intros Hs. destruct (isWordChar x) eqn:Hw; [|reflexivity]. exfalso.
  unfold isWhiteSpace in Hs. unfold isWordChar, isDigit in Hw.
  repeat rewrite ?orb_true_iff, ?andb_true_iff, ?N.leb_le, ?N.eqb_eq in Hs.
  repeat rewrite ?orb_true_iff, ?andb_true_iff, ?N.leb_le, ?N.eqb_eq in Hw.
  lia.
Qed.

Lemma word_not_space (x : N) : isWordChar x = true -> isWhiteSpace x = false.
Proof.
  intros H. destruct (isWhiteSpace x) eqn:E; [|reflexivity].
  rewrite (space_not_word _ E) in H. discriminate.
Qed.

Create HintDb heads.

Section Heads.

Variable input : jsstring.

Lemma anyWord_unit : unit_atom false input AnyWord isWordChar.
Proof.
  intros s cs k. unfold AnyWord. rewrite run_Class.
  destruct s as [|x s]; [reflexivity|].
  unfold class_matches. cbn [existsb item_matches xorb].
  rewrite orb_false_r. reflexivity.
Qed.

Lemma notClose_unit : unit_atom false input (Class true [Of ")"]) not_close.
Proof.
  intros s cs k. rewrite run_Class. destruct s as [|x s]; [reflexivity|].
  rewrite close_canon. reflexivity.
Qed.

Lemma step_word (l : string) (rest : list regex) (s : jsstring) (cs : captures) (k : cont) :
  run false input (Cat (Lit l :: rest)) s cs k
  = match word l s with
    | Some s' => run false input (Cat rest) s' cs k
    | None => None
    end.
Proof.
  cbn [Cat fold_right]. rewrite run_Seq, run_Lit, starts_with_exact.
  unfold word. destruct (startsWith s (js l)); reflexivity.
Qed.

Lemma step_mark (c : ascii) (rest : list regex) (s : jsstring) (cs : captures) (k : cont) :
  run false input (Cat (Chr c :: rest)) s cs k
  = match word (String c EmptyString) s with
    | Some s' => run false input (Cat rest) s' cs k
    | None => None
    end.
Proof.
  cbn [Cat fold_right]. unfold Chr. rewrite run_Seq, run_Char.
  unfold word. cbn [js list_ascii_of_string map startsWith List.length skipn canon].
  destruct s as [|x s]; [reflexivity|].
  rewrite andb_true_r. destruct (N_of_ascii c =? x)%N; reflexivity.
Qed.

Lemma step_some (r : regex) (P : N -> bool) (rest : list regex)
    (s : jsstring) (cs : captures) (k : cont) :
  unit_atom false input r P ->
  rejects (fun s' cs' => run false input (Cat rest) s' cs' k) P ->
  run false input (Cat (Plus r :: rest)) s cs k
  = match some_of P s with
    | Some s' => run false input (Cat rest) s' cs k
    | None => None
    end.
Proof.
  intros Hr Hk. cbn [Cat fold_right]. unfold Plus. rewrite !run_Seq, Hr.
  destruct s as [|x s]; [reflexivity|]. cbn [some_of].
  destruct (P x); [|reflexivity].
  exact (@star_commit false input r P
           (fun s' cs' => run false input (Cat rest) s' cs' k) s cs Hr Hk).
Qed.

Lemma step_any (r : regex) (P : N -> bool) (rest : list regex)
    (s : jsstring) (cs : captures) (k : cont) :
  unit_atom false input r P ->
  rejects (fun s' cs' => run false input (Cat rest) s' cs' k) P ->
  run false input (Cat (Star r :: rest)) s cs k
  = match any_of P s with
    | Some s' => run false input (Cat rest) s' cs k
    | None => None
    end.
Proof.
  intros Hr Hk. cbn [Cat fold_right any_of]. rewrite run_Seq.
  exact (@star_commit false input r P
           (fun s' cs' => run false input (Cat rest) s' cs' k) s cs Hr Hk).
Qed.

Lemma step_some_last (r : regex) (P : N -> bool) (s : jsstring) (cs : captures) :
  unit_atom false input r P ->
  option_map fst (run false input (Cat [Plus r]) s cs accept) = some_of P s.
Proof.
  intros Hr. cbn [Cat fold_right]. unfold Plus. rewrite !run_Seq, Hr.
  destruct s as [|x s]; [reflexivity|]. cbn [some_of].
  destruct (P x); [|reflexivity].
  rewrite (@star_total false input r P
             (fun s' cs' => run false input Empty s' cs' accept) s cs Hr);
    [reflexivity|].
  intros s' cs'. cbn [run]. unfold accept. discriminate.
Qed.

Lemma rejects_mark (c : ascii) (P : N -> bool) (rest : list regex) (k : cont) :
  P (N_of_ascii c) = false ->
  rejects (fun s cs => run false input (Cat (Chr c :: rest)) s cs k) P.
Proof.
  intros Hc x s cs Hx. cbn [Cat fold_right]. unfold Chr. rewrite run_Seq, run_Char.
  cbn [canon]. destruct (N.eqb_spec (N_of_ascii c) x) as [E|E]; [|reflexivity].
  subst x. rewrite Hx in Hc. discriminate.
Qed.

Lemma rejects_word (a : ascii) (l : string) (P : N -> bool) (rest : list regex) (k : cont) :
  P (N_of_ascii a) = false ->
  rejects (fun s cs => run false input (Cat (Lit (String a l) :: rest)) s cs k) P.
Proof.
  intros Hc x s cs Hx. rewrite step_word. unfold word.
  cbn [js list_ascii_of_string map startsWith].
  destruct (N.eqb_spec (N_of_ascii a) x) as [E|E]; [|reflexivity].
  subst x. rewrite Hx in Hc. discriminate.
Qed.

Lemma rejects_some (r : regex) (Q P : N -> bool) (rest : list regex) (k : cont) :
  unit_atom false input r Q ->
  (forall x, P x = true -> Q x = false) ->
  rejects (fun s cs => run false input (Cat (Plus r :: rest)) s cs k) P.
Proof.
  intros Hr Hd x s cs Hx. cbn [Cat fold_right]. unfold Plus. rewrite !run_Seq, Hr.
  rewrite (Hd _ Hx). reflexivity.
Qed.

Lemma rejects_any (r : regex) (Q P : N -> bool) (rest : list regex) (k : cont) :
  unit_atom false input r Q ->
  (forall x, P x = true -> Q x = false) ->
  rejects (fun s cs => run false input (Cat rest) s cs k) Q ->
  rejects (fun s cs => run false input (Cat rest) s cs k) P ->
  rejects (fun s cs => run false input (Cat (Star r :: rest)) s cs k) P.
Proof.
  intros Hr Hd HQ HP x s cs Hx. rewrite (step_any _ _ _ _ Hr HQ).
  cbn [any_of dropWhile]. rewrite (Hd _ Hx). apply HP, Hx.
Qed.

End Heads.

Section Declarations.

Variable input : jsstring.

#[local] Hint Resolve anySpace_unit anyWord_unit notClose_unit space_not_word
  word_not_space rejects_mark rejects_word rejects_some rejects_any : heads.
#[local] Hint Extern 1 (_ = false) => reflexivity : heads.

Lemma named_run (l : string) (s : jsstring) (cs : captures) :
  option_map fst
    (run false input (Cat [Lit l; Plus AnySpace; Plus AnyWord]) s cs accept)
  = named l s.
Proof.
  unfold named, blanks, identifier. unfold chain; cbn [fold_right]; unfold and_next.
  rewrite step_word. destruct (word l s) as [s1|]; [|reflexivity].
  rewrite (step_some (P := isWhiteSpace)) by eauto with heads.
  destruct (some_of isWhiteSpace s1) as [s2|]; [|reflexivity].
  rewrite (step_some_last (P := isWordChar)) by eauto with heads.
  destruct (some_of isWordChar s2); reflexivity.
Qed.

Lemma typed_run (rest : list regex) (s : jsstring) (cs : captures) (k : cont) :
  run false input
    (Cat (Plus AnyWord :: Plus AnySpace :: Plus AnyWord :: Star AnySpace
          :: Chr "(" :: rest)) s cs k
  = match typed_signature s with
    | Some s' => run false input (Cat rest) s' cs k
    | None => None
    end.
Proof.
  unfold typed_signature, blanks, identifier, gap. unfold chain; cbn [fold_right]; unfold and_next.
  rewrite (step_some (P := isWordChar)) by eauto with heads.
  destruct (some_of isWordChar s) as [s1|]; [|reflexivity].
  rewrite (step_some (P := isWhiteSpace)) by eauto with heads.
  destruct (some_of isWhiteSpace s1) as [s2|]; [|reflexivity].
  rewrite (step_some (P := isWordChar)) by eauto with heads.
  destruct (some_of isWordChar s2) as [s3|]; [|reflexivity].
  rewrite (step_any (P := isWhiteSpace)) by eauto with heads.
  cbn [any_of]. rewrite step_mark.
  destruct (word "(" (dropWhile isWhiteSpace s3)); reflexivity.
Qed.

Lemma called_run (l : string) (s : jsstring) (cs : captures) :
  option_map fst
    (run false input
       (Cat [Lit l; Plus AnySpace; Plus AnyWord; Star AnySpace; Chr "("]) s cs accept)
  = called l s.
Proof.
  unfold called, blanks, identifier, gap. unfold chain; cbn [fold_right]; unfold and_next.
  rewrite step_word. destruct (word l s) as [s1|]; [|reflexivity].
  rewrite (step_some (P := isWhiteSpace)) by eauto with heads.
  destruct (some_of isWhiteSpace s1) as [s2|]; [|reflexivity].
  rewrite (step_some (P := isWordChar)) by eauto with heads.
  destruct (some_of isWordChar s2) as [s3|]; [|reflexivity].
  rewrite (step_any (P := isWhiteSpace)) by eauto with heads.
  cbn [any_of]. rewrite step_mark.
  destruct (word "(" (dropWhile isWhiteSpace s3)); reflexivity.
Qed.

Lemma const_arrow_run (s : jsstring) (cs : captures) :
  option_map fst
    (run false input
       (Cat [Lit "const"; Plus AnySpace; Plus AnyWord; Star AnySpace; Chr "=";
             Star AnySpace; Chr "("]) s cs accept)
  = const_arrow s.
Proof.
  unfold const_arrow, blanks, identifier, gap. unfold chain; cbn [fold_right]; unfold and_next.
  rewrite step_word. destruct (word "const" s) as [s1|]; [|reflexivity].
  rewrite (step_some (P := isWhiteSpace)) by eauto with heads.
  destruct (some_of isWhiteSpace s1) as [s2|]; [|reflexivity].
  rewrite (step_some (P := isWordChar)) by eauto with heads.
  destruct (some_of isWordChar s2) as [s3|]; [|reflexivity].
  rewrite (step_any (P := isWhiteSpace)) by eauto with heads.
  cbn [any_of]. rewrite step_mark.
  destruct (word "=" (dropWhile isWhiteSpace s3)) as [s4|]; [|reflexivity].
  rewrite (step_any (P := isWhiteSpace)) by eauto with heads.
  cbn [any_of]. rewrite step_mark.
  destruct (word "(" (dropWhile isWhiteSpace s4)); reflexivity.
Qed.

Lemma braced_definition_run (s : jsstring) (cs : captures) :
  option_map fst
    (run false input
       (Cat [Plus AnyWord; Plus AnySpace; Plus AnyWord; Star AnySpace; Chr "(";
             Star (Class true [Of ")"]); Chr ")"; Star AnySpace; Chr "{"]) s cs accept)
  = braced_definition s.
Proof.
  unfold braced_definition, gap. unfold chain; cbn [fold_right]; unfold and_next.
  rewrite typed_run. destruct (typed_signature s) as [s1|]; [|reflexivity].
  rewrite (step_any (P := not_close)) by eauto with heads.
  cbn [any_of]. rewrite step_mark.
  destruct (word ")" (dropWhile not_close s1)) as [s2|]; [|reflexivity].
  rewrite (step_any (P := isWhiteSpace)) by eauto with heads.
  cbn [any_of]. rewrite step_mark.
  destruct (word "{" (dropWhile isWhiteSpace s2)); reflexivity.
Qed.

Lemma typed_signature_run (s : jsstring) (cs : captures) :
  option_map fst
    (run false input
       (Cat [Plus AnyWord; Plus AnySpace; Plus AnyWord; Star AnySpace; Chr "("])
       s cs accept)
  = typed_signature s.
Proof.
  rewrite typed_run. destruct (typed_signature s); reflexivity.
Qed.

Lemma step_opt (r : regex) (rest : list regex) (s : jsstring) (cs : captures) (k : cont) :
  run false input (Cat (Opt r :: rest)) s cs k
  = match run false input r s cs (fun s' cs' => run false input (Cat rest) s' cs' k) with
    | Some st => Some st
    | None => run false input (Cat rest) s cs k
    end.
Proof. reflexivity. Qed.

Lemma method_run (l : string) (s : jsstring) (cs : captures) :
  option_map fst
    (run false input
       (Cat [Lit l; Plus AnySpace;
             Opt (Group 1 (Cat [Lit "static"; Plus AnySpace]));
             Plus AnyWord; Plus AnySpace; Plus AnyWord; Star AnySpace; Chr "("])
       s cs accept)
  = method l s.
Proof.
  unfold method, blanks. unfold chain; cbn [fold_right]; unfold and_next.
  rewrite step_word. destruct (word l s) as [s1|]; [|reflexivity].
  set (signature := [Plus AnyWord; Plus AnySpace; Plus AnyWord; Star AnySpace; Chr "("]).
  assert (Hstatic : forall u cs',
             option_map fst
               (run false input (Group 1 (Cat [Lit "static"; Plus AnySpace])) u cs'
                  (fun s' cs'' => run false input (Cat signature) s' cs'' accept))
             = match word "static" u with
               | Some u1 =>
                   match some_of isWhiteSpace u1 with
                   | Some u2 => typed_signature u2
                   | None => None
                   end
               | None => None
               end).
  { intros u cs'. rewrite run_Group, step_word.
    destruct (word "static" u) as [u1|]; [|reflexivity].
    rewrite (step_some (P := isWhiteSpace)).
    - destruct (some_of isWhiteSpace u1) as [u2|]; [|reflexivity].
      cbn [Cat fold_right run]. apply typed_signature_run.
    - apply anySpace_unit.
    - intros x t ct Hx.
      exact (@rejects_some input AnyWord isWordChar isWhiteSpace _ accept
               (anyWord_unit input) space_not_word x t _ Hx). }
  assert (Hopt : forall u cs',
             option_map fst
               (run false input
                  (Cat (Opt (Group 1 (Cat [Lit "static"; Plus AnySpace])) :: signature))
                  u cs' accept)
             = or_else (fun u =>
                          match word "static" u with
                          | Some u1 =>
                              match some_of isWhiteSpace u1 with
                              | Some u2 => typed_signature u2
                              | None => None
                              end
                          | None => None
                          end) typed_signature u).
  { intros u cs'. rewrite step_opt. unfold or_else. rewrite <- (Hstatic u cs').
    destruct (run false input (Group 1 _) u cs' _) as [st|]; [reflexivity|].
    apply typed_signature_run. }
  rewrite (step_some (P := isWhiteSpace)).
  - destruct (some_of isWhiteSpace s1) as [s2|]; [|reflexivity].
    rewrite Hopt. unfold or_else.
    destruct (word "static" s2) as [u1|]; [|destruct (typed_signature s2); reflexivity].
    destruct (some_of isWhiteSpace u1) as [u2|];
      [|destruct (typed_signature s2); reflexivity].
    destruct (typed_signature u2); [reflexivity|].
    destruct (typed_signature s2); reflexivity.
  - apply anySpace_unit.
  - intros x t ct Hx. rewrite step_opt, run_Group, step_word. unfold word at 1.
    cbn [js list_ascii_of_string map startsWith].
    destruct (N.eqb_spec (N_of_ascii "s") x) as [E|E].
    + subst x. vm_compute in Hx. discriminate.
    + cbn [andb].
      exact (@rejects_some input AnyWord isWordChar isWhiteSpace _ accept
               (anyWord_unit input) space_not_word x t _ Hx).
Qed.

End Declarations.

Lemma consumes_shrinks (h : head) : consumes h -> shrinks h.
Proof. intros H s rest E. apply H in E. lia. Qed.

Lemma word_shrinks (l : string) : shrinks (word l).
Proof.
  intros s rest. unfold word. destruct (startsWith s (js l)); [|discriminate].
  intros E. injection E as <-. rewrite length_skipn. lia.
Qed.

Lemma some_of_consumes (P : N -> bool) : consumes (some_of P).
Proof.
  intros [|x s] rest; cbn [some_of]; [discriminate|].
  destruct (P x); [|discriminate]. intros E. injection E as <-.
  pose proof (dropWhile_length P s). simpl. lia.
Qed.

Lemma any_of_shrinks (P : N -> bool) : shrinks (any_of P).
Proof.
  intros s rest E. injection E as <-. apply dropWhile_length.
Qed.

Lemma chain_shrinks (hs : list head) : Forall shrinks hs -> shrinks (chain hs).
Proof.
  induction 1 as [|h hs Hh _ IH]; intros s rest; unfold chain; cbn [fold_right].
  - intros E. injection E as <-. lia.
  - unfold and_next. destruct (h s) as [s1|] eqn:E1; [|discriminate]. intros E.
    apply Hh in E1. apply IH in E. lia.
Qed.

Lemma chain_consumes (hs : list head) :
  Forall shrinks hs -> Exists consumes hs -> consumes (chain hs).
Proof.
  induction 1 as [|h hs Hh Hhs IH]; intros Hex; inversion Hex as [? ? Hc|? ? Hc]; subst;
    intros s rest; unfold chain; cbn [fold_right]; unfold and_next;
    (destruct (h s) as [s1|] eqn:E1; [|discriminate]); intros E.
  - apply Hc in E1. apply (chain_shrinks Hhs) in E. lia.
  - apply Hh in E1. apply (IH Hc) in E. lia.
Qed.

Lemma or_else_shrinks (h1 h2 : head) : shrinks h1 -> shrinks h2 -> shrinks (or_else h1 h2).
Proof.
  intros H1 H2 s rest. unfold or_else. destruct (h1 s) as [s1|] eqn:E1.
  - intros E. injection E as <-. apply H1, E1.
  - apply H2.
Qed.

Lemma some_of_shrinks (P : N -> bool) : shrinks (some_of P).
Proof. apply consumes_shrinks, some_of_consumes. Qed.

#[local] Hint Resolve word_shrinks any_of_shrinks some_of_shrinks or_else_shrinks
  chain_shrinks : heads.
#[local] Hint Constructors Forall : heads.

Lemma typed_signature_consumes : consumes typed_signature.
Proof.
  unfold typed_signature, identifier, blanks, gap.
  apply chain_consumes; [auto 10 with heads|].
  apply Exists_cons_hd, some_of_consumes.
Qed.

Lemma typed_signature_shrinks : shrinks typed_signature.
Proof. apply consumes_shrinks, typed_signature_consumes. Qed.

#[local] Hint Resolve typed_signature_shrinks : heads.

Lemma declaration_heads_consume : Forall consumes declaration_heads.
Proof.
  unfold declaration_heads, named, called, method, const_arrow, braced_definition,
    identifier, blanks, gap.
  repeat apply Forall_cons; try apply Forall_nil;
    (apply chain_consumes;
     [ auto 20 with heads
     | first [ apply Exists_cons_tl, Exists_cons_hd, some_of_consumes
             | apply Exists_cons_hd, typed_signature_consumes ] ]).
Qed.

Section Counting.

Variable icase : bool.
Variable input : jsstring.
Variable r : regex.
Variable h : head.
Hypothesis agree : forall s, option_map fst (match_here icase input r s) = h s.
Hypothesis progress : consumes h.

Lemma search_here (s rest : jsstring) :
  h s = Some rest ->
  exists cs, search icase input r s = Some (Found s rest cs).
Proof.
  intros E. rewrite <- agree in E.
  destruct (match_here icase input r s) as [[rest' cs]|] eqn:M; [|discriminate].
  injection E as ->. exists cs.
  destruct s; cbn [search]; rewrite M; reflexivity.
Qed.

Lemma search_later (x : N) (s : jsstring) :
  h (x :: s) = None ->
  search icase input r (x :: s) = search icase input r s.
Proof.
  intros E. rewrite <- agree in E.
  destruct (match_here icase input r (x :: s)) as [[rest' cs]|] eqn:M; [discriminate|].
  cbn [search]. rewrite M. reflexivity.
Qed.

Lemma search_end : search icase input r [] = None.
Proof.
  destruct (h []) as [rest|] eqn:E.
  - apply progress in E. simpl in E. lia.
  - rewrite <- agree in E. cbn [search].
    destruct (match_here icase input r []) as [[rest' cs]|]; [discriminate|reflexivity].
Qed.

Lemma search_all_occurrences (n : nat) :
  forall s fuel fuel',
    (List.length s <= n)%nat ->
    (List.length s < fuel)%nat -> (List.length s < fuel')%nat ->
    List.length (search_all icase input fuel r s) = occurrences fuel' h s.
Proof.
  induction n as [|n IH]; intros s fuel fuel' Hn Hf Hf'.
  - destruct s; [|simpl in Hn; lia].
    destruct fuel as [|fuel]; [simpl in Hf; lia|].
    destruct fuel' as [|fuel']; [simpl in Hf'; lia|].
    cbn [search_all occurrences]. rewrite search_end.
    destruct (h []) as [rest|] eqn:E; [|reflexivity].
    apply progress in E. simpl in E. lia.
  - destruct fuel as [|fuel]; [lia|].
    destruct fuel' as [|fuel']; [lia|].
    cbn [occurrences]. destruct (h s) as [rest|] eqn:E.
    + destruct (search_here E) as [cs Hs]. cbn [search_all]. rewrite Hs.
      cbn [f_rest f_from]. pose proof (progress E) as Hlt.
      replace (List.length rest <? List.length s)%nat with true
        by (symmetry; apply Nat.ltb_lt; exact Hlt).
      cbn [List.length]. f_equal. apply IH; lia.
    + destruct s as [|x s].
      * cbn [search_all]. rewrite search_end. reflexivity.
      * transitivity (List.length (search_all icase input (S fuel) r s)).
        { cbn [search_all]. rewrite (search_later E). reflexivity. }
        simpl in Hn, Hf, Hf'. apply IH; lia.
Qed.

End Counting.

Lemma count_matches_heads (code : jsstring) (r : regex) (h : head) :
  (forall s, option_map fst (match_here false code r s) = h s) ->
  consumes h ->
  count_matches code (RegExp r false) = count_heads code h.
Proof.
  intros Ha Hc. unfold count_matches, count_heads. cbn [pattern ignoreCase].
  apply (@search_all_occurrences false code r h Ha Hc (List.length code)); lia.
Qed.

Lemma patterns_heads (code : jsstring) :
  map (fun re => Z.of_nat (count_matches code re)) functionPatterns
  = map (fun h => Z.of_nat (count_heads code h)) declaration_heads.
Proof.
  pose proof declaration_heads_consume as Hc.
  unfold functionPatterns, declaration_heads in *. cbn [map].
  repeat match goal with
         | |- _ :: _ = _ :: _ =>
             inversion Hc as [|? ? ? Hc']; subst; clear Hc; rename Hc' into Hc;
             apply f_equal2;
             [ apply f_equal, count_matches_heads;
               [ intros s; unfold match_here;
                 first [ apply named_run | apply const_arrow_run | apply method_run
                       | apply called_run | apply braced_definition_run ]
               | assumption ]
             | ]
         end.
  reflexivity.
Qed.

(** C9.  [countFunctions] returns the larger of 1 and the sum, over its
    eight patterns, of the number of matches of each, counted from the left
    without overlap; the matches of a pattern are the occurrences of the
    declaration head it describes, found here without the matcher.  So it
    returns at least 1, and 1 on the empty string. *)
Theorem countFunctions_floor (code : jsstring) :
  countFunctions code
  = Z.max 1 (sum (map (fun h => Z.of_nat (count_heads code h)) declaration_heads))
  /\ (1 <= countFunctions code)%Z
  /\ countFunctions [] = 1%Z.
Proof.
  assert (H : countFunctions code
              = Z.max 1 (sum (map (fun h => Z.of_nat (count_heads code h))
                                declaration_heads))).
  { unfold countFunctions. rewrite count_loop, patterns_heads. reflexivity. }
  split; [exact H|]. split; [rewrite H; lia|].
  vm_compute. reflexivity.
Qed.

(** ** The controller *)

Lemma fst_and_then {A B : Type} (m : action A) (k : A -> action B) :
  fst (and_then m k)
  = fst m ++ match snd m with Ok a => fst (k a) | Failed _ => [] end.
Proof.
  destruct m as [t [a|f]]; simpl.
  - destruct (k a); reflexivity.
  - rewrite app_nil_r. reflexivity.
Qed.

Lemma snd_and_then {A B : Type} (m : action A) (k : A -> action B) :
  snd (and_then m k)
  = match snd m with Ok a => snd (k a) | Failed f => Failed f end.
Proof.
  destruct m as [t [a|f]]; simpl; [destruct (k a)|]; reflexivity.
Qed.

Lemma fst_try_catch (m : action unit) (h : failure -> action unit) :
  fst (try_catch m h)
  = fst m ++ match snd m with Ok _ => [] | Failed f => fst (h f) end.
Proof.
  destruct m as [t [a|f]]; simpl.
  - rewrite app_nil_r. reflexivity.
  - destruct (h f); reflexivity.
Qed.

Lemma snd_try_catch (m : action unit) (h : failure -> action unit) :
  snd (try_catch m h)
  = match snd m with Ok a => Ok a | Failed f => snd (h f) end.
Proof.
  destruct m as [t [a|f]]; simpl; [|destruct (h f)]; reflexivity.
Qed.

Lemma member_truthy (v : value) (p : jsstring) :
  truthy v = true -> member v p = Return (get v p).
Proof. destruct v; try reflexivity; discriminate. Qed.

(** Once the response has a truthy [results], [processAnalysisResults]
    returns: what the rendering throws is caught. *)
Lemma process_returns (sw : bool) (result : value) (code : jsstring) :
  truthy result = true -> truthy (get result (js "results")) = true ->
  snd (Part000.processAnalysisResults sw result code) = Ok tt.
Proof.
  intros Hr Hd. unfold Part000.processAnalysisResults.
  rewrite (@member_truthy _ (js "results") Hr). rewrite snd_and_then. cbn [lift done snd].
  rewrite (@member_truthy _ (js "analysis_id") Hd). rewrite snd_and_then. cbn [lift done snd].
  rewrite snd_and_then.
  assert (Hs : forall v, snd (if truthy v then emit (set_currentSessionId v) else done tt)
                         = Ok tt) by (intros v; destruct (truthy v); reflexivity).
  rewrite Hs. rewrite snd_try_catch.
  match goal with |- match ?m with _ => _ end = _ => destruct m as [[]|f] end;
    reflexivity.
Qed.

Lemma validated_truthy (result : value) :
  snd (validateResponse result) = Return true ->
  truthy result = true /\ truthy (get result (js "results")) = true.
Proof.
  unfold validateResponse.
  destruct (truthy result); [|discriminate].
  destruct (truthy (get result (js "results"))); [|discriminate].
  intros _. split; reflexivity.
Qed.

Lemma throw_Error_fails {A : Type} (v : value) :
  exists f, @throw_Error A v = ([], Failed f).
Proof.
  unfold throw_Error. destruct (String_ v); eexists; reflexivity.
Qed.

Lemma and_then_done {A B : Type} (a : A) (k : A -> action B) :
  and_then (done a) k = k a.
Proof. unfold and_then, done. destruct (k a). reflexivity. Qed.

Lemma and_then_emit {B : Type} (c : call) (k : unit -> action B) :
  and_then (emit c) k = (c :: fst (k tt), snd (k tt)).
Proof. unfold and_then, emit. destruct (k tt). reflexivity. Qed.

Lemma and_then_returns {A B : Type} (m : action A) (a : A) (k : A -> action B) :
  snd m = Ok a -> and_then m k = (fst m ++ fst (k a), snd (k a)).
Proof.
  destruct m as [t r]. simpl. intros ->. destruct (k a). reflexivity.
Qed.

(** The calls of [handleFormSubmit] once the form is filled in. *)
Lemma submit_calls (sw : bool) (now : Z) (network : option response)
    (code language : jsstring) (selectedOptions : list jsstring) :
  trim code <> [] -> selectedOptions <> [] ->
  match accepted network with
  | Some result =>
      Part000.handleFormSubmit sw now network code language selectedOptions
      = [showLoadingState;
         fetch code language (join (js ",") selectedOptions);
         set_currentSessionId
           (or_value (get (get result (js "results")) (js "analysis_id"))
              (Z_to_string now))]
        ++ fst (Part000.processAnalysisResults sw result code)
        ++ [hideLoadingState;
            showAlert (js "Analysis completed successfully!") (js "success")]
  | None =>
      exists error,
        Part000.handleFormSubmit sw now network code language selectedOptions
        = [showLoadingState;
           fetch code language (join (js ",") selectedOptions);
           showAlertError (js "Analysis failed: ") error;
           hideLoadingState]
  end.
Proof.
  intros Hcode Hopts. unfold Part000.handleFormSubmit.
  assert (Hgate : (List.length code =? 0)%nat || jsstring_eqb (trim code) [] = false).
  { destruct code as [|c s]; [elim Hcode; reflexivity|]. cbn [List.length Nat.eqb orb].
    apply jsstring_eqb_neq. exact Hcode. }
  rewrite Hgate.
  destruct selectedOptions as [|o os]; [congruence|]. cbn [List.length Nat.eqb].
  set (options := join (js ",") (o :: os)).
  rewrite !and_then_emit.
  destruct network as [[o' st b]|]; cbn [accepted ok body status].
  2:{ eexists. reflexivity. }
  rewrite and_then_done. cbn [ok body status].
  destruct o'; cbn [negb].
  2:{ match goal with |- context [member ?v ?p] => destruct (member v p) as [results|e] end;
        cbn [lift].
      - rewrite and_then_done.
        match goal with |- context [@throw_Error ?A ?v] =>
          destruct (@throw_Error_fails A v) as [f ->] end.
        eexists. reflexivity.
      - eexists. reflexivity. }
  rewrite and_then_done.
  destruct b as [result|]; [|eexists; reflexivity].
  rewrite and_then_done.
  destruct (snd (validateResponse result)) as [[|]|e] eqn:Hv; cbn [lift negb];
    [|eexists; reflexivity|eexists; reflexivity].
  rewrite !and_then_done.
  destruct (validated_truthy _ Hv) as [Hr Hd].
  pose proof (@process_returns sw result code Hr Hd) as Hp.
  destruct (get (get result (js "results")) (js "success")) as [| |[|]| | | |] eqn:Hs;
    try (rewrite !and_then_done, !and_then_emit, (and_then_returns _ _ Hp);
         cbn [try_catch fst snd emit app]; reflexivity).
  match goal with |- context [@throw_Error ?A ?v] =>
    destruct (@throw_Error_fails A v) as [f ->] end.
  eexists. reflexivity.
Qed.

(** *** Which calls are made *)

Lemma and_then_raise {A B : Type} (f : failure) (k : A -> action B) :
  and_then (raise f) k = raise f.
Proof. reflexivity. Qed.

Lemma fst_emit_then {B : Type} (c : call) (k : unit -> action B) :
  fst (and_then (emit c) k) = c :: fst (k tt).
Proof. rewrite and_then_emit. reflexivity. Qed.

Lemma snd_emit_then {B : Type} (c : call) (k : unit -> action B) :
  snd (and_then (emit c) k) = snd (k tt).
Proof. rewrite and_then_emit. reflexivity. Qed.

Lemma parse_never_throws (v : value) :
  exists o, Part000.parseComplexityFromAgent v = Return o.
Proof.
  destruct v; try (eexists; reflexivity).
  destruct s as [|c s]; [eexists; reflexivity|].
  destruct (@Part000_parse_text (c :: s) ltac:(discriminate)) as (tc & sc & _ & _ & ->).
  eexists. reflexivity.
Qed.

Lemma documentation_outcome (v : value) :
  let generated : action bool :=
    if truthy v
    then (t <~ lift (trim_of v) ;;
          done (negb (jsstring_eqb t (js "No documentation generated"))))
    else done false in
  if text_or_falsy v then exists b, generated = done b
  else generated = raise (Native TypeError).
Proof.
  cbv zeta. destruct v; cbn [text_or_falsy]; destruct (truthy _);
    cbn [negb trim_of lift]; try rewrite and_then_done;
    try reflexivity; eexists; reflexivity.
Qed.

Lemma suggestions_outcome (v : value) :
  if suggestions_readable v
  then exists l, Part000.parseRefactoringSuggestionsFromAgent_of v = Return l
  else Part000.parseRefactoringSuggestionsFromAgent_of v = Throw TypeError.
Proof.
  destruct v as [| |b|z|s|l|o];
    cbn [suggestions_readable Part000.parseRefactoringSuggestionsFromAgent_of];
    try destruct (truthy _); try destruct (existsb _ l); cbn [negb];
    try reflexivity; eexists; reflexivity.
Qed.

Lemma interpolate_outcome (v : value) :
  interpolate v = if printable v then done tt else raise (Native TypeError).
Proof. unfold interpolate, printable. destruct (String_ v) as [t|[]]; reflexivity. Qed.

Lemma printable_or_value (v : value) (d : jsstring) :
  printable_or_falsy (or_value v d) = printable_or_falsy v.
Proof.
  unfold or_value, printable_or_falsy. destruct (truthy v) eqn:E.
  - rewrite E. reflexivity.
  - cbn [negb orb]. apply orb_true_r.
Qed.

(** The two view methods that write a value of the response: the call, and
    how it ends. *)
Lemma updateStructureTab_outcome (data : structureData) :
  Part000.updateStructureTab data
  = ([updateStructureTab data],
     if printable_or_falsy (structure_image data) then Ok tt
     else Failed (Native TypeError)).
Proof.
  unfold Part000.updateStructureTab, printable_or_falsy. rewrite and_then_emit.
  destruct (truthy (structure_image data)); [|reflexivity].
  rewrite interpolate_outcome. destruct (printable _); reflexivity.
Qed.

Lemma updateImprovementsTab_outcome (data : improvementsData) :
  Part000.updateImprovementsTab data
  = ([updateImprovementsTab data],
     if printable_or_falsy (content data) then Ok tt
     else Failed (Native TypeError)).
Proof.
  unfold Part000.updateImprovementsTab, printable_or_falsy. rewrite and_then_emit.
  destruct (truthy (content data)); [|reflexivity].
  rewrite interpolate_outcome. destruct (printable _); reflexivity.
Qed.

Lemma updateHackerStructureTab_outcome (data : structureData) :
  AnalysisJs.updateHackerStructureTab data
  = ([updateHackerStructureTab data],
     if printable_or_falsy (structure_image data) then Ok tt
     else Failed (Native TypeError)).
Proof.
  unfold AnalysisJs.updateHackerStructureTab, printable_or_falsy. rewrite and_then_emit.
  destruct (truthy (structure_image data)); [|reflexivity].
  rewrite interpolate_outcome. destruct (printable _); reflexivity.
Qed.

Lemma updateHackerImprovementsTab_outcome (data : improvementsData) :
  AnalysisJs.updateHackerImprovementsTab data
  = ([updateHackerImprovementsTab data],
     if printable_or_falsy (content data) then Ok tt
     else Failed (Native TypeError)).
Proof.
  unfold AnalysisJs.updateHackerImprovementsTab, printable_or_falsy.
  rewrite and_then_emit.
  destruct (truthy (content data)); [|reflexivity].
  rewrite interpolate_outcome. destruct (printable _); reflexivity.
Qed.

Lemma fst_call_then {B : Type} (c : call) (b : bool) (f : failure)
    (k : unit -> action B) :
  fst (and_then ([c], if b then Ok tt else Failed f) k)
  = c :: (if b then fst (k tt) else []).
Proof. destruct b; [exact (fst_emit_then c k)|reflexivity]. Qed.

Lemma snd_call_then {B : Type} (c : call) (b : bool) (f : failure)
    (k : unit -> action B) :
  snd (and_then ([c], if b then Ok tt else Failed f) k)
  = if b then snd (k tt) else Failed f.
Proof. destruct b; [exact (snd_emit_then c k)|reflexivity]. Qed.

(** X17.  For a response with a truthy [results], [processAnalysisResults]
    either renders all, raising no alert and calling the structure tab, the
    improvements tab and (when the page defines it) [switchTab] in this
    order; or it stops at the first value that it cannot read or write into
    the page: it raises one alert, with a TypeError, as its last call, it
    calls no tab after the one that failed, and it does not call
    [switchTab].  It renders all exactly when [documentation] is a string or
    falsy, [refactoring_suggestions] is a string, falsy, or an array that
    holds the marker, and [structure_img] and [improvement_suggestions] are
    each falsy or convertible to a string. *)
Theorem processAnalysisResults_all_or_alert (sw : bool) (result : value)
    (code : jsstring)
    (Hr : truthy result = true)
    (Hd : truthy (get result (js "results")) = true) :
  let data := get result (js "results") in
  let calls := fst (Part000.processAnalysisResults sw result code) in
  let alert := showAlertError (js "Error displaying results: ") (Native TypeError) in
  exists s i,
    if renders data
    then
      filter is_alert calls = []
      /\ filter is_structure_or_later calls
         = updateStructureTab s :: updateImprovementsTab i
           :: (if sw then [switchTab (js "complexity")] else [])
    else
      filter is_alert calls = [alert]
      /\ last calls showLoadingState = alert
      /\ filter is_structure_or_later calls
         = firstn (tabs_called data) [updateStructureTab s; updateImprovementsTab i].
Proof.
  cbv zeta. unfold Part000.processAnalysisResults, renders, tabs_called. cbv zeta.
  rewrite (@member_truthy _ (js "results") Hr). cbn [lift]. rewrite and_then_done.
  rewrite (@member_truthy _ (js "analysis_id") Hd). cbn [lift]. rewrite and_then_done.
  set (data := get result (js "results")).
  pose proof (documentation_outcome (get data (js "documentation"))) as Hdoc.
  pose proof (suggestions_outcome (get data (js "refactoring_suggestions"))) as Hsug.
  cbv zeta in Hdoc.
  destruct (parse_never_throws (get data (js "complexity_analysis"))) as [o Ho].
  rewrite Ho. cbn [lift]. rewrite !and_then_done.
  rewrite !updateStructureTab_outcome, !updateImprovementsTab_outcome.
  cbn [structure_image content]. rewrite !printable_or_value.
  exists {| functions_count := countFunctions code;
            lines_count := List.length (String_split_unit code 10);
            complexity_score :=
              match o with
              | Some a => or_number (score a) 5
              | None => Num 5
              end;
            dependencies := 0;
            structure_image := get data (js "structure_img") |},
         {| improvements_performance_score :=
              match o with
              | Some a => or_number (performance_score a) 65
              | None => Num 65
              end;
            readability_score := 75;
            documentation_score :=
              if truthy (get data (js "documentation")) then 80 else 30;
            testing_score := 10;
            content :=
              or_value (get data (js "improvement_suggestions"))
                (js "No specific improvements suggested") |}.
  destruct (truthy (get data (js "analysis_id")));
    [rewrite fst_emit_then|rewrite and_then_done];
    rewrite fst_try_catch;
    (destruct o; rewrite fst_emit_then, snd_emit_then);
    (destruct (text_or_falsy (get data (js "documentation")));
     [destruct Hdoc as [b Hb]; rewrite Hb, !and_then_done; destruct b;
      rewrite fst_emit_then, snd_emit_then;
      (destruct (suggestions_readable (get data (js "refactoring_suggestions")));
       [destruct Hsug as [l Hl]; rewrite Hl; cbn [lift]; rewrite !and_then_done;
        destruct (0 <? List.length l)%nat;
        rewrite !fst_emit_then, !snd_emit_then, !fst_call_then, !snd_call_then;
        destruct (printable_or_falsy (get data (js "structure_img")));
        rewrite ?fst_call_then, ?snd_call_then;
        destruct (printable_or_falsy (get data (js "improvement_suggestions")));
        destruct sw
       |rewrite Hsug; cbn [lift]; rewrite !and_then_raise])
     |rewrite Hdoc, !and_then_raise]);
    cbn [andb raise done emit fst snd app filter is_alert is_structure_or_later
           last firstn];
    repeat split; reflexivity.
Qed.

(** *** What the tabs are given *)

Lemma Forall_and_then {A B : Type} (P : call -> Prop) (m : action A) (k : A -> action B) :
  Forall P (fst m) -> (forall a, snd m = Ok a -> Forall P (fst (k a))) ->
  Forall P (fst (and_then m k)).
Proof.
  intros Hm Hk. rewrite fst_and_then. apply Forall_app. split; [exact Hm|].
  destruct (snd m) as [a|f] eqn:E; [apply Hk; reflexivity|apply Forall_nil].
Qed.

Lemma Forall_try_catch (P : call -> Prop) (m : action unit) (h : failure -> action unit) :
  Forall P (fst m) -> (forall f, Forall P (fst (h f))) ->
  Forall P (fst (try_catch m h)).
Proof.
  intros Hm Hh. rewrite fst_try_catch. apply Forall_app. split; [exact Hm|].
  destruct (snd m); [apply Forall_nil|apply Hh].
Qed.

Lemma Forall_lift {A : Type} (P : call -> Prop) (c : completion A) :
  Forall P (fst (lift c)).
Proof. destruct c; apply Forall_nil. Qed.

Lemma Forall_emit (P : call -> Prop) (c : call) : P c -> Forall P (fst (emit c)).
Proof. intros H. apply Forall_cons; [exact H|apply Forall_nil]. Qed.

Lemma Forall_done {A : Type} (P : call -> Prop) (a : A) : Forall P (fst (done a)).
Proof. apply Forall_nil. Qed.

Lemma split_at_length (sep : N) (acc s : jsstring) :
  List.length (split_at sep acc s) = S (List.length (filter (N.eqb sep) s)).
Proof.
  revert acc. induction s as [|x s IH]; intros acc; [reflexivity|].
  cbn [split_at filter]. rewrite (N.eqb_sym sep x).
  destruct (x =? sep)%N; cbn [List.length]; rewrite IH; reflexivity.
Qed.

Lemma countFunctions_positive (code : jsstring) : (1 <= countFunctions code)%Z.
Proof. unfold countFunctions. apply Z.le_max_l. Qed.

Lemma Part000_scores_of (v : value) (a : assessment) :
  Part000.parseComplexityFromAgent v = Return (Some a) ->
  (exists z, score a = Num z /\ (1 <= z <= 10)%Z)
  /\ (exists p, performance_score a = Num p /\ In p performance_values).
Proof.
  intros Ha. destruct (Part000_parse_some _ Ha) as (text & -> & Hne).
  destruct (Part000_parse_text Hne) as (tc & sc & _ & _ & H).
  rewrite H in Ha. injection Ha as <-. cbn [score performance_score].
  pose proof (timeToken_found_shape text) as [Ht _].
  pose proof (spaceToken_found_shape text) as [Hs _].
  split.
  - exact (proj2 (complexity_in_range Ht Hs)).
  - exact (proj2 (performance_in_values Ht)).
Qed.

Lemma lift_Ok {A : Type} (c : completion A) (a : A) :
  snd (lift c) = Ok a -> c = Return a.
Proof. destruct c; simpl; congruence. Qed.

Lemma or_number_nonzero (z d : Z) : z <> 0%Z -> or_number (Num z) d = Num z.
Proof.
  intros Hz. unfold or_number. destruct (Z.eqb_spec z 0); [contradiction|reflexivity].
Qed.

Lemma member_Return (v : value) (p : jsstring) (a : value) :
  member v p = Return a -> a = get v p.
Proof. destruct v; cbn [member]; congruence. Qed.

Lemma Forall_call {A : Type} (P : call -> Prop) (c : call) (r : attempt A) :
  P c -> Forall P (fst ([c], r)).
Proof. intros H. apply Forall_cons; [exact H|apply Forall_nil]. Qed.

Lemma performance_nonzero (p : Z) : In p performance_values -> p <> 0%Z.
Proof.
  intros Hp ->. revert Hp. unfold performance_values. simpl. intuition discriminate.
Qed.

(** X18.  Whatever the response, each call of the structure tab is given the
    count of [countFunctions] on the code, which is at least 1, a lines
    count of one more than the number of newlines of the code, no
    dependencies, the [structure_img] of the response, and as complexity
    score the score of the assessment made of [complexity_analysis], an
    integer from 1 to 10, or 5 when there is no assessment; each call of the
    improvements tab is given the performance score of that assessment, one
    of the values of the table, or 65 when there is none, the readability
    score 75, the documentation score 80 when [documentation] is truthy and
    30 otherwise, and the testing score 10.  So the fallbacks [|| 5] and
    [|| 65] never replace the score of an assessment. *)
Theorem processAnalysisResults_data (sw : bool) (result : value) (code : jsstring) :
  Forall (tab_data code (get result (js "results")))
    (fst (Part000.processAnalysisResults sw result code)).
Proof.
  unfold Part000.processAnalysisResults. cbv zeta.
  apply Forall_and_then; [apply Forall_lift|intros analysisData Hdata].
  apply lift_Ok, member_Return in Hdata. subst analysisData.
  repeat first
    [ apply Forall_and_then; [|intros ? ?]
    | apply Forall_try_catch; [|intros ?]
    | apply Forall_lift
    | apply Forall_done
    | apply Forall_emit
    | rewrite updateStructureTab_outcome; apply Forall_call
    | rewrite updateImprovementsTab_outcome; apply Forall_call
    | match goal with
      | |- Forall _ (fst (if ?b then _ else _)) => destruct b
      | |- Forall _ (fst (match ?o with _ => _ end)) => destruct o
      end ];
    try exact I.
  all: match goal with
       | H : snd (lift (Part000.parseComplexityFromAgent ?v)) = Ok ?o |- _ =>
           apply lift_Ok in H; unfold tab_data; rewrite H; cbv beta iota zeta;
           cbn [functions_count lines_count complexity_score dependencies
                  structure_image improvements_performance_score readability_score
                  documentation_score testing_score];
           destruct o as [data|];
           [destruct (@Part000_scores_of _ _ H) as [(z & Hz & Hrange) (p & Hp & Hin)];
            rewrite ?Hz, ?Hp,
              ?(@or_number_nonzero z 5 ltac:(lia)),
              ?(or_number_nonzero 65 (performance_nonzero Hin))|]
       end.
  all: repeat split;
    first [ reflexivity
          | apply countFunctions_positive
          | apply split_at_length
          | exists z; split; [reflexivity|exact Hrange]
          | exists p; split; [reflexivity|right; exact Hin]
          | exists 5%Z; split; [reflexivity|lia]
          | exists 65%Z; split; [reflexivity|left; reflexivity]
          | lia ].
Qed.

(** The scores that reach the two tabs, for an assessment with the best
    tokens, for one with the worst, and for a response without a text to
    assess. *)
Example processAnalysisResults_scores :
  let given (analysis : list (jsstring * value)) :=
    flat_map (fun c =>
                match c with
                | updateStructureTab d => [complexity_score d]
                | updateImprovementsTab d => [improvements_performance_score d]
                | _ => []
                end)
      (fst (Part000.processAnalysisResults true
              (Obj [(js "results", Obj analysis)]) (js "x = 1"))) in
  given [(js "complexity_analysis", Str (js "Time Complexity: O(1)"))]
  = [Num 10; Num 95]
  /\ given [(js "complexity_analysis",
             Str (js "Time Complexity: O(2^n) Space Complexity: O(2^n)"))]
     = [Num 1; Num 5]
  /\ given [] = [Num 5; Num 65].
Proof. repeat split; vm_compute; reflexivity. Qed.

(** *** The request and the loading state *)

Lemma filter_nil_Forall {A : Type} (p : A -> bool) (l : list A) :
  Forall (fun x => p x = false) l -> filter p l = [].
Proof.
  induction 1 as [|x l Hx _ IH]; [reflexivity|]. simpl. rewrite Hx. exact IH.
Qed.

Lemma process_quiet (sw : bool) (result : value) (code : jsstring) :
  filter is_request_or_loading (fst (Part000.processAnalysisResults sw result code)) = [].
Proof.
  apply filter_nil_Forall.
  unfold Part000.processAnalysisResults. cbv zeta.
  repeat first
    [ apply Forall_and_then; [|intros ? ?]
    | apply Forall_try_catch; [|intros ?]
    | apply Forall_lift
    | apply Forall_done
    | apply Forall_emit
    | match goal with
      | |- Forall _ (fst (if ?b then _ else _)) => destruct b
      | |- Forall _ (fst (match ?o with _ => _ end)) => destruct o
      end ];
    reflexivity.
Qed.

(** X19.  When the code holds a code unit that is not white space and an
    option is selected, [handleFormSubmit] shows the loading state, sends
    one request with the options joined by commas, and hides the loading
    state once, in this order, whatever the network and the response do.
    Otherwise it does none of the three. *)
Theorem handleFormSubmit_loading (sw : bool) (now : Z) (network : option response)
    (code language : jsstring) (selectedOptions : list jsstring) :
  filter is_request_or_loading
    (Part000.handleFormSubmit sw now network code language selectedOptions)
  = match trim code, selectedOptions with
    | _ :: _, _ :: _ =>
        [showLoadingState;
         fetch code language (join (js ",") selectedOptions);
         hideLoadingState]
    | _, _ => []
    end.
Proof.
  destruct (trim code) as [|c t] eqn:Hcode.
  { unfold Part000.handleFormSubmit. rewrite Hcode.
    replace (jsstring_eqb [] []) with true by reflexivity.
    rewrite orb_true_r. reflexivity. }
  destruct selectedOptions as [|o os].
  { unfold Part000.handleFormSubmit. rewrite Hcode.
    destruct (_ || _); reflexivity. }
  assert (H1 : trim code <> []) by (rewrite Hcode; discriminate).
  assert (H2 : o :: os <> []) by discriminate.
  pose proof (@submit_calls sw now network code language (o :: os) H1 H2) as H.
  destruct (accepted network) as [result|].
  - rewrite H. cbn [app filter is_request_or_loading].
    rewrite filter_app, process_quiet. reflexivity.
  - destruct H as [error ->]. reflexivity.
Qed.

(** X20.  Once the form is filled in, [handleFormSubmit] makes one of two
    sequences of calls.  For a response that is ok, is JSON, passes
    [validateResponse] and whose [results.success] is not [false]: the
    session id, the calls of [processAnalysisResults], [hideLoadingState]
    and the success alert, also when the rendering raised an alert of its
    own.  For any other outcome of the request: the failure alert and
    [hideLoadingState], and no tab is touched. *)
Theorem handleFormSubmit_calls (sw : bool) (now : Z) (network : option response)
    (code language : jsstring) (selectedOptions : list jsstring)
    (Hcode : trim code <> []) (Hoptions : selectedOptions <> []) :
  match accepted network with
  | Some result =>
      Part000.handleFormSubmit sw now network code language selectedOptions
      = [showLoadingState;
         fetch code language (join (js ",") selectedOptions);
         set_currentSessionId
           (or_value (get (get result (js "results")) (js "analysis_id"))
              (Z_to_string now))]
        ++ fst (Part000.processAnalysisResults sw result code)
        ++ [hideLoadingState;
            showAlert (js "Analysis completed successfully!") (js "success")]
  | None =>
      exists error,
        Part000.handleFormSubmit sw now network code language selectedOptions
        = [showLoadingState;
           fetch code language (join (js ",") selectedOptions);
           showAlertError (js "Analysis failed: ") error;
           hideLoadingState]
  end.
Proof. exact (@submit_calls sw now network code language selectedOptions Hcode Hoptions). Qed.

Lemma handleFormSubmit_calls_witness :
  exists error,
    Part000.handleFormSubmit true 0 None (js "x = 1") (js "python") [js "complexity"]
    = [showLoadingState;
       fetch (js "x = 1") (js "python") (join (js ",") [js "complexity"]);
       showAlertError (js "Analysis failed: ") error;
       hideLoadingState].
Proof.
  assert (Hcode : trim (js "x = 1") <> []) by (vm_compute; discriminate).
  assert (Hoptions : [js "complexity"] <> []) by discriminate.
  exact (@handleFormSubmit_calls true 0 None (js "x = 1") (js "python")
           [js "complexity"] Hcode Hoptions).
Defined.

Lemma processAnalysisResults_all_or_alert_witness :
  let result :=
    Obj [(js "results",
          Obj [(js "structure_img", Obj [(js "toString", Number 1)])])] in
  let calls := fst (Part000.processAnalysisResults true result (js "x = 1")) in
  let alert := showAlertError (js "Error displaying results: ") (Native TypeError) in
  exists s i,
    filter is_alert calls = [alert]
    /\ last calls showLoadingState = alert
    /\ filter is_structure_or_later calls
       = firstn 1 [updateStructureTab s; updateImprovementsTab i].
Proof.
  exact (@processAnalysisResults_all_or_alert true
           (Obj [(js "results",
                  Obj [(js "structure_img", Obj [(js "toString", Number 1)])])])
           (js "x = 1") eq_refl eq_refl).
Defined.

(** ** Response validation and the cycle *)

(** When [validateResponse] returns [false] on the body of a response that
    is ok, the cycle of a filled-in form ends with the format error: no
    result is processed. *)
Lemma rejected_calls (sw : bool) (now http : Z) (result : value)
    (code language : jsstring) (selectedOptions : list jsstring) :
  trim code <> [] -> selectedOptions <> [] ->
  snd (validateResponse result) = Return false ->
  let network := Some {| ok := true; status := http; body := Some result |} in
  Part000.handleFormSubmit sw now network code language selectedOptions
  = [showLoadingState;
     fetch code language (join (js ",") selectedOptions);
     showAlertError (js "Analysis failed: ")
       (Error_ (js "Invalid response format from server"));
     hideLoadingState]
  /\ AnalysisJs.handleFormSubmit sw now network code language selectedOptions
     = [showHackerLoadingState;
        fetch code language (join (js ",") selectedOptions);
        showHackerAlertError (js "CRITICAL ERROR: ")
          (Error_ (js "Invalid response format from server"));
        hideHackerLoadingState].
Proof.
  intros Hcode Hopts Hv. cbv zeta.
  unfold Part000.handleFormSubmit, AnalysisJs.handleFormSubmit.
  assert (Hgate : (List.length code =? 0)%nat || jsstring_eqb (trim code) [] = false).
  { destruct code as [|c s]; [elim Hcode; reflexivity|]. cbn [List.length Nat.eqb orb].
    apply jsstring_eqb_neq. exact Hcode. }
  rewrite Hgate.
  destruct selectedOptions as [|o os]; [congruence|]. cbn [List.length Nat.eqb].
  rewrite !fst_emit_then, !fst_try_catch, !fst_emit_then, !snd_emit_then.
  rewrite !and_then_done. cbn [ok body status negb]. rewrite !and_then_done.
  rewrite Hv. cbn [lift]. rewrite !and_then_done. cbn [negb].
  rewrite !and_then_raise. split; reflexivity.
Qed.

(** C8.  [validateResponse] returns [false] exactly when the response or its
    [results] is missing or falsy, and the cycle of a submitted form then
    ends with the alert of the format error, in both files, without a result
    being processed; when [results] is an object it returns [true] whichever
    of the four expected fields are missing, and only writes a warning that
    lists them. *)
Theorem validateResponse_spec (result : value) :
  (snd (validateResponse result) = Return false
   <-> truthy result = false \/ truthy (get result (js "results")) = false)
  /\ (snd (validateResponse result) = Return false ->
      forall (sw : bool) (now http : Z) (code language : jsstring)
             (selectedOptions : list jsstring),
        trim code <> [] -> selectedOptions <> [] ->
        let network := Some {| ok := true; status := http; body := Some result |} in
        Part000.handleFormSubmit sw now network code language selectedOptions
        = [showLoadingState;
           fetch code language (join (js ",") selectedOptions);
           showAlertError (js "Analysis failed: ")
             (Error_ (js "Invalid response format from server"));
           hideLoadingState]
        /\ AnalysisJs.handleFormSubmit sw now network code language selectedOptions
           = [showHackerLoadingState;
              fetch code language (join (js ",") selectedOptions);
              showHackerAlertError (js "CRITICAL ERROR: ")
                (Error_ (js "Invalid response format from server"));
              hideHackerLoadingState])
  /\ (forall props, get result (js "results") = Obj props ->
        let missing := filter (lacks props) required in
        validateResponse result =
          ((if (0 <? List.length missing)%nat
            then [console_warn_missing missing] else []),
           Return true)).
Proof.
  split; [|split].
  - unfold validateResponse.
    destruct (truthy result) eqn:Hr; cbn [negb orb].
    + destruct (truthy (get result (js "results"))) eqn:Hs; cbn [negb].
      * destruct (missing_in (get result (js "results")) required); cbn [snd];
          split; [discriminate|intros [H|H]; discriminate
                 |discriminate|intros [H|H]; discriminate].
      * cbn [snd]. split; [right|]; reflexivity.
    + cbn [snd]. split; [left|]; reflexivity.
  - intros Hv sw now http code language selectedOptions Hcode Hopts.
    exact (@rejected_calls sw now http result code language selectedOptions
             Hcode Hopts Hv).
  - intros props Hobj missing. unfold validateResponse.
    assert (Hr : truthy result = true).
    { destruct result; try reflexivity; discriminate Hobj. }
    rewrite Hr, Hobj. cbn [truthy negb orb].
    rewrite (missing_in_object props required_not_inherited).
    reflexivity.
Qed.

Lemma validateResponse_spec_witness :
  validateResponse (Obj [(js "results", Obj [(js "documentation", Str (js "d"))])])
  = ([console_warn_missing
        (map js ["complexity_analysis"; "refactoring_suggestions";
                 "improvement_suggestions"]%string)],
     Return true)
  /\ Part000.handleFormSubmit true 0
       (Some {| ok := true; status := 200; body := Some (Obj []) |})
       (js "x = 1") (js "python") [js "complexity"]
     = [showLoadingState;
        fetch (js "x = 1") (js "python") (join (js ",") [js "complexity"]);
        showAlertError (js "Analysis failed: ")
          (Error_ (js "Invalid response format from server"));
        hideLoadingState].
Proof.
  split.
  - exact (proj2 (proj2 (validateResponse_spec
                           (Obj [(js "results",
                                  Obj [(js "documentation", Str (js "d"))])])))
             [(js "documentation", Str (js "d"))] eq_refl).
  - assert (Hcode : trim (js "x = 1") <> []) by (vm_compute; discriminate).
    assert (Hoptions : [js "complexity"] <> []) by discriminate.
    exact (proj1 (proj1 (proj2 (validateResponse_spec (Obj []))) eq_refl
                    true 0%Z 200%Z (js "x = 1") (js "python") [js "complexity"]
                    Hcode Hoptions)).
Defined.

(** ** The two controllers *)

Lemma kinds_app (a b : list call) : kinds (a ++ b) = kinds a ++ kinds b.
Proof. apply flat_map_app. Qed.

(** The two copies of [parseComplexityFromAgent] agree on what the
    complexity tab shows. *)
Lemma parse_alike (v : value) :
  (AnalysisJs.parseComplexityFromAgent v = Return None
   /\ Part000.parseComplexityFromAgent v = Return None)
  \/ exists a b,
       AnalysisJs.parseComplexityFromAgent v = Return (Some a)
       /\ Part000.parseComplexityFromAgent v = Return (Some b)
       /\ time_complexity a = time_complexity b
       /\ space_complexity a = space_complexity b
       /\ full_analysis a = full_analysis b.
Proof.
  destruct v; try (left; split; reflexivity).
  destruct s as [|c s]; [left; split; reflexivity|right].
  assert (Hne : c :: s <> []) by discriminate.
  destruct (AnalysisJs_parse_text Hne) as (tc & sc & _ & _ & HA).
  destruct (Part000_parse_text Hne) as (tc' & sc' & _ & _ & HP).
  eexists _, _. split; [exact HA|]. split; [exact HP|]. repeat split.
Qed.

Lemma records_same_ids (refactoringText : option jsstring) :
  exists records,
    AnalysisJs.parseRefactoringSuggestionsFromAgent refactoringText = Return records
    /\ map id records
       = map id (Part000.parseRefactoringSuggestionsFromAgent refactoringText).
Proof.
  destruct (both_records refactoringText) as [[HA HP]|(text & -> & Hne & Hmark & HA & HP)].
  - exists []. split; [exact HA|]. rewrite HP. reflexivity.
  - exists (AnalysisJs_suggestions_spec text). split; [exact HA|].
    rewrite HP. unfold AnalysisJs_suggestions_spec, Part000_suggestions_spec.
    rewrite !map_map_from. reflexivity.
Qed.

Lemma suggestions_of_alike (v : value) :
  (AnalysisJs.parseRefactoringSuggestionsFromAgent_of v = Throw TypeError
   /\ Part000.parseRefactoringSuggestionsFromAgent_of v = Throw TypeError)
  \/ exists la lb,
       AnalysisJs.parseRefactoringSuggestionsFromAgent_of v = Return la
       /\ Part000.parseRefactoringSuggestionsFromAgent_of v = Return lb
       /\ map id la = map id lb.
Proof.
  destruct v as [| |b|z|s|l|o];
    cbn [AnalysisJs.parseRefactoringSuggestionsFromAgent_of
           Part000.parseRefactoringSuggestionsFromAgent_of].
  1-4,6-7: try destruct (truthy _); try destruct (existsb _ l);
    first [left; split; reflexivity|right; exists [], []; repeat split].
  right. destruct (records_same_ids (Some s)) as (records & HA & Hids).
  eexists _, _. split; [exact HA|]. split; [reflexivity|exact Hids].
Qed.

Lemma process_alike (sw : bool) (result : value) (code : jsstring) :
  kinds (fst (AnalysisJs.processHackerAnalysisResults sw result code))
  = kinds (fst (Part000.processAnalysisResults sw result code))
  /\ snd (AnalysisJs.processHackerAnalysisResults sw result code)
     = snd (Part000.processAnalysisResults sw result code).
Proof.
  unfold AnalysisJs.processHackerAnalysisResults, Part000.processAnalysisResults.
  cbv zeta.
  destruct (member result (js "results")) as [data|e]; cbn [lift];
    [|split; reflexivity].
  rewrite !and_then_done.
  destruct (member data (js "analysis_id")) as [analysis_id|e]; cbn [lift];
    [|split; reflexivity].
  rewrite !and_then_done.
  pose proof (documentation_outcome (get data (js "documentation"))) as Hdoc.
  cbv zeta in Hdoc.
  assert (Hsession : forall (k k' : action unit),
            kinds (fst k) = kinds (fst k') /\ snd k = snd k' ->
            kinds (fst (_ <~ (if truthy analysis_id
                              then emit (set_currentSessionId analysis_id)
                              else done tt) ;; k))
            = kinds (fst (_ <~ (if truthy analysis_id
                                then emit (set_currentSessionId analysis_id)
                                else done tt) ;; k'))
            /\ snd (_ <~ (if truthy analysis_id
                          then emit (set_currentSessionId analysis_id)
                          else done tt) ;; k)
               = snd (_ <~ (if truthy analysis_id
                            then emit (set_currentSessionId analysis_id)
                            else done tt) ;; k')).
  { intros k k' [Hk Hk']. destruct (truthy analysis_id).
    - rewrite !fst_emit_then, !snd_emit_then. cbn [kinds flat_map kind_of app].
      fold (kinds (fst k)). fold (kinds (fst k')). rewrite Hk. split; [reflexivity|exact Hk'].
    - rewrite !and_then_done. split; assumption. }
  apply Hsession. clear Hsession.
  rewrite !fst_try_catch, !snd_try_catch, !kinds_app.
  destruct (parse_alike (get data (js "complexity_analysis")))
    as [[HA HP]|(a & b & HA & HP & Ht & Hs & Hf)];
    rewrite HA, HP; cbn [lift]; rewrite !and_then_done, !fst_emit_then, !snd_emit_then;
    rewrite !updateStructureTab_outcome, !updateImprovementsTab_outcome,
      !updateHackerStructureTab_outcome, !updateHackerImprovementsTab_outcome;
    cbn [structure_image content]; rewrite !printable_or_value;
    (destruct (text_or_falsy (get data (js "documentation")));
     [destruct Hdoc as [g Hg]; rewrite !Hg, !and_then_done; destruct g;
      rewrite !fst_emit_then, !snd_emit_then;
      (destruct (suggestions_of_alike (get data (js "refactoring_suggestions")))
         as [[HA' HP']|(la & lb & HA' & HP' & Hids)];
       rewrite HA', HP'; cbn [lift];
       [rewrite !and_then_raise
       |rewrite !and_then_done;
        assert (Hlen : List.length la = List.length lb)
          by (rewrite <- (length_map id la), <- (length_map id lb), Hids; reflexivity);
        rewrite Hlen; destruct (0 <? List.length lb)%nat;
        rewrite !fst_emit_then, !snd_emit_then, !fst_call_then, !snd_call_then;
        destruct (printable_or_falsy (get data (js "structure_img")));
        rewrite ?fst_call_then, ?snd_call_then;
        destruct (printable_or_falsy (get data (js "improvement_suggestions")));
        destruct sw;
        rewrite ?fst_emit_then, ?snd_emit_then, ?and_then_done])
     |rewrite !Hdoc, !and_then_raise]);
    cbn [raise done emit fst snd app kinds flat_map kind_of
           functions_count lines_count dependencies structure_image
           readability_score documentation_score testing_score];
    rewrite ?Ht, ?Hs, ?Hf, ?Hids; split; reflexivity.
Qed.

(** X21.  [processHackerAnalysisResults] of analysis.js and
    [processAnalysisResults] of the plain copy make the same calls in the
    same order, up to the names of the methods, the wording of the messages,
    the scores and descriptions shown, and the entrance animations that
    analysis.js adds; and the one throws exactly when the other does. *)
Theorem processHackerAnalysisResults_alike (sw : bool) (result : value)
    (code : jsstring) :
  kinds (fst (AnalysisJs.processHackerAnalysisResults sw result code))
  = kinds (fst (Part000.processAnalysisResults sw result code))
  /\ snd (AnalysisJs.processHackerAnalysisResults sw result code)
     = snd (Part000.processAnalysisResults sw result code).
Proof. exact (process_alike sw result code). Qed.

(** X22.  The two copies of [handleFormSubmit] make the same calls in the
    same order, up to the names of the methods, the wording of the messages,
    the scores and descriptions shown, and the entrance animations that
    analysis.js adds: the same form is rejected, the same request is sent,
    the same errors are reported, and the same tabs are filled. *)
Theorem handleFormSubmit_alike (sw : bool) (now : Z) (network : option response)
    (code language : jsstring) (selectedOptions : list jsstring) :
  kinds (AnalysisJs.handleFormSubmit sw now network code language selectedOptions)
  = kinds (Part000.handleFormSubmit sw now network code language selectedOptions).
Proof.
  unfold AnalysisJs.handleFormSubmit, Part000.handleFormSubmit.
  destruct ((List.length code =? 0)%nat || jsstring_eqb (trim code) []);
    [reflexivity|].
  destruct (List.length selectedOptions =? 0)%nat; [reflexivity|].
  rewrite !fst_emit_then, !fst_try_catch, !fst_emit_then, !snd_emit_then.
  destruct network as [[o st b]|]; [|reflexivity].
  rewrite !and_then_done. cbn [ok body status].
  destruct o; cbn [negb].
  2:{ match goal with |- context [member ?v ?p] => destruct (member v p) as [results|e] end;
        cbn [lift]; [|reflexivity].
      rewrite !and_then_done. unfold throw_Error.
      match goal with |- context [String_ ?v] => destruct (String_ v) end; reflexivity. }
  rewrite !and_then_done.
  destruct b as [result|]; [|reflexivity].
  rewrite !and_then_done.
  destruct (snd (validateResponse result)) as [[|]|e]; cbn [lift negb];
    [|reflexivity|reflexivity].
  rewrite !and_then_done. cbn [negb]. rewrite !and_then_done.
  destruct (process_alike sw result code) as [Hk Hsnd].
  destruct (get (get result (js "results")) (js "success")) as [| |[|]| | | |];
    try (rewrite ?and_then_done, !fst_emit_then, !snd_emit_then, !fst_and_then,
           !snd_and_then, Hsnd;
         destruct (snd (Part000.processAnalysisResults sw result code)) as [[]|f];
         cbn [emit fst snd];
         repeat (rewrite ?kinds_app; cbn [kinds flat_map kind_of app]);
         fold (kinds (fst (AnalysisJs.processHackerAnalysisResults sw result code)));
         fold (kinds (fst (Part000.processAnalysisResults sw result code)));
         rewrite ?Hk; reflexivity).
  unfold throw_Error.
  match goal with |- context [String_ ?v] => destruct (String_ v) end; reflexivity.
Qed.
